(** * Occupancy and reporting engine of the booking manager

  A shallow embedding of the report computations of the repository:
  the client-side report builder ([reportData] of src/App.tsx) and
  the server-side resolvers
  (prohost-server/src/resolvers/reportResolvers.ts and
  bookingResolvers.ts), followed by the properties the specification
  states about them.

  Conventions.
  - JavaScript numbers that count things (nights, days, list sizes) are
    integers [Z]; amounts of money and percentages are rationals [Q].
    The rationals are exact, so the rounding error of doubles is not
    part of this development.
  - A calendar date written 'yyyy-MM-dd' is represented by its day
    number (days since 1970-01-01).  The sources compare such strings
    with [<], [<=], [>], [>=]; on zero-padded ISO dates that is the
    order of (year, month, day), which is the order of the day numbers
    ([CalendarProps.civil_order]), so the comparisons become
    comparisons of day numbers.
  - Module [Client] takes the check-in and check-out of a booking as
    such dates.  The server delivers them as date-time strings
    ('2026-03-10T00:00:00.000Z'); module [Received] has the room
    statistics of the report on those strings, compared as JavaScript
    compares strings.
  - A JavaScript [Date] on the server is its epoch time in
    milliseconds, with the server clock taken to be UTC. *)

From Stdlib Require Import ZArith QArith Qround List String Ascii Bool Lia.
From Stdlib Require Import DecimalString Permutation Sorted.
Import ListNotations.

Open Scope Z_scope.

(* ------------------------------------------------------------------ *)
(** ** Calendar: JavaScript [Date] and the date-fns functions used      *)
(* ------------------------------------------------------------------ *)

Module Calendar.

(** A 'yyyy-MM-dd' date, as a day number. *)
Definition IsoDate := Z.

(** Day number of the civil date [y]-[m]-[d] (proleptic Gregorian
    calendar, months 1..12). *)
Definition days_from_civil (y m d : Z) : Z :=
  let y' := if m <=? 2 then y - 1 else y in
  let era := y' / 400 in
  let yoe := y' - era * 400 in
  let mp := if 2 <? m then m - 3 else m + 9 in
  let doy := (153 * mp + 2) / 5 + d - 1 in
  let doe := yoe * 365 + yoe / 4 - yoe / 100 + doy in
  era * 146097 + doe - 719468.

(** Civil date (year, month 1..12, day) of a day number. *)
Definition civil_from_days (z : Z) : Z * Z * Z :=
  let z := z + 719468 in
  let era := z / 146097 in
  let doe := z - era * 146097 in
  let yoe := (doe - doe / 1460 + doe / 36524 - doe / 146096) / 365 in
  let doy := doe - (365 * yoe + yoe / 4 - yoe / 100) in
  let mp := (5 * doy + 2) / 153 in
  let d := doy - (153 * mp + 2) / 5 + 1 in
  let m := if mp <? 10 then mp + 3 else mp - 9 in
  let y := yoe + era * 400 in
  (if m <=? 2 then y + 1 else y, m, d).

(** [new Date(year, monthIndex, day)] as a day number: the month index
    is 0-based and, like the day, may overflow into the neighbouring
    months ([new Date(y, m, 0)] is the last day of month index
    [m - 1]).  The year is taken as given, as JavaScript takes every
    year but 0 to 99, which it reads as 1900 + year; a statement that
    compares the dates of two different years leaves those out. *)
Definition jsDate (year monthIndex day : Z) : IsoDate :=
  let months := year * 12 + monthIndex in
  days_from_civil (months / 12) (months mod 12 + 1) 1 + (day - 1).

(** The date literal [y]-[m]-[d]. *)
Definition ymd (y m d : Z) : IsoDate := jsDate y (m - 1) d.

Definition yearOf (d : IsoDate) : Z := fst (fst (civil_from_days d)).
Definition monthOf (d : IsoDate) : Z := snd (fst (civil_from_days d)).

(** [parseISO] of a 'yyyy-MM-dd' string is local midnight of that day,
    [format (_, 'yyyy-MM-dd')] goes back; both are the identity on day
    numbers. *)
Definition parseISO (s : IsoDate) : Z := s.
Definition format (d : Z) : IsoDate := d.

(** Number of full days from [earlier] to [later], both at midnight. *)
Definition differenceInDays (later earlier : Z) : Z := later - earlier.

Definition addDays (d amount : Z) : Z := d + amount.

Definition startOfMonth (d : Z) : Z := jsDate (yearOf d) (monthOf d - 1) 1.

(** The last day of the month of [d] (date-fns returns its last
    millisecond; only the day is ever read). *)
Definition endOfMonth (d : Z) : Z := jsDate (yearOf d) (monthOf d) 0.

(** [getDaysInMonth]. *)
Definition getDaysInMonth (d : Z) : Z :=
  differenceInDays (endOfMonth d) (startOfMonth d) + 1.

(** [date.setMonth(date.getMonth() + 1)] on a first of a month. *)
Definition nextMonth (d : Z) : Z := jsDate (yearOf d) (monthOf d) 1.

(** The loop of [eachMonthOfInterval]:
    [while (+currentDate <= endTime) { dates.push(currentDate);
       currentDate.setMonth(currentDate.getMonth() + 1) }].
    Every turn moves [currentDate] forward by a month, so the number
    of days left bounds the number of turns
    ([CalendarProps.monthsLoop_fuel]). *)
Fixpoint monthsLoop (fuel : nat) (currentDate endTime : Z) : list Z :=
  match fuel with
  | O => []
  | S fuel' =>
      if currentDate <=? endTime
      then currentDate :: monthsLoop fuel' (nextMonth currentDate) endTime
      else []
  end.

Definition monthsBetween (startDate endTime : Z) : list Z :=
  let currentDate := startOfMonth startDate in
  monthsLoop (Z.to_nat (endTime - currentDate + 1)) currentDate endTime.

(** date-fns is a dependency of the repository and the sources do not
    pin its version.  The two release lines differ on an interval
    whose start is after its end: 2.x throws [RangeError('Invalid
    interval')], 3.x and 4.x return the months in descending order. *)
Inductive DateFns := V2 | V3.

Inductive RangeError := InvalidInterval.

Definition eachMonthOfInterval (v : DateFns) (startDate endDate : Z)
  : RangeError + list Z :=
  match v with
  | V2 =>
      if startDate <=? endDate
      then inr (monthsBetween startDate endDate)
      else inl InvalidInterval
  | V3 =>
      let reversed := endDate <? startDate in
      let endTime := if reversed then startDate else endDate in
      let dates := monthsBetween (if reversed then endDate else startDate) endTime in
      inr (if reversed then rev dates else dates)
  end.

End Calendar.

(* ------------------------------------------------------------------ *)
(** ** Client: src/db.ts and the report builder of src/App.tsx          *)
(* ------------------------------------------------------------------ *)

Module Client.
Import Calendar.

(** [BookingStatus] of src/db.ts. *)
Inductive BookingStatus := UPCOMING | ACTIVE | COMPLETED | CANCELED | NO_SHOW.

Definition isCanceled (s : BookingStatus) : bool :=
  match s with CANCELED => true | _ => false end.

(** [createdAt] is an ISO date-time 'yyyy-MM-ddTHH:mm:ss.sssZ':
    the date before the 'T' and the time of day after it. *)
Record IsoDateTime := mkDateTime { datePart : IsoDate; timePart : Z }.

(** [b.createdAt.split('T')[0]]. *)
Definition splitT0 (t : IsoDateTime) : IsoDate := datePart t.

(** The fields of [Booking] (src/db.ts) that the reports read, with
    the check-in and the check-out as calendar dates. *)
Record Booking := mkBooking {
  id : string;
  room : string;
  checkIn : IsoDate;
  checkOut : IsoDate;
  nights : Z;
  totalPrice : Q;
  createdAt : IsoDateTime;
  status : BookingStatus
}.

Record RoomConfig := mkRoom { roomId : string; roomName : string }.

Definition DEFAULT_ROOMS : list RoomConfig :=
  [ mkRoom "A1" "A1"; mkRoom "A2" "A2"; mkRoom "A3" "A3";
    mkRoom "A4" "A4"; mkRoom "A5" "A5" ].

(** [session.tenant.rooms?.length ? session.tenant.rooms : DEFAULT_ROOMS] *)
Definition roomsOf (tenantRooms : list RoomConfig) : list RoomConfig :=
  match tenantRooms with [] => DEFAULT_ROOMS | _ => tenantRooms end.

Inductive ReportType := stay | created.

(** [reportRoomFilter === 'ALL' || b.room === reportRoomFilter] *)
Definition roomMatch (reportRoomFilter : string) (b : Booking) : bool :=
  (reportRoomFilter =? "ALL")%string || (room b =? reportRoomFilter)%string.

Definition dateToCompare (reportType : ReportType) (b : Booking) : IsoDate :=
  match reportType with
  | stay => checkIn b
  | created => splitT0 (createdAt b)
  end.

(** The [filtered] list of [reportData]. *)
Definition filtered (bookings : list Booking) (reportType : ReportType)
    (reportStartDate reportEndDate : IsoDate) (reportRoomFilter : string)
  : list Booking :=
  filter (fun b =>
    if isCanceled (status b) then false
    else
      let d := dateToCompare reportType b in
      let inRange := (reportStartDate <=? d) && (d <=? reportEndDate) in
      inRange && roomMatch reportRoomFilter b) bookings.

Definition sumNights (l : list Booking) : Z :=
  fold_left (fun sum b => sum + nights b) l 0.

Definition sumRevenue (l : list Booking) : Q :=
  fold_left (fun sum b => (sum + totalPrice b)%Q) l 0%Q.

(** [roomBookings.some((b) => dStr >= b.checkIn && dStr < b.checkOut)] *)
Definition isOccupied (roomBookings : list Booking) (dStr : IsoDate) : bool :=
  existsb (fun b => (checkIn b <=? dStr) && (dStr <? checkOut b)) roomBookings.

(** The day loop of the per-room statistics:
    [while (current <= end) { ...; current = addDays(current, 1) }]. *)
Fixpoint dayLoop (fuel : nat) (roomBookings : list Booking)
    (current end_ : Z) (occupiedDays : Z) : Z :=
  match fuel with
  | O => occupiedDays
  | S fuel' =>
      if current <=? end_ then
        let dStr := format current in
        dayLoop fuel' roomBookings (addDays current 1) end_
          (if isOccupied roomBookings dStr then occupiedDays + 1 else occupiedDays)
      else occupiedDays
  end.

Definition daysInReport (reportStartDate reportEndDate : IsoDate) : Z :=
  differenceInDays (parseISO reportEndDate) (parseISO reportStartDate) + 1.

(** [occupiedDays] after the guarded loop; the loop makes
    [daysInReport] turns ([ClientProps.occupiedDays_fuel]). *)
Definition occupiedDays (roomBookings : list Booking)
    (reportStartDate reportEndDate : IsoDate) : Z :=
  let start := parseISO reportStartDate in
  let end_ := parseISO reportEndDate in
  if 0 <? daysInReport reportStartDate reportEndDate
  then dayLoop (Z.to_nat (daysInReport reportStartDate reportEndDate))
         roomBookings start end_ 0
  else 0.

(** [daysInReport > 0 ? (occupiedDays / daysInReport) * 100 : 0] *)
Definition occupancyRate (roomBookings : list Booking)
    (reportStartDate reportEndDate : IsoDate) : Q :=
  let n := daysInReport reportStartDate reportEndDate in
  if 0 <? n
  then (inject_Z (occupiedDays roomBookings reportStartDate reportEndDate)
          / inject_Z n * 100)%Q
  else 0%Q.

Record RoomStat := mkRoomStat {
  rs_roomId : string;
  rs_totalNights : Z;
  rs_totalRevenue : Q;
  rs_occupancyRate : Q
}.

Definition roomStat (filteredBookings : list Booking)
    (reportStartDate reportEndDate : IsoDate) (r : RoomConfig) : RoomStat :=
  let roomBookings :=
    filter (fun b => (room b =? roomId r)%string) filteredBookings in
  mkRoomStat (roomId r) (sumNights roomBookings) (sumRevenue roomBookings)
    (occupancyRate roomBookings reportStartDate reportEndDate).

(** [monthBookings] of a month bucket. *)
Definition monthBookings (bookings : list Booking) (reportRoomFilter : string)
    (realStart monthEnd : IsoDate) : list Booking :=
  filter (fun b =>
    negb (isCanceled (status b)) &&
    (checkIn b <=? monthEnd) &&
    (realStart <? checkOut b) &&
    roomMatch reportRoomFilter b) bookings.

(** [revenue] of a month bucket. *)
Definition monthRevenue (mb : list Booking) (realStart monthEnd : IsoDate) : Q :=
  fold_left (fun sum b =>
    if (realStart <=? checkIn b) && (checkIn b <=? monthEnd)
    then (sum + totalPrice b)%Q else sum) mb 0%Q.

(** The nights one booking adds to [occupancy] of a month bucket. *)
Definition clampedDays (realStart monthEnd : IsoDate) (b : Booking) : Z :=
  let s := if checkIn b <? realStart then parseISO realStart else parseISO (checkIn b) in
  let e := if monthEnd <? checkOut b then parseISO monthEnd else parseISO (checkOut b) in
  let days := differenceInDays e s in
  Z.max 0 days.

(** [occupancy] of a month bucket. *)
Definition monthOccupancy (mb : list Booking) (realStart monthEnd : IsoDate) : Z :=
  fold_left (fun sum b => sum + clampedDays realStart monthEnd b) mb 0.

Definition totalRoomsOf (reportRoomFilter : string) (rooms : list RoomConfig) : Z :=
  if (reportRoomFilter =? "ALL")%string then Z.of_nat (List.length rooms) else 1.

Definition totalPossibleNights (realStart monthEnd : IsoDate) : Z :=
  differenceInDays (parseISO monthEnd) (parseISO realStart) + 1.

Definition fillRateOf (occupancy possible totalRooms : Z) : Q :=
  if 0 <? possible
  then (inject_Z occupancy / inject_Z (possible * totalRooms) * 100)%Q
  else 0%Q.

(** One entry of [monthlyStats].  [ms_month] is the first day of the
    month, which the code turns into the label 'MMM yyyy'. *)
Record MonthStat := mkMonthStat {
  ms_month : Z;
  ms_revenue : Q;
  ms_fillRate : Q
}.

Definition monthStat (bookings : list Booking) (reportRoomFilter : string)
    (rooms : list RoomConfig) (month : Z) : MonthStat :=
  let monthEnd := format (endOfMonth month) in
  let realStart := format (startOfMonth month) in
  let mb := monthBookings bookings reportRoomFilter realStart monthEnd in
  let revenue := monthRevenue mb realStart monthEnd in
  let occupancy := monthOccupancy mb realStart monthEnd in
  let possible := totalPossibleNights realStart monthEnd in
  let totalRooms := totalRoomsOf reportRoomFilter rooms in
  mkMonthStat month revenue (fillRateOf occupancy possible totalRooms).

Record ReportData := mkReportData {
  roomStats : list RoomStat;
  totalRevenue : Q;
  totalNights : Z;
  bookingCount : Z;
  monthlyStats : list MonthStat
}.

(** [reportData]: the value of the memo, or the error thrown while
    computing it. *)
Definition reportData (v : DateFns) (bookings : list Booking)
    (reportStartDate reportEndDate : IsoDate) (reportRoomFilter : string)
    (reportType : ReportType) (tenantRooms : list RoomConfig)
  : RangeError + ReportData :=
  let rooms := roomsOf tenantRooms in
  let fl := filtered bookings reportType reportStartDate reportEndDate
              reportRoomFilter in
  let rstats := map (roomStat fl reportStartDate reportEndDate) rooms in
  match eachMonthOfInterval v (parseISO reportStartDate) (parseISO reportEndDate) with
  | inl e => inl e
  | inr months =>
      inr (mkReportData rstats (sumRevenue fl) (sumNights fl)
             (Z.of_nat (List.length fl))
             (map (monthStat bookings reportRoomFilter rooms) months))
  end.

End Client.

(* ------------------------------------------------------------------ *)
(** ** Server: prohost-server/src/resolvers                             *)
(* ------------------------------------------------------------------ *)

Module Server.
Import Calendar.

(** *** Strings *)

Definition upperAscii (c : ascii) : ascii :=
  let n := nat_of_ascii c in
  if (97 <=? n)%nat && (n <=? 122)%nat then ascii_of_nat (n - 32) else c.

Definition lowerAscii (c : ascii) : ascii :=
  let n := nat_of_ascii c in
  if (65 <=? n)%nat && (n <=? 90)%nat then ascii_of_nat (n + 32) else c.

Fixpoint mapString (f : ascii -> ascii) (s : string) : string :=
  match s with
  | EmptyString => EmptyString
  | String c s' => String (f c) (mapString f s')
  end.

(** [s.toUpperCase()] and [s.toLowerCase()], on ASCII text. *)
Definition toUpperCase : string -> string := mapString upperAscii.
Definition toLowerCase : string -> string := mapString lowerAscii.

(** [hay.includes(needle)] *)
Fixpoint includes (needle hay : string) : bool :=
  prefix needle hay ||
  match hay with
  | EmptyString => false
  | String _ hay' => includes needle hay'
  end.

(** A string is truthy when it is not empty. *)
Definition truthy (s : option string) : option string :=
  match s with
  | Some EmptyString => None
  | other => other
  end.

(** *** Storage *)

Definition MS_PER_DAY : Z := 1000 * 60 * 60 * 24.

(** [new Date(year, monthIndex, day)], in milliseconds. *)
Definition newDate (year monthIndex day : Z) : Z :=
  jsDate year monthIndex day * MS_PER_DAY.

(** A row of the [booking] table.  The resolvers treat rows as [any];
    these are the columns they read.  Dates are [Date] values. *)
Record Row := mkRow {
  id : string;
  tenantId : string;
  guestName : string;
  room : string;
  checkIn : Z;
  checkOut : Z;
  nights : Z;
  totalPrice : Q;
  deposit : Q;
  remaining : Q;
  status : option string;
  createdAt : Z
}.

Record Tenant := mkTenant { t_id : string; t_rooms : list string }.

Record Prisma := mkPrisma { bookingTable : list Row; tenantTable : list Tenant }.

(** [AppContext]: the authenticated user's tenant, when there is one,
    and the database. *)
Record AppContext := mkContext { user : option string; prisma : Prisma }.

Definition Result (A : Type) := (string + A)%type.

Definition requireAuth {A} (context : AppContext) (k : string -> Result A)
  : Result A :=
  match user context with
  | None => inl "Authentication required"%string
  | Some tenant => k tenant
  end.

(** [orderBy]: a stable insertion sort on the chosen column. *)
Inductive Direction := asc | desc.

Fixpoint insertBy (le : Row -> Row -> bool) (x : Row) (l : list Row) : list Row :=
  match l with
  | [] => [x]
  | y :: l' => if le x y then x :: l else y :: insertBy le x l'
  end.

Definition sortBy (le : Row -> Row -> bool) (l : list Row) : list Row :=
  fold_right (insertBy le) [] l.

Definition columnLe (column : string) : option (Row -> Row -> bool) :=
  if (column =? "checkIn")%string then Some (fun a b => checkIn a <=? checkIn b)
  else if (column =? "checkOut")%string then Some (fun a b => checkOut a <=? checkOut b)
  else if (column =? "createdAt")%string then Some (fun a b => createdAt a <=? createdAt b)
  else if (column =? "nights")%string then Some (fun a b => nights a <=? nights b)
  else if (column =? "guestName")%string then Some (fun a b => String.leb (guestName a) (guestName b))
  else if (column =? "room")%string then Some (fun a b => String.leb (room a) (room b))
  else if (column =? "id")%string then Some (fun a b => String.leb (id a) (id b))
  else None.

Definition orderBy (column : string) (d : Direction) (l : list Row)
  : Result (list Row) :=
  match columnLe column with
  | None => inl "Unknown argument in orderBy"%string
  | Some le =>
      inr (match d with
           | asc => sortBy le l
           | desc => sortBy (fun a b => le b a) l
           end)
  end.

(** [take] and [skip] of [findMany] on the ordered rows.  A negative
    [skip] is refused; a negative [take] counts from the end. *)
Definition takeSkip (take skip : Z) (l : list Row) : Result (list Row) :=
  if skip <? 0 then inl "Invalid value for skip argument"%string
  else if 0 <=? take then inr (firstn (Z.to_nat take) (skipn (Z.to_nat skip) l))
  else inr (rev (firstn (Z.to_nat (- take)) (skipn (Z.to_nat skip) (rev l)))).

(** *** bookingResolvers.ts *)

(** [{ ...booking, status: booking.status?.toUpperCase() || 'UPCOMING' }] *)
Definition normalizedStatus (s : option string) : string :=
  match truthy (option_map toUpperCase s) with
  | Some u => u
  | None => "UPCOMING"%string
  end.

Definition normalizeBooking (booking : Row) : Row :=
  mkRow (id booking) (tenantId booking) (guestName booking) (room booking)
    (checkIn booking) (checkOut booking) (nights booking)
    (totalPrice booking) (deposit booking) (remaining booking)
    (Some (normalizedStatus (status booking))) (createdAt booking).

(** The [filter] argument of [getBookings]. *)
Record BookingFilter := mkFilter {
  f_status : option string;
  f_room : option string;
  f_guestName : option string;
  f_startDate : option Z;
  f_endDate : option Z
}.

Definition noFilter : BookingFilter := mkFilter None None None None None.

Definition optTest {A} (o : option A) (test : A -> bool) : bool :=
  match o with None => true | Some a => test a end.

Definition optEq (a : option string) (b : string) : bool :=
  match a with Some s => (s =? b)%string | None => false end.

(** The [where] object [getBookings] builds. *)
Definition bookingsWhere (tenant : string) (filter : BookingFilter) (r : Row) : bool :=
  (tenantId r =? tenant)%string &&
  optTest (truthy (f_status filter)) (fun s => optEq (status r) (toLowerCase s)) &&
  optTest (truthy (f_room filter)) (fun s => (room r =? s)%string) &&
  optTest (truthy (f_guestName filter))
    (fun s => includes (toLowerCase s) (toLowerCase (guestName r))) &&
  optTest (f_startDate filter) (fun d => d <=? checkIn r) &&
  optTest (f_endDate filter) (fun d => checkIn r <=? d).

Definition directionOf (sortOrder : string) : Direction :=
  if (toLowerCase sortOrder =? "asc")%string then asc else desc.

(** [getBookings]; the defaults of the arguments are [limit = 100],
    [offset = 0], [sortBy = 'checkIn'], [sortOrder = 'desc']. *)
Definition getBookings (context : AppContext) (filter : BookingFilter)
    (limit offset : Z) (sortByColumn sortOrder : string) : Result (list Row) :=
  requireAuth context (fun tenant =>
    let matching := List.filter (bookingsWhere tenant filter)
                      (bookingTable (prisma context)) in
    match orderBy sortByColumn (directionOf sortOrder) matching with
    | inl e => inl e
    | inr ordered =>
        match takeSkip (Z.min limit 500) offset ordered with
        | inl e => inl e
        | inr bookings => inr (map normalizeBooking bookings)
        end
    end).

Definition getBooking (context : AppContext) (bookingId : string) : Result Row :=
  requireAuth context (fun tenant =>
    match find (fun r => (id r =? bookingId)%string && (tenantId r =? tenant)%string)
            (bookingTable (prisma context)) with
    | None => inl "Booking not found"%string
    | Some booking => inr (normalizeBooking booking)
    end).

Definition getBookingsByDateRange (context : AppContext) (startDate endDate : Z)
  : Result (list Row) :=
  requireAuth context (fun tenant =>
    if endDate <? startDate then inl "Start date must be before end date"%string
    else
      let matching :=
        List.filter (fun r => (tenantId r =? tenant)%string &&
                              (startDate <=? checkIn r) && (checkOut r <=? endDate))
          (bookingTable (prisma context)) in
      inr (map normalizeBooking (sortBy (fun a b => checkIn a <=? checkIn b) matching))).

Definition getBookingsByRoom (context : AppContext) (roomArg : string)
  : Result (list Row) :=
  requireAuth context (fun tenant =>
    let matching :=
      List.filter (fun r => (tenantId r =? tenant)%string && (room r =? roomArg)%string)
        (bookingTable (prisma context)) in
    inr (map normalizeBooking (sortBy (fun a b => checkIn b <=? checkIn a) matching))).

(** *** reportResolvers.ts *)

(** [Math.round(x * 100) / 100] *)
Definition Math_round (x : Q) : Z := Qfloor (x + (1 # 2)).
Definition round2 (x : Q) : Q := (inject_Z (Math_round (x * 100)) / 100)%Q.

Record OccupancyReport := mkOccupancyReport {
  or_room : string;
  or_month : Z * Z;
  or_totalNights : Z;
  or_occupiedNights : Z;
  or_occupancyRate : Q
}.

(** The nights one booking adds to [occupiedNights]. *)
Definition clampedNights (startDate endDate : Z) (booking : Row) : Z :=
  let start := if startDate <? checkIn booking then checkIn booking else startDate in
  let end_ := if checkOut booking <? endDate then checkOut booking else endDate in
  let nights := (end_ - start) / MS_PER_DAY in
  Z.max 0 nights.

Definition occupancyWhere (tenant : string) (roomArg : option string)
    (startDate endDate : Z) (r : Row) : bool :=
  (tenantId r =? tenant)%string &&
  (checkIn r <=? endDate) &&
  (startDate <=? checkOut r) &&
  match status r with
  | Some s => negb (s =? "CANCELED")%string
  | None => false
  end &&
  optTest (truthy roomArg) (fun s => (room r =? s)%string).

Definition occupiedNightsOf (bookings : list Row) (startDate endDate : Z) : Z :=
  fold_left (fun occupiedNights booking =>
    occupiedNights + clampedNights startDate endDate booking) bookings 0.

Definition getOccupancyReport (context : AppContext) (roomArg : option string)
    (year month : Z) : Result OccupancyReport :=
  requireAuth context (fun tenant =>
    if (month <? 1) || (12 <? month)
    then inl "Month must be between 1 and 12"%string
    else
      let startDate := newDate year (month - 1) 1 in
      let endDate := newDate year month 0 in
      let daysInMonth := getDaysInMonth (jsDate year (month - 1) 1) in
      let bookings :=
        List.filter (occupancyWhere tenant roomArg startDate endDate)
          (bookingTable (prisma context)) in
      let occupiedNights := occupiedNightsOf bookings startDate endDate in
      let totalNights :=
        daysInMonth * (match truthy roomArg with Some _ => 1 | None => 5 end) in
      let occupancyRate :=
        if 0 <? totalNights
        then (inject_Z occupiedNights / inject_Z totalNights * 100)%Q
        else 0%Q in
      inr (mkOccupancyReport
             (match truthy roomArg with Some r => r | None => "All"%string end)
             (year, month) totalNights occupiedNights (round2 occupancyRate))).

Record RevenueReport := mkRevenueReport {
  rr_year : Z;
  rr_month : option Z;
  rr_totalRevenue : Q;
  rr_totalDeposits : Q;
  rr_totalOutstanding : Q;
  rr_bookingCount : Z;
  rr_averageBookingValue : Q
}.

(** A month argument is used when it is given and not [0]. *)
Definition truthyMonth (month : option Z) : option Z :=
  match month with
  | Some 0 => None
  | other => other
  end.

Definition sumOf (f : Row -> Q) (bookings : list Row) : Q :=
  fold_left (fun sum b => (sum + f b)%Q) bookings 0%Q.

Definition revenueRows (context : AppContext) (tenant : string)
    (year : Z) (month : option Z) : list Row :=
  let startDate :=
    match truthyMonth month with
    | Some m => newDate year (m - 1) 1
    | None => newDate year 0 1
    end in
  let endDate :=
    match truthyMonth month with
    | Some m => newDate year m 0
    | None => newDate year 11 31
    end in
  List.filter (fun r => (tenantId r =? tenant)%string &&
                        (startDate <=? createdAt r) && (createdAt r <=? endDate))
    (bookingTable (prisma context)).

Definition getRevenueReport (context : AppContext) (year : Z) (month : option Z)
  : Result RevenueReport :=
  requireAuth context (fun tenant =>
    let bookings := revenueRows context tenant year month in
    let totalRevenue := sumOf totalPrice bookings in
    let totalDeposits := sumOf deposit bookings in
    let totalOutstanding := sumOf remaining bookings in
    let bookingCount := Z.of_nat (List.length bookings) in
    let averageBookingValue :=
      if 0 <? bookingCount then (totalRevenue / inject_Z bookingCount)%Q else 0%Q in
    inr (mkRevenueReport year month (round2 totalRevenue) (round2 totalDeposits)
           (round2 totalOutstanding) bookingCount (round2 averageBookingValue))).

End Server.

(* ------------------------------------------------------------------ *)
(** ** Notions the properties are stated with                           *)
(* ------------------------------------------------------------------ *)

Module Notions.
Import Calendar Client.

(** *** Calendar *)

(** Day number of day [dd] of the month [mp] (0 is March) of the year
    [yoe] of the 400-year era [era]. *)
Definition marchDays (era yoe mp dd : Z) : Z :=
  era * 146097 + (yoe * 365 + yoe / 4 - yoe / 100 + (153 * mp + 2) / 5 + dd - 1) - 719468.

Definition dayOf (d : Z) : Z := snd (civil_from_days d).

(** The first day of the month with index [k] (months counted from
    January of the year 0). *)
Definition monthStart (k : Z) : Z := jsDate 0 k 1.

Definition monthIndex (d : Z) : Z := yearOf d * 12 + (monthOf d - 1).

(** The order of 'yyyy-MM-dd' dates, field by field. *)
Definition civilLe (a b : Z * Z * Z) : Prop :=
  let '(y1, m1, d1) := a in
  let '(y2, m2, d2) := b in
  y1 < y2 \/ (y1 = y2 /\ (m1 < m2 \/ (m1 = m2 /\ d1 <= d2))).


(** The calendar days [d], [d + 1], ... ([n] of them). *)
Fixpoint daysFrom (n : nat) (d : Z) : list Z :=
  match n with
  | O => []
  | S n' => d :: daysFrom n' (d + 1)
  end.

(** Each calendar day of the inclusive range [rangeStart .. rangeEnd]. *)
Definition daysOfRange (rangeStart rangeEnd : IsoDate) : list Z :=
  daysFrom (Z.to_nat (rangeEnd - rangeStart + 1)) rangeStart.

(** The specification's [occupiedDayCount]: the number of days of the
    inclusive range on which some booking of the list is in house. *)
Definition occupiedDayCount (roomBookings : list Booking)
    (rangeStart rangeEnd : IsoDate) : Z :=
  Z.of_nat (List.length (filter (isOccupied roomBookings)
                           (daysOfRange rangeStart rangeEnd))).

(** The nights of a stay that fall in the month from [realStart] to
    [monthEnd], its last day: the half-open stay cut to the month. *)
Definition nightsInMonth (realStart monthEnd : IsoDate) (b : Booking) : Z :=
  Z.max 0 (Z.min (checkOut b) (monthEnd + 1) - Z.max (checkIn b) realStart).

(** Two stays that share no night. *)
Definition disjointStays (a b : Booking) : bool :=
  (checkOut a <=? checkIn b) || (checkOut b <=? checkIn a).

(** Two bookings that do not double-book a room. *)
Definition compatible (a b : Booking) : bool :=
  isCanceled (status a) || isCanceled (status b) ||
  negb (room a =? room b)%string || disjointStays a b.

(** No two live bookings of the collection overlap on one room. *)
Fixpoint noDoubleBooking (l : list Booking) : bool :=
  match l with
  | [] => true
  | a :: l' => forallb (compatible a) l' && noDoubleBooking l'
  end.

(** Every live booking is on one of the rooms. *)
Definition roomsConfigured (rooms : list RoomConfig) (bookings : list Booking) : bool :=
  forallb (fun b => isCanceled (status b) ||
                    existsb (fun r => (roomId r =? room b)%string) rooms) bookings.

Definition pairwiseDisjoint : list Booking -> Prop :=
  fix go l :=
    match l with
    | [] => True
    | a :: l' => (forall b, In b l' -> disjointStays a b = true) /\ go l'
    end.

(** Sums written with [reduce] are sums over the list. *)
Definition sumZ (f : Booking -> Z) (l : list Booking) : Z :=
  fold_right (fun b s => f b + s) 0 l.

End Notions.

(* ------------------------------------------------------------------ *)
(** ** Example data                                                     *)
(* ------------------------------------------------------------------ *)

Module Examples.
Import Calendar.

(** A stay from 2026-02-25 to 2026-03-05 in room A1, booked on
    2026-01-10: eight nights at 100. *)
Definition winterStay : Client.Booking :=
  Client.mkBooking "b1" "A1" (ymd 2026 2 25) (ymd 2026 3 5) 8 800
    (Client.mkDateTime (ymd 2026 1 10) 0) Client.UPCOMING.

(** Three nights from 2026-03-10 in room A1. *)
Definition marchStay : Client.Booking :=
  Client.mkBooking "b2" "A1" (ymd 2026 3 10) (ymd 2026 3 13) 3 300
    (Client.mkDateTime (ymd 2026 3 1) 0) Client.UPCOMING.

(** Two bookings of room A1 for the whole of February 2026. *)
Definition februaryTwice : list Client.Booking :=
  [ Client.mkBooking "b3" "A1" (ymd 2026 2 1) (ymd 2026 3 1) 28 2800
      (Client.mkDateTime (ymd 2026 1 5) 0) Client.UPCOMING;
    Client.mkBooking "b4" "A1" (ymd 2026 2 1) (ymd 2026 3 1) 28 2800
      (Client.mkDateTime (ymd 2026 1 6) 0) Client.ACTIVE ].

Definition threeRooms : list Client.RoomConfig :=
  [ Client.mkRoom "R1" "R1"; Client.mkRoom "R2" "R2"; Client.mkRoom "R3" "R3" ].

(** The same winter stay as a row of the server's table. *)
Definition winterRow (status : option string) : Server.Row :=
  Server.mkRow "b1" "t1" "Ann" "A1"
    (Server.newDate 2026 1 25) (Server.newDate 2026 2 5) 8 800 100 700
    status (Server.newDate 2026 2 1).

Definition contextOf (rows : list Server.Row) : Server.AppContext :=
  Server.mkContext (Some "t1"%string)
    (Server.mkPrisma rows [Server.mkTenant "t1" ["R1"; "R2"; "R3"]%string]).

End Examples.


(* ------------------------------------------------------------------ *)
(** ** Server: the mutations and the remaining queries                  *)
(* ------------------------------------------------------------------ *)

(** The resolvers that write (bookingResolvers.ts, tenantResolvers.ts),
    the guest statistics (reportResolvers.ts) and the audit query
    (auditResolvers.ts), over the whole database.  A mutation throws
    before it writes anything, so it returns either the error or its
    value together with the database it leaves. *)
Module Store.
Import Calendar Server.

Record Room := mkRoom { r_id : string; r_name : string }.

Record TenantSettings := mkSettings {
  defaultNightPrice : Q;
  defaultTax : Q;
  notifyOnBooking : bool;
  notifyOnCancellation : bool
}.

Record TenantRow := mkTenantRow {
  tenant_id : string;
  tenant_name : string;
  tenant_rooms : list Room;
  tenant_settings : option TenantSettings
}.

(** A row of the [booking] table with all its columns: the ones the
    queries read ([base]) and the rest. *)
Record BookingRow := mkBookingRow {
  base : Row;
  guestEmail : option string;
  guestPhone : option string;
  city : option string;
  notes : option string;
  nightPrice : Q;
  tax : Q
}.

(** The [changes] document of an audit entry. *)
Inductive Changes :=
| booking_created (booking : BookingRow)
| booking_updated (before after : BookingRow)
| booking_deleted (booking : BookingRow)
| bulk_delete (ids : list string) (count : Z)
| tenant_updated.

Record AuditLog := mkAuditLog {
  log_tenantId : string;
  log_action : string;
  log_entityType : string;
  log_entityId : string;
  log_changes : Changes;
  log_createdAt : Z
}.

Record Db := mkDb {
  bookings : list BookingRow;
  tenants : list TenantRow;
  auditLogs : list AuditLog
}.

(** The context of a request: the authenticated tenant (if any), the
    database, and what the environment supplies to a write: the id the
    database gives a new row and the clock. *)
Record Context := mkCtx {
  ctx_user : option string;
  ctx_db : Db;
  ctx_newId : string;
  ctx_now : Z
}.

(** The same request as the query resolvers see it. *)
Definition appContext (context : Context) : AppContext :=
  mkContext (ctx_user context)
    (mkPrisma (map base (bookings (ctx_db context)))
       (map (fun t => mkTenant (tenant_id t) (map r_id (tenant_rooms t)))
          (tenants (ctx_db context)))).

Definition withDb (context : Context) (db : Db) : Context :=
  mkCtx (ctx_user context) db (ctx_newId context) (ctx_now context).

(** [prisma.tenant.findUnique({ where: { id } })] *)
Definition findTenant (db : Db) (tenant : string) : option TenantRow :=
  find (fun t => (tenant_id t =? tenant)%string) (tenants db).

(** [prisma.booking.findFirst({ where: { id, tenantId } })] *)
Definition findBooking (db : Db) (bookingId tenant : string) : option BookingRow :=
  find (fun b => (id (base b) =? bookingId)%string &&
                 (tenantId (base b) =? tenant)%string) (bookings db).

(** *** bookingResolvers.ts *)

Record BookingInput := mkInput {
  in_guestName : string;
  in_guestEmail : option string;
  in_guestPhone : option string;
  in_city : option string;
  in_room : string;
  in_checkIn : Z;
  in_checkOut : Z;
  in_nightPrice : Q;
  in_deposit : Q;
  in_notes : option string;
  in_status : option string
}.

(** The calendar day of a [Date]. *)
Definition dayOfDate (t : Z) : Z := t / MS_PER_DAY.

(** date-fns [differenceInCalendarDays]: the days between the calendar
    days of two dates, whatever their times of day. *)
Definition differenceInCalendarDays (later earlier : Z) : Z :=
  dayOfDate later - dayOfDate earlier.

Record BookingDetails := mkDetails {
  d_nights : Z;
  d_totalPrice : Q;
  d_tax : Q;
  d_remaining : Q
}.

Definition calculateBookingDetails (checkIn checkOut : Z) (nightPrice deposit : Q)
    (taxRate : Q) : Result BookingDetails :=
  let nights := differenceInCalendarDays checkOut checkIn in
  if nights <=? 0 then inl "Check-out must be after check-in"%string
  else
    let totalPrice := (inject_Z nights * nightPrice)%Q in
    let tax := (totalPrice * (taxRate / 100))%Q in
    let remaining := (totalPrice + tax - deposit)%Q in
    inr (mkDetails nights totalPrice tax remaining).

(** [tenant.settings?.defaultTax || 0] *)
Definition taxRateOf (tenant : TenantRow) : Q :=
  match tenant_settings tenant with
  | Some s => defaultTax s
  | None => 0%Q
  end.

(** [input.status?.toLowerCase() || 'upcoming'] *)
Definition storedStatus (status : option string) : string :=
  match truthy (option_map toLowerCase status) with
  | Some s => s
  | None => "upcoming"%string
  end.

Definition normalizeRow (booking : BookingRow) : BookingRow :=
  mkBookingRow (normalizeBooking (base booking)) (guestEmail booking)
    (guestPhone booking) (city booking) (notes booking) (nightPrice booking)
    (tax booking).

Definition auditEntry (context : Context) (tenant action entityId : string)
    (changes : Changes) : AuditLog :=
  mkAuditLog tenant action "Booking" entityId changes (ctx_now context).

(** The row [prisma.booking.create] stores. *)
Definition newBooking (context : Context) (tenantKey : string) (input : BookingInput)
    (details : BookingDetails) : BookingRow :=
  mkBookingRow
    (mkRow (ctx_newId context) tenantKey (in_guestName input)
       (in_room input) (in_checkIn input) (in_checkOut input)
       (d_nights details) (d_totalPrice details) (in_deposit input)
       (d_remaining details) (Some (storedStatus (in_status input)))
       (ctx_now context))
    (in_guestEmail input) (in_guestPhone input) (in_city input)
    (in_notes input) (in_nightPrice input) (d_tax details).

Definition createBooking (context : Context) (input : BookingInput)
  : Result (BookingRow * Db) :=
  requireAuth (appContext context) (fun tenantKey =>
    let db := ctx_db context in
    match findTenant db tenantKey with
    | None => inl "Tenant not found"%string
    | Some tenant =>
        if negb (existsb (fun r => (r_id r =? in_room input)%string) (tenant_rooms tenant))
        then inl "Invalid room"%string
        else
          match calculateBookingDetails (in_checkIn input) (in_checkOut input)
                  (in_nightPrice input) (in_deposit input) (taxRateOf tenant) with
          | inl e => inl e
          | inr details =>
              let booking := newBooking context tenantKey input details in
              let log := auditEntry context tenantKey "BOOKING_CREATED"
                           (ctx_newId context) (booking_created booking) in
              inr (normalizeRow booking,
                   mkDb (bookings db ++ [booking]) (tenants db) (auditLogs db ++ [log]))
          end
    end).

(** [Partial<BookingInput>]: every field may be left out. *)
Record BookingUpdate := mkUpdate {
  up_guestName : option string;
  up_guestEmail : option string;
  up_guestPhone : option string;
  up_city : option string;
  up_room : option string;
  up_checkIn : option Z;
  up_checkOut : option Z;
  up_nightPrice : option Q;
  up_deposit : option Q;
  up_notes : option string;
  up_status : option string
}.

Definition noUpdate : BookingUpdate :=
  mkUpdate None None None None None None None None None None None.

(** A number is truthy when it is not [0]. *)
Definition truthyNumber (q : option Q) : option Q :=
  match q with
  | Some x => if Qeq_bool x 0 then None else Some x
  | None => None
  end.

Definition orElse {A} (o : option A) (d : A) : A :=
  match o with Some a => a | None => d end.

Definition isSome {A} (o : option A) : bool :=
  match o with Some _ => true | None => false end.

(** [input.checkIn || input.checkOut || input.nightPrice || input.deposit] *)
Definition recalculates (input : BookingUpdate) : bool :=
  isSome (up_checkIn input) || isSome (up_checkOut input) ||
  isSome (truthyNumber (up_nightPrice input)) ||
  isSome (truthyNumber (up_deposit input)).

(** The row after [prisma.booking.update({ data: updateData })], where
    [updateData] is the input, the recalculated details when there are
    any, and the status in lower case when one is given. *)
Definition applyUpdate (booking : BookingRow) (input : BookingUpdate)
    (details : option BookingDetails) : BookingRow :=
  let b := base booking in
  let status' :=
    match truthy (up_status input) with
    | Some s => Some (toLowerCase s)
    | None => match up_status input with
              | Some s => Some s
              | None => status b
              end
    end in
  mkBookingRow
    (mkRow (id b) (tenantId b)
       (orElse (up_guestName input) (guestName b))
       (orElse (up_room input) (room b))
       (orElse (up_checkIn input) (checkIn b))
       (orElse (up_checkOut input) (checkOut b))
       (match details with Some d => d_nights d | None => nights b end)
       (match details with Some d => d_totalPrice d | None => totalPrice b end)
       (orElse (up_deposit input) (deposit b))
       (match details with Some d => d_remaining d | None => remaining b end)
       status' (createdAt b))
    (match up_guestEmail input with Some e => Some e | None => guestEmail booking end)
    (match up_guestPhone input with Some e => Some e | None => guestPhone booking end)
    (match up_city input with Some e => Some e | None => city booking end)
    (match up_notes input with Some e => Some e | None => notes booking end)
    (orElse (up_nightPrice input) (nightPrice booking))
    (match details with Some d => d_tax d | None => tax booking end).

(** [prisma.booking.update({ where: { id } })] *)
Definition updateById (bookingId : string) (row' : BookingRow)
    (rows : list BookingRow) : list BookingRow :=
  map (fun b => if (id (base b) =? bookingId)%string then row' else b) rows.

Definition updateBooking (context : Context) (bookingId : string)
    (input : BookingUpdate) : Result (BookingRow * Db) :=
  requireAuth (appContext context) (fun tenantKey =>
    let db := ctx_db context in
    match findBooking db bookingId tenantKey with
    | None => inl "Booking not found"%string
    | Some booking =>
        match findTenant db tenantKey with
        | None => inl "Tenant not found"%string
        | Some tenant =>
            let recalculated :=
              if recalculates input then
                match calculateBookingDetails
                        (orElse (up_checkIn input) (checkIn (base booking)))
                        (orElse (up_checkOut input) (checkOut (base booking)))
                        (orElse (truthyNumber (up_nightPrice input)) (nightPrice booking))
                        (orElse (truthyNumber (up_deposit input)) (deposit (base booking)))
                        (taxRateOf tenant) with
                | inl e => inl e
                | inr details => inr (Some details)
                end
              else inr None in
            match recalculated with
            | inl e => inl e
            | inr details =>
                let updated := applyUpdate booking input details in
                let log := auditEntry context tenantKey "BOOKING_UPDATED"
                             (id (base booking)) (booking_updated booking updated) in
                inr (normalizeRow updated,
                     mkDb (updateById bookingId updated (bookings db)) (tenants db)
                       (auditLogs db ++ [log]))
            end
        end
    end).

Definition deleteBooking (context : Context) (bookingId : string)
  : Result (bool * Db) :=
  requireAuth (appContext context) (fun tenantKey =>
    let db := ctx_db context in
    match findBooking db bookingId tenantKey with
    | None => inl "Booking not found"%string
    | Some booking =>
        let log := auditEntry context tenantKey "BOOKING_DELETED" bookingId
                     (booking_deleted booking) in
        inr (true,
             mkDb (filter (fun b => negb (id (base b) =? bookingId)%string) (bookings db))
               (tenants db) (auditLogs db ++ [log]))
    end).

Definition inIds (ids : list string) (bookingId : string) : bool :=
  existsb (fun i => (i =? bookingId)%string) ids.

Definition bulkDeleteBookings (context : Context) (ids : list string)
  : Result (bool * Db) :=
  requireAuth (appContext context) (fun tenantKey =>
    let db := ctx_db context in
    match ids with
    | [] => inl "No booking IDs provided"%string
    | _ =>
        let log := auditEntry context tenantKey "BOOKING_DELETED" "bulk-delete"
                     (bulk_delete ids (Z.of_nat (List.length ids))) in
        inr (true,
             mkDb (filter (fun b => negb (inIds ids (id (base b)) &&
                                          (tenantId (base b) =? tenantKey)%string))
                     (bookings db))
               (tenants db) (auditLogs db ++ [log]))
    end).

(** *** tenantResolvers.ts: the rooms *)

(** [`R${Date.now()}`] *)
Definition roomIdAt (now : Z) : string :=
  ("R" ++ DecimalString.NilZero.string_of_int (Z.to_int now))%string.

Definition setRooms (tenantKey : string) (rooms : list Room) (db : Db) : Db :=
  mkDb (bookings db)
    (map (fun t => if (tenant_id t =? tenantKey)%string
                   then mkTenantRow (tenant_id t) (tenant_name t) rooms (tenant_settings t)
                   else t) (tenants db))
    (auditLogs db).

Definition addRoom (context : Context) (name : string) : Result (list Room * Db) :=
  requireAuth (appContext context) (fun tenantKey =>
    let db := ctx_db context in
    match findTenant db tenantKey with
    | None => inl "Tenant not found"%string
    | Some tenant =>
        if existsb (fun r => (r_name r =? name)%string) (tenant_rooms tenant)
        then inl "Room name already exists"%string
        else
          let rooms := tenant_rooms tenant ++ [mkRoom (roomIdAt (ctx_now context)) name] in
          inr (rooms, setRooms tenantKey rooms db)
    end).

Definition removeRoom (context : Context) (roomId : string) : Result (list Room * Db) :=
  requireAuth (appContext context) (fun tenantKey =>
    let db := ctx_db context in
    match findTenant db tenantKey with
    | None => inl "Tenant not found"%string
    | Some tenant =>
        if negb (existsb (fun r => (r_id r =? roomId)%string) (tenant_rooms tenant))
        then inl "Room not found"%string
        else
          let updatedRooms :=
            filter (fun r => negb (r_id r =? roomId)%string) (tenant_rooms tenant) in
          inr (updatedRooms, setRooms tenantKey updatedRooms db)
    end).

(** *** reportResolvers.ts: the guest statistics *)

Record GuestStatistics := mkGuestStatistics {
  totalGuests : Z;
  uniqueCities : Z;
  averageNightStay : Q;
  repeatGuestRate : Q;
  cancellationRate : Q
}.

(** The size of [new Set(values)]. *)
Definition setSize (values : list string) : Z :=
  Z.of_nat (List.length (nodup string_dec values)).

(** [values.filter(Boolean)] *)
Definition truthyValues (values : list (option string)) : list string :=
  flat_map (fun v => match truthy v with Some s => [s] | None => [] end) values.

Definition percentOf (part total : Z) : Q :=
  if 0 <? total then (inject_Z part / inject_Z total * 100)%Q else 0%Q.

Definition getGuestStatistics (context : Context) : Result GuestStatistics :=
  requireAuth (appContext context) (fun tenantKey =>
    let rows := filter (fun b => (tenantId (base b) =? tenantKey)%string)
                  (bookings (ctx_db context)) in
    let totalGuests := Z.of_nat (List.length rows) in
    let uniqueCities := setSize (truthyValues (map city rows)) in
    let totalNights := fold_left (fun sum b => sum + nights (base b)) rows 0 in
    let averageNightStay :=
      if 0 <? totalGuests then (inject_Z totalNights / inject_Z totalGuests)%Q else 0%Q in
    let uniqueGuests := setSize (map (fun b => guestName (base b)) rows) in
    let repeatBookings := totalGuests - uniqueGuests in
    let canceledBookings :=
      Z.of_nat (List.length
                  (filter (fun b => optEq (status (base b)) "CANCELED") rows)) in
    inr (mkGuestStatistics totalGuests uniqueCities (round2 averageNightStay)
           (round2 (percentOf repeatBookings totalGuests))
           (round2 (percentOf canceledBookings totalGuests)))).

(** *** auditResolvers.ts *)

Fixpoint insertLog (x : AuditLog) (l : list AuditLog) : list AuditLog :=
  match l with
  | [] => [x]
  | y :: l' => if log_createdAt y <=? log_createdAt x then x :: l else y :: insertLog x l'
  end.

(** [orderBy: { createdAt: 'desc' }] *)
Definition newestFirst (l : list AuditLog) : list AuditLog :=
  fold_right insertLog [] l.

Definition getAuditLogs (context : Context) (limit offset : Z) (action : option string)
  : Result (list AuditLog) :=
  requireAuth (appContext context) (fun tenantKey =>
    let matching :=
      filter (fun l => (log_tenantId l =? tenantKey)%string &&
                       optTest (truthy action) (fun a => (log_action l =? a)%string))
        (auditLogs (ctx_db context)) in
    let ordered := newestFirst matching in
    if offset <? 0 then inl "Invalid value for skip argument"%string
    else
      let take := Z.min limit 500 in
      if 0 <=? take
      then inr (firstn (Z.to_nat take) (skipn (Z.to_nat offset) ordered))
      else inr (rev (firstn (Z.to_nat (- take)) (skipn (Z.to_nat offset) (rev ordered))))).

End Store.

(* ------------------------------------------------------------------ *)
(** ** Example data for the mutations                                   *)
(* ------------------------------------------------------------------ *)

Module StoreExamples.
Import Calendar Server Store.

Definition seaView : TenantRow :=
  mkTenantRow "t1" "Sea View" [mkRoom "A1" "A1"; mkRoom "A2" "A2"]
    (Some (mkSettings 50 5 true true)).

Definition hillTop : TenantRow :=
  mkTenantRow "t2" "Hill Top" [mkRoom "A1" "A1"] None.

(** A stay of tenant [tenant] in room A1 from 2026-02-25 to 2026-03-05,
    eight nights at 100, 100 paid. *)
Definition stayOf (bookingId tenant : string) (status : option string) : BookingRow :=
  mkBookingRow
    (mkRow bookingId tenant "Ann" "A1" (newDate 2026 1 25) (newDate 2026 2 5)
       8 800 100 700 status (newDate 2026 1 1))
    None (Some "9000"%string) (Some "Muscat"%string) None 100 0.

Definition twoTenants : Db :=
  mkDb [stayOf "b1" "t1" (Some "upcoming"%string); stayOf "b2" "t2" (Some "upcoming"%string)]
    [seaView; hillTop] [].

Definition asTenant (tenant : string) (db : Db) : Context :=
  mkCtx (Some tenant) db "b9" (newDate 2026 1 2).

(** Three nights in room A2 from 2026-03-10. *)
Definition marchInput : BookingInput :=
  mkInput "Bob" None (Some "9100"%string) None "A2" (newDate 2026 2 10) (newDate 2026 2 13)
    100 50 None (Some "ACTIVE"%string).

(** Updates that give one field only. *)
Definition statusUpdate (s : string) : BookingUpdate :=
  mkUpdate None None None None None None None None None None (Some s).

Definition depositUpdate (d : Q) : BookingUpdate :=
  mkUpdate None None None None None None None None (Some d) None None.

Definition roomUpdate (r : string) : BookingUpdate :=
  mkUpdate None None None None (Some r) None None None None None None.

End StoreExamples.

(* ------------------------------------------------------------------ *)
(** ** Client: the calendar, the list and the booking form              *)
(* ------------------------------------------------------------------ *)

(** The other views of src/App.tsx.  [today] is [startOfToday()], the
    day number of the current day. *)
Module Views.
Import Calendar Client.

(** *** The calendar *)

(** date-fns [addMonths]: the same day of the month [amount] months
    later, or the last day of that month when it is shorter. *)
Definition addMonths (d amount : Z) : Z :=
  let target := jsDate (yearOf d) (monthOf d - 1 + amount) 1 in
  let dayOfMonth := d - startOfMonth d + 1 in
  target + (Z.min dayOfMonth (getDaysInMonth target) - 1).

(** [for (let i = 0; i < daysInMonth; i++) days.push(addDays(firstDay, i))] *)
Fixpoint pushDays (count : nat) (firstDay i : Z) : list Z :=
  match count with
  | O => []
  | S count' => addDays firstDay i :: pushDays count' firstDay (i + 1)
  end.

(** date-fns [differenceInCalendarDays], on day numbers. *)
Definition differenceInCalendarDays (later earlier : Z) : Z := later - earlier.

Definition generateMonthDays (year month : Z) : list Z :=
  let firstDay := startOfMonth (jsDate year month 1) in
  let lastDay := endOfMonth (jsDate year month 1) in
  let daysInMonth := differenceInCalendarDays lastDay firstDay + 1 in
  pushDays (Z.to_nat daysInMonth) firstDay 0.

(** [for (let m = -12; m <= 12; m++) days.push(...monthDays)] *)
Fixpoint calendarLoop (count : nat) (today m : Z) : list Z :=
  match count with
  | O => []
  | S count' =>
      let monthDate := addMonths today m in
      generateMonthDays (yearOf monthDate) (monthOf monthDate - 1)
        ++ calendarLoop count' today (m + 1)
  end.

Definition calendarDays (now : Z) : list Z :=
  let today := startOfMonth now in
  calendarLoop 25 today (-12).


(** *** The list *)

(** A booking with the fields the list searches. *)
Record ListBooking := mkListBooking {
  booking : Booking;
  guestName : string;
  city : option string;
  guestPhone : option string
}.

Inductive ListFilter := upcoming | active | past | canceled | all.

(** [b.guestName.toLowerCase().includes(term) ||
     b.city?.toLowerCase().includes(term) ||
     b.guestPhone?.includes(listSearchTerm)] *)
Definition matchesSearch (listSearchTerm : string) (b : ListBooking) : bool :=
  let term := Server.toLowerCase listSearchTerm in
  Server.includes term (Server.toLowerCase (guestName b)) ||
  match city b with
  | Some c => Server.includes term (Server.toLowerCase c)
  | None => false
  end ||
  match guestPhone b with
  | Some p => Server.includes listSearchTerm p
  | None => false
  end.

(** The second filter, applied when [listFilter !== 'all']. *)
Definition matchesFilter (today : Z) (listFilter : ListFilter) (b : ListBooking) : bool :=
  match listFilter with
  | canceled => isCanceled (status (booking b))
  | _ =>
      if isCanceled (status (booking b)) then false
      else
        let checkIn := parseISO (checkIn (booking b)) in
        let checkOut := parseISO (checkOut (booking b)) in
        match listFilter with
        | upcoming => today <=? checkIn
        | active => (checkIn <? today) && (today <? checkOut)
        | past => checkOut <=? today
        | _ => true
        end
  end.

(** [sort((a, b) => b.checkIn.localeCompare(a.checkIn))]: a stable
    sort, latest check-in first. *)
Fixpoint insertByCheckIn (x : ListBooking) (l : list ListBooking) : list ListBooking :=
  match l with
  | [] => [x]
  | y :: l' =>
      if checkIn (booking y) <=? checkIn (booking x) then x :: l
      else y :: insertByCheckIn x l'
  end.

Definition sortByCheckIn (l : list ListBooking) : list ListBooking :=
  fold_right insertByCheckIn [] l.

Definition filteredBookings (today : Z) (bookings : list ListBooking)
    (listSearchTerm : string) (listFilter : ListFilter) : list ListBooking :=
  let filtered := filter (matchesSearch listSearchTerm) bookings in
  let filtered :=
    match listFilter with
    | all => filtered
    | _ => filter (matchesFilter today listFilter) filtered
    end in
  sortByCheckIn filtered.

(** The status shown on a row of the list. *)
Inductive StatusText := list_upcoming | list_canceled | list_checkInToday
                      | list_active | list_past.

Definition statusText (today : Z) (b : ListBooking) : StatusText :=
  let checkIn := parseISO (checkIn (booking b)) in
  let checkOut := parseISO (checkOut (booking b)) in
  if isCanceled (status (booking b)) then list_canceled
  else if checkIn =? today then list_checkInToday
  else if (checkIn <? today) && (today <? checkOut) then list_active
  else if checkOut <=? today then list_past
  else list_upcoming.

(** *** The form of [AddBookingModal] *)

Record Form := mkForm {
  form_checkIn : IsoDate;
  form_nights : Z;
  form_nightPrice : Q;
  form_deposit : Q
}.

(** [format(addDays(parseISO(f.checkIn), Math.max(1, f.nights)), 'yyyy-MM-dd')] *)
Definition formCheckOut (f : Form) : IsoDate :=
  format (addDays (parseISO (form_checkIn f)) (Z.max 1 (form_nights f))).

Definition formTotalPrice (f : Form) : Q :=
  (inject_Z (Z.max 1 (form_nights f)) * form_nightPrice f)%Q.

Definition formRemaining (f : Form) : Q := (formTotalPrice f - form_deposit f)%Q.

(** [new Date(s)] of a 'yyyy-MM-dd' string: midnight UTC of that day. *)
Definition dateOfIso (d : IsoDate) : Z := d * Server.MS_PER_DAY.

End Views.

(* ------------------------------------------------------------------ *)
(** ** Notions for the properties of the queries                        *)
(* ------------------------------------------------------------------ *)

Module QueryNotions.
Import Calendar Server.

(** The same request on a table that holds only the caller's rows. *)
Definition ownRows (context : AppContext) : AppContext :=
  mkContext (user context)
    (mkPrisma
       (filter (fun r => optEq (user context) (tenantId r))
          (bookingTable (prisma context)))
       (tenantTable (prisma context))).

(** The same request on a table with one more row. *)
Definition withRow (row : Row) (context : AppContext) : AppContext :=
  mkContext (user context)
    (mkPrisma (row :: bookingTable (prisma context)) (tenantTable (prisma context))).

(** Rows in ascending and in descending order of check-in. *)
Definition checkInAscending (a b : Row) : Prop := checkIn a <= checkIn b.
Definition checkInDescending (a b : Row) : Prop := checkIn b <= checkIn a.

(** The totals of a revenue report, without the year and month it
    repeats from the request. *)
Definition totalsOf (r : RevenueReport) : Q * Q * Q * Z * Q :=
  (rr_totalRevenue r, rr_totalDeposits r, rr_totalOutstanding r,
   rr_bookingCount r, rr_averageBookingValue r).

Definition reportTotals (r : Result RevenueReport) : Result (Q * Q * Q * Z * Q) :=
  match r with
  | inl e => inl e
  | inr report => inr (totalsOf report)
  end.

(** A booking made on 2026-03-31 at 09:00 for ten nights from
    2026-04-25. *)
Definition lastDayRow : Row :=
  mkRow "b7" "t1" "Eve" "R1" (newDate 2026 3 25) (newDate 2026 4 5) 10 1000 100 900
    (Some "upcoming"%string) (newDate 2026 2 31 + 9 * 60 * 60 * 1000).

End QueryNotions.

(* ------------------------------------------------------------------ *)
(** ** Notions for the properties of the client's views                 *)
(* ------------------------------------------------------------------ *)

Module ViewNotions.
Import Calendar Client Notions.

(** The first days of the [n] months from the month with index [k]. *)
Fixpoint monthsFrom (n : nat) (k : Z) : list Z :=
  match n with
  | O => []
  | S n' => monthStart k :: monthsFrom n' (k + 1)
  end.

(** The months a window touches, from the month of its first day to
    the month of its last. *)
Definition monthsOfWindow (startDate endDate : Z) : list Z :=
  monthsFrom (Z.to_nat (monthIndex endDate - monthIndex startDate + 1))
    (monthIndex startDate).

Definition sumOfZ {A} (f : A -> Z) (l : list A) : Z :=
  fold_right (fun a s => f a + s) 0 l.

(** The list filter a status text belongs to. *)
Definition groupOf (t : Views.StatusText) : Views.ListFilter :=
  match t with
  | Views.list_upcoming => Views.upcoming
  | Views.list_checkInToday => Views.upcoming
  | Views.list_active => Views.active
  | Views.list_past => Views.past
  | Views.list_canceled => Views.canceled
  end.

(** A list booking for the examples: guest [name], room A1. *)
Definition guestStay (name : string) (checkIn checkOut : Z) (status : BookingStatus)
  : Views.ListBooking :=
  Views.mkListBooking
    (mkBooking name "A1" checkIn checkOut (checkOut - checkIn) 100
       (mkDateTime checkIn 0) status)
    name (Some "Muscat"%string) None.

End ViewNotions.

(* ------------------------------------------------------------------ *)
(** ** Client: the room statistics on bookings as the server delivers   *)
(** ** them                                                             *)
(* ------------------------------------------------------------------ *)

(** [Booking] in src/db.ts types [checkIn], [checkOut] and [createdAt]
    as ISO date-time strings, and that is what the GraphQL scalar
    [DateTime] delivers for the server's [Date] columns:
    '2026-03-10T00:00:00.000Z'.  The report compares these strings with
    the 'yyyy-MM-dd' strings of the window and of the day loop.  Here
    the strings are strings and [>=], [<=], [<] on them are the
    comparisons of JavaScript, by code unit.  The window is kept as day
    numbers ([Calendar.IsoDate]); [isoDate] writes a day as text. *)
Module Received.
Import Calendar.

(** *** Text of dates *)

Definition digitChar (n : Z) : ascii := ascii_of_nat (48 + Z.to_nat n).

Definition pad2 (n : Z) : string :=
  String (digitChar (n / 10 mod 10)) (String (digitChar (n mod 10)) EmptyString).

Definition pad3 (n : Z) : string :=
  String (digitChar (n / 100 mod 10)) (pad2 n).

Definition pad4 (n : Z) : string := (pad2 (n / 100) ++ pad2 (n mod 100))%string.

(** [format(date, 'yyyy-MM-dd')], for the years 0000 to 9999. *)
Definition isoDate (d : IsoDate) : string :=
  let '(y, m, dd) := civil_from_days d in
  (pad4 y ++ "-" ++ pad2 m ++ "-" ++ pad2 dd)%string.

(** [date.toISOString()] of a [Date] given in milliseconds: what the
    client receives for a [DateTime] field. *)
Definition toISOString (t : Z) : string :=
  let ms := t mod Server.MS_PER_DAY in
  (isoDate (t / Server.MS_PER_DAY) ++ "T" ++ pad2 (ms / 3600000) ++ ":" ++
   pad2 (ms / 60000 mod 60) ++ ":" ++ pad2 (ms / 1000 mod 60) ++ "." ++
   pad3 (ms mod 1000) ++ "Z")%string.

(** [a <= b] and [a < b] on strings. *)
Definition jsLe (a b : string) : bool := String.leb a b.
Definition jsLt (a b : string) : bool := String.ltb a b.

(** [s.split('T')[0]] *)
Fixpoint splitT0 (s : string) : string :=
  match s with
  | EmptyString => EmptyString
  | String c s' => if (c =? "T")%char then EmptyString else String c (splitT0 s')
  end.

(** *** The bookings and the room statistics of [reportData] *)

Record Booking := mkBooking {
  id : string;
  room : string;
  checkIn : string;
  checkOut : string;
  nights : Z;
  totalPrice : Q;
  createdAt : string;
  status : Client.BookingStatus
}.

(** The [filtered] list of [reportData]:
    [dateToCompare >= reportStartDate && dateToCompare <= reportEndDate]. *)
Definition filtered (bookings : list Booking) (reportType : Client.ReportType)
    (reportStartDate reportEndDate : IsoDate) (reportRoomFilter : string)
  : list Booking :=
  filter (fun b =>
    if Client.isCanceled (status b) then false
    else
      let dateToCompare :=
        match reportType with
        | Client.stay => checkIn b
        | Client.created => splitT0 (createdAt b)
        end in
      let inRange := jsLe (isoDate reportStartDate) dateToCompare &&
                     jsLe dateToCompare (isoDate reportEndDate) in
      let roomMatch := (reportRoomFilter =? "ALL")%string ||
                       (room b =? reportRoomFilter)%string in
      inRange && roomMatch) bookings.

Definition sumNights (l : list Booking) : Z :=
  fold_left (fun sum b => sum + nights b) l 0.

Definition sumRevenue (l : list Booking) : Q :=
  fold_left (fun sum b => (sum + totalPrice b)%Q) l 0%Q.

(** [roomBookings.some((b) => dStr >= b.checkIn && dStr < b.checkOut)] *)
Definition isOccupied (roomBookings : list Booking) (dStr : string) : bool :=
  existsb (fun b => jsLe (checkIn b) dStr && jsLt dStr (checkOut b)) roomBookings.

(** [while (current <= end) { const dStr = format(current, 'yyyy-MM-dd');
      ...; current = addDays(current, 1) }] *)
Fixpoint dayLoop (fuel : nat) (roomBookings : list Booking)
    (current end_ : Z) (occupiedDays : Z) : Z :=
  match fuel with
  | O => occupiedDays
  | S fuel' =>
      if current <=? end_ then
        let dStr := isoDate (format current) in
        dayLoop fuel' roomBookings (addDays current 1) end_
          (if isOccupied roomBookings dStr then occupiedDays + 1 else occupiedDays)
      else occupiedDays
  end.

(** [occupiedDays] after the guarded loop; the loop makes
    [daysInReport] turns ([ReceivedProps.dayLoop_enough]). *)
Definition occupiedDays (roomBookings : list Booking)
    (reportStartDate reportEndDate : IsoDate) : Z :=
  let start := parseISO reportStartDate in
  let end_ := parseISO reportEndDate in
  if 0 <? Client.daysInReport reportStartDate reportEndDate
  then dayLoop (Z.to_nat (Client.daysInReport reportStartDate reportEndDate))
         roomBookings start end_ 0
  else 0.

Definition occupancyRate (roomBookings : list Booking)
    (reportStartDate reportEndDate : IsoDate) : Q :=
  let n := Client.daysInReport reportStartDate reportEndDate in
  if 0 <? n
  then (inject_Z (occupiedDays roomBookings reportStartDate reportEndDate)
          / inject_Z n * 100)%Q
  else 0%Q.

Definition roomStat (filteredBookings : list Booking)
    (reportStartDate reportEndDate : IsoDate) (r : Client.RoomConfig)
  : Client.RoomStat :=
  let roomBookings :=
    filter (fun b => (room b =? Client.roomId r)%string) filteredBookings in
  Client.mkRoomStat (Client.roomId r) (sumNights roomBookings) (sumRevenue roomBookings)
    (occupancyRate roomBookings reportStartDate reportEndDate).

(** [roomStats] of [reportData] (App.tsx 1191-1220); it is computed
    before the months are, whatever becomes of them. *)
Definition roomStats (bookings : list Booking)
    (reportStartDate reportEndDate : IsoDate) (reportRoomFilter : string)
    (reportType : Client.ReportType) (tenantRooms : list Client.RoomConfig)
  : list Client.RoomStat :=
  let rooms := Client.roomsOf tenantRooms in
  let fl := filtered bookings reportType reportStartDate reportEndDate
              reportRoomFilter in
  map (roomStat fl reportStartDate reportEndDate) rooms.

End Received.

(** The specification's occupancy, in its words (sections 4.1, 4.2),
    on the calendar dates the delivered strings name. *)
Module SpecOccupancy.
Import Calendar.

Definition digitOf (c : ascii) : Z := Z.of_nat (nat_of_ascii c) - 48.

Fixpoint numberOf (s : string) (acc : Z) : Z :=
  match s with
  | EmptyString => acc
  | String c s' => numberOf s' (acc * 10 + digitOf c)
  end.

(** The calendar date at the head of an ISO string. *)
Definition dateOf (s : string) : IsoDate :=
  ymd (numberOf (substring 0 4 s) 0) (numberOf (substring 5 2 s) 0)
    (numberOf (substring 8 2 s) 0).

(** [overlapsDay(interval, day)]: [day >= checkIn AND day < checkOut]. *)
Definition overlapsDay (checkIn checkOut day : IsoDate) : bool :=
  (checkIn <=? day) && (day <? checkOut).

(** [isOccupied(bookings, room, day)]: some non-canceled booking for
    [room] has [overlapsDay(day)] true. *)
Definition isOccupied (bookings : list Received.Booking) (room : string) (day : IsoDate)
  : bool :=
  existsb (fun b =>
    negb (Client.isCanceled (Received.status b)) &&
    (Received.room b =? room)%string &&
    overlapsDay (dateOf (Received.checkIn b)) (dateOf (Received.checkOut b)) day)
    bookings.

(** [occupiedDayCount(bookings, room, rangeStart, rangeEnd)]: the days
    of the inclusive range on which [isOccupied] holds. *)
Definition occupiedDayCount (bookings : list Received.Booking) (room : string)
    (rangeStart rangeEnd : IsoDate) : Z :=
  Z.of_nat (List.length (filter (isOccupied bookings room)
                           (Notions.daysOfRange rangeStart rangeEnd))).

(** [occupancyRate = occupiedDayCount / totalDaysInRange * 100], and
    [0] when [totalDaysInRange <= 0]. *)
Definition occupancyRate (bookings : list Received.Booking) (room : string)
    (rangeStart rangeEnd : IsoDate) : Q :=
  let totalDaysInRange := (rangeEnd - rangeStart) + 1 in
  if totalDaysInRange <=? 0 then 0%Q
  else (inject_Z (occupiedDayCount bookings room rangeStart rangeEnd)
          / inject_Z totalDaysInRange * 100)%Q.

End SpecOccupancy.

Module TextNotions.

Definition sameComparison (c1 c2 : comparison) : bool :=
  match c1, c2 with
  | Eq, Eq | Lt, Lt | Gt, Gt => true
  | _, _ => false
  end.

(** A day whose year is written with four digits. *)
Definition fourDigitYear (d : Z) : Prop := 0 <= Calendar.yearOf d <= 9999.

End TextNotions.

Module ReceivedExamples.
Import Calendar.

(** The stay from [checkIn] to [checkOut] in room A1 as the server
    delivers it: both dates at midnight UTC. *)
Definition delivered (checkIn checkOut : IsoDate) : Received.Booking :=
  Received.mkBooking "b1" "A1"
    (Received.toISOString (checkIn * Server.MS_PER_DAY))
    (Received.toISOString (checkOut * Server.MS_PER_DAY))
    (checkOut - checkIn) (inject_Z (checkOut - checkIn) * 100)
    (Received.toISOString (checkIn * Server.MS_PER_DAY - 30 * Server.MS_PER_DAY))
    Client.UPCOMING.

Definition roomA1 : list Client.RoomConfig := [Client.mkRoom "A1" "A1"].

(** 2026-03-09 to 2026-03-13. *)
Definition marchDays9to13 : list IsoDate :=
  [ymd 2026 3 9; ymd 2026 3 10; ymd 2026 3 11; ymd 2026 3 12; ymd 2026 3 13].

End ReceivedExamples.

(* ------------------------------------------------------------------ *)
(** ** Properties of the calendar                                       *)
(* ------------------------------------------------------------------ *)

Module CalendarProps.
Import Calendar Notions.

Ltac split_ifs :=
  repeat match goal with
         | |- context [?a <=? ?b] => destruct (Z.leb_spec a b)
         | |- context [?a <? ?b] => destruct (Z.ltb_spec a b)
         end.

Ltac div_lia := Z.div_mod_to_equations; lia.

Lemma days_from_civil_march era yoe mp dd Y M :
  0 <= yoe <= 399 -> 0 <= mp <= 11 ->
  M = (if mp <? 10 then mp + 3 else mp - 9) ->
  Y = yoe + era * 400 + (if mp <? 10 then 0 else 1) ->
  days_from_civil Y M dd = marchDays era yoe mp dd.
Proof.
  intros Hyoe Hmp -> ->. unfold days_from_civil, marchDays.
  destruct (Z.ltb_spec mp 10).
  - assert (E1 : (mp + 3 <=? 2) = false) by (apply Z.leb_gt; lia).
    assert (E2 : (2 <? mp + 3) = true) by (apply Z.ltb_lt; lia).
    rewrite E1, E2.
    replace ((yoe + era * 400 + 0) / 400) with era by div_lia.
    replace (yoe + era * 400 + 0 - era * 400) with yoe by lia.
    replace (mp + 3 - 3) with mp by lia. lia.
  - assert (E1 : (mp - 9 <=? 2) = true) by (apply Z.leb_le; lia).
    assert (E2 : (2 <? mp - 9) = false) by (apply Z.ltb_ge; lia).
    rewrite E1, E2.
    replace ((yoe + era * 400 + 1 - 1) / 400) with era by div_lia.
    replace (yoe + era * 400 + 1 - 1 - era * 400) with yoe by lia.
    replace (mp - 9 + 9) with mp by lia. lia.
Qed.

Lemma jsDate_month Y M dd :
  1 <= M <= 12 -> jsDate Y (M - 1) dd = days_from_civil Y M 1 + (dd - 1).
Proof.
  intros H. unfold jsDate.
  replace ((Y * 12 + (M - 1)) / 12) with Y by div_lia.
  replace ((Y * 12 + (M - 1)) mod 12 + 1) with M by div_lia.
  reflexivity.
Qed.

(** The civil date of a day number, in the March-based form. *)
Lemma civil_from_days_march d :
  exists era yoe doy mp,
    0 <= yoe <= 399 /\ 0 <= mp <= 11 /\
    153 * mp <= 5 * doy + 2 < 153 * mp + 153 /\
    (365 * yoe + yoe / 4 - yoe / 100 + doy
       < 365 * (yoe + 1) + (yoe + 1) / 4 - (yoe + 1) / 100 \/
     (yoe = 399 /\ 365 * yoe + yoe / 4 - yoe / 100 + doy < 146097)) /\
    d = era * 146097 + (365 * yoe + yoe / 4 - yoe / 100 + doy) - 719468 /\
    yearOf d = yoe + era * 400 + (if mp <? 10 then 0 else 1) /\
    monthOf d = (if mp <? 10 then mp + 3 else mp - 9) /\
    dayOf d = doy - (153 * mp + 2) / 5 + 1.
Proof.
  unfold yearOf, monthOf, dayOf, civil_from_days. cbn [fst snd].
  set (z := d + 719468).
  set (era := z / 146097).
  set (doe := z - era * 146097).
  set (yoe := (doe - doe / 1460 + doe / 36524 - doe / 146096) / 365).
  set (doy := doe - (365 * yoe + yoe / 4 - yoe / 100)).
  set (mp := (5 * doy + 2) / 153).
  exists era, yoe, doy, mp.
  assert (Hdoe : 0 <= doe < 146097) by (subst doe era; div_lia).
  assert (Hyoe : 0 <= yoe <= 399) by (subst yoe; div_lia).
  assert (Hdoy : 0 <= doy <= 365) by (subst doy yoe; div_lia).
  assert (Hmp : 0 <= mp <= 11) by (subst mp; div_lia).
  split; [exact Hyoe|]. split; [exact Hmp|].
  split; [subst mp; div_lia|].
  split; [subst doy yoe; div_lia|].
  split; [subst doy doe z; lia|].
  clearbody mp. 
  destruct (Z.ltb_spec mp 10).
  - assert (E1 : (mp + 3 <=? 2) = false) by (apply Z.leb_gt; lia).
    rewrite E1. split; [lia | split; reflexivity].
  - assert (E1 : (mp - 9 <=? 2) = true) by (apply Z.leb_le; lia).
    rewrite E1. split; [lia | split; reflexivity].
Qed.

(** A day lies in its month, and a month has 28 to 31 days. *)
Lemma month_span d :
  startOfMonth d <= d < nextMonth d /\
  28 <= nextMonth d - startOfMonth d <= 31.
Proof.
  destruct (civil_from_days_march d)
    as (era & yoe & doy & mp & Hyoe & Hmp & Hdoy & Hnext & Hd & HY & HM & _).
  assert (Hstart : startOfMonth d = marchDays era yoe mp 1).
  { unfold startOfMonth. rewrite jsDate_month by (rewrite HM; split_ifs; lia).
    rewrite (days_from_civil_march era yoe mp 1 _ _ Hyoe Hmp HM HY). lia. }
  rewrite Hstart. unfold nextMonth.
  replace (monthOf d) with (monthOf d + 1 - 1) by lia.
  destruct (Z.eq_dec (monthOf d) 12) as [H12|H12].
  - (* December, [mp = 9]: January of the next civil year *)
    assert (mp = 9) by (rewrite HM in H12; revert H12; split_ifs; lia). subst mp.
    unfold jsDate.
    replace ((yearOf d * 12 + (monthOf d + 1 - 1)) / 12) with (yearOf d + 1)
      by (rewrite H12; div_lia).
    replace ((yearOf d * 12 + (monthOf d + 1 - 1)) mod 12 + 1) with 1
      by (rewrite H12; div_lia).
    rewrite (days_from_civil_march era yoe 10 1);
      [ | lia | lia | reflexivity | rewrite HY; split_ifs; lia ].
    unfold marchDays. rewrite Hd. div_lia.
  - assert (HM1 : 1 <= monthOf d + 1 <= 12)
      by (rewrite HM in *; revert H12; split_ifs; lia).
    rewrite jsDate_month by exact HM1.
    destruct (Z.eq_dec mp 11) as [H11|H11].
    + (* February, [mp = 11]: March of the next year of the era *)
      subst mp.
      assert (HM' : monthOf d + 1 = 3) by (rewrite HM; split_ifs; lia).
      assert (HY' : yearOf d = yoe + era * 400 + 1) by (rewrite HY; split_ifs; lia).
      destruct (Z.eq_dec yoe 399) as [Hlast|Hlast].
      * rewrite (days_from_civil_march (era + 1) 0 0 1);
          [ | lia | lia | rewrite HM'; split_ifs; lia | rewrite HY'; split_ifs; lia ].
        unfold marchDays. rewrite Hd. subst yoe. div_lia.
      * rewrite (days_from_civil_march era (yoe + 1) 0 1);
          [ | lia | lia | rewrite HM'; split_ifs; lia | rewrite HY'; split_ifs; lia ].
        unfold marchDays. rewrite Hd.
        destruct Hnext as [Hnext|[Hnext _]]; [|lia]. div_lia.
    + rewrite (days_from_civil_march era yoe (mp + 1) 1);
        [ | lia | lia | rewrite HM; split_ifs; lia | rewrite HY; split_ifs; lia ].
      unfold marchDays. rewrite Hd.
      assert (H9 : mp <> 9) by (intros ->; apply H12; rewrite HM; reflexivity).
      assert (Hc : mp = 0 \/ mp = 1 \/ mp = 2 \/ mp = 3 \/ mp = 4 \/ mp = 5 \/
                   mp = 6 \/ mp = 7 \/ mp = 8 \/ mp = 10) by lia.
      repeat (destruct Hc as [Hc|Hc]); subst mp; div_lia.
Qed.

Lemma endOfMonth_nextMonth d : endOfMonth d = nextMonth d - 1.
Proof. unfold endOfMonth, nextMonth, jsDate. lia. Qed.

Lemma startOfMonth_index d : startOfMonth d = monthStart (monthIndex d).
Proof. unfold startOfMonth, monthStart, monthIndex, jsDate. reflexivity. Qed.

Lemma nextMonth_index d : nextMonth d = monthStart (monthIndex d + 1).
Proof.
  unfold nextMonth, monthStart, monthIndex, jsDate.
  replace (0 * 12 + (yearOf d * 12 + (monthOf d - 1) + 1))
    with (yearOf d * 12 + monthOf d) by lia.
  reflexivity.
Qed.

Lemma monthOf_range d : 1 <= monthOf d <= 12.
Proof.
  destruct (civil_from_days_march d)
    as (era & yoe & doy & mp & _ & Hmp & _ & _ & _ & _ & HM & _).
  rewrite HM. split_ifs; lia.
Qed.

Lemma startOfMonth_march d era yoe mp :
  0 <= yoe <= 399 -> 0 <= mp <= 11 ->
  yearOf d = yoe + era * 400 + (if mp <? 10 then 0 else 1) ->
  monthOf d = (if mp <? 10 then mp + 3 else mp - 9) ->
  startOfMonth d = marchDays era yoe mp 1.
Proof.
  intros Hyoe Hmp HY HM.
  unfold startOfMonth. rewrite jsDate_month by (rewrite HM; split_ifs; lia).
  rewrite (days_from_civil_march era yoe mp 1 _ _ Hyoe Hmp HM HY). lia.
Qed.

(** The day of the month counts from the first of the month. *)
Lemma dayOf_startOfMonth d : dayOf d = d - startOfMonth d + 1.
Proof.
  destruct (civil_from_days_march d)
    as (era & yoe & doy & mp & Hyoe & Hmp & Hdoy & _ & Hd & HY & HM & HD).
  rewrite (startOfMonth_march d era yoe mp Hyoe Hmp HY HM), HD.
  unfold marchDays. rewrite Hd. lia.
Qed.

(** The first of a month is in that month. *)
Lemma monthIndex_monthStart k : monthIndex (monthStart k) = k.
Proof.
  unfold monthIndex, yearOf, monthOf, monthStart, jsDate.
  replace (0 * 12 + k) with k by lia.
  set (y := k / 12). set (m := k mod 12 + 1).
  assert (Hm : 1 <= m <= 12) by (subst m; div_lia).
  assert (Hk : k = y * 12 + (m - 1)) by (subst y m; div_lia).
  replace (days_from_civil y m 1 + (1 - 1)) with (days_from_civil y m 1) by lia.
  set (mp := if 2 <? m then m - 3 else m + 9).
  set (y' := if m <=? 2 then y - 1 else y).
  set (era := y' / 400). set (yoe := y' - era * 400).
  assert (Hmp : 0 <= mp <= 11) by (subst mp; split_ifs; lia).
  assert (Hyoe : 0 <= yoe <= 399) by (subst yoe era; div_lia).
  assert (HM : m = (if mp <? 10 then mp + 3 else mp - 9))
    by (subst mp; split_ifs; lia).
  assert (HY : y = yoe + era * 400 + (if mp <? 10 then 0 else 1))
    by (subst yoe y' mp; split_ifs; lia).
  rewrite (days_from_civil_march era yoe mp 1 y m Hyoe Hmp HM HY).
  clearbody mp yoe era. clear y' Hm. clearbody y m.
  unfold marchDays, civil_from_days. cbn [fst snd].
  replace (era * 146097 + (yoe * 365 + yoe / 4 - yoe / 100 + (153 * mp + 2) / 5 + 1 - 1)
           - 719468 + 719468)
    with (era * 146097 + (yoe * 365 + yoe / 4 - yoe / 100 + (153 * mp + 2) / 5)) by lia.
  set (c := (153 * mp + 2) / 5).
  assert (Hc : 0 <= c <= 337) by (subst c; div_lia).
  assert (Hc5 : (5 * c + 2) / 153 = mp).
  { subst c.
    assert (Hcases : mp = 0 \/ mp = 1 \/ mp = 2 \/ mp = 3 \/ mp = 4 \/ mp = 5 \/
                     mp = 6 \/ mp = 7 \/ mp = 8 \/ mp = 9 \/ mp = 10 \/ mp = 11) by lia.
    repeat (destruct Hcases as [Hcases|Hcases]); subst mp; reflexivity. }
  set (doe := yoe * 365 + yoe / 4 - yoe / 100 + c).
  assert (Hdoe : 0 <= doe < 146097) by (subst doe; div_lia).
  replace ((era * 146097 + doe) / 146097) with era by div_lia.
  replace (era * 146097 + doe - era * 146097) with doe by lia.
  assert (Hyoe' : (doe - doe / 1460 + doe / 36524 - doe / 146096) / 365 = yoe)
    by (subst doe; div_lia).
  rewrite Hyoe'.
  replace (doe - (365 * yoe + yoe / 4 - yoe / 100)) with c by (subst doe; lia).
  rewrite Hc5. rewrite <- HM. rewrite Hk.
  subst y. clear Hk.
  destruct (Z.ltb_spec mp 10); split_ifs; lia.
Qed.

(** Month starts grow with the month index. *)
Lemma monthStart_step k : 
  monthStart k < monthStart (k + 1) /\ monthStart (k + 1) - monthStart k <= 31.
Proof.
  pose proof (month_span (monthStart k)) as H.
  rewrite startOfMonth_index, nextMonth_index, monthIndex_monthStart in H. lia.
Qed.

Lemma monthStart_mono : forall a b, a < b -> monthStart a < monthStart b.
Proof.
  intros a b H.
  replace b with (a + 1 + Z.of_nat (Z.to_nat (b - a - 1))) by lia.
  induction (Z.to_nat (b - a - 1)) as [|n IH].
  - replace (a + 1 + Z.of_nat 0) with (a + 1) by lia. apply monthStart_step.
  - replace (a + 1 + Z.of_nat (S n)) with (a + 1 + Z.of_nat n + 1) by lia.
    pose proof (monthStart_step (a + 1 + Z.of_nat n)). lia.
Qed.

(** Later days are in later (or the same) months. *)
Lemma monthIndex_mono d1 d2 : d1 <= d2 -> monthIndex d1 <= monthIndex d2.
Proof.
  intros H. destruct (Z.le_gt_cases (monthIndex d1) (monthIndex d2)) as [|Hgt]; auto.
  pose proof (month_span d1) as [[H1 _] _].
  pose proof (month_span d2) as [[_ H2] _].
  rewrite startOfMonth_index in H1. rewrite nextMonth_index in H2.
  assert (monthStart (monthIndex d2 + 1) <= monthStart (monthIndex d1)).
  { destruct (Z.eq_dec (monthIndex d2 + 1) (monthIndex d1)) as [->|Hne]; [lia|].
    apply Z.lt_le_incl, monthStart_mono. lia. }
  lia.
Qed.

Lemma civil_from_days_fields d :
  civil_from_days d = (yearOf d, monthOf d, dayOf d).
Proof.
  unfold yearOf, monthOf, dayOf. destruct (civil_from_days d) as [[y m] dd].
  reflexivity.
Qed.

(** Dates written year, month, day are ordered as their day numbers
    are: this is what lets a day number stand for an ISO date string in
    the comparisons of the report builder. *)
Lemma civil_order d1 d2 :
  civilLe (civil_from_days d1) (civil_from_days d2) <-> d1 <= d2.
Proof.
  rewrite !civil_from_days_fields. unfold civilLe.
  pose proof (monthOf_range d1) as HM1. pose proof (monthOf_range d2) as HM2.
  pose proof (dayOf_startOfMonth d1) as HD1.
  pose proof (dayOf_startOfMonth d2) as HD2.
  rewrite startOfMonth_index in HD1, HD2.
  assert (Hsame : monthIndex d1 = monthIndex d2 ->
                  monthStart (monthIndex d1) = monthStart (monthIndex d2))
    by (intros ->; reflexivity).
  assert (Hmono : forall a b, a <= b -> monthIndex a <= monthIndex b)
    by apply monthIndex_mono.
  pose proof (Hmono d1 d2) as H12. pose proof (Hmono d2 d1) as H21.
  unfold monthIndex in *.
  split.
  - intros H. destruct (Z.le_gt_cases d1 d2) as [|Hgt]; [assumption|].
    assert (Hk : yearOf d2 * 12 + (monthOf d2 - 1) <= yearOf d1 * 12 + (monthOf d1 - 1))
      by (apply H21; lia).
    assert (Hy : yearOf d1 = yearOf d2) by lia.
    assert (Hm : monthOf d1 = monthOf d2) by lia.
    rewrite Hy, Hm in *. lia.
  - intros H. specialize (H12 H).
    destruct (Z.eq_dec (yearOf d1 * 12 + (monthOf d1 - 1))
                (yearOf d2 * 12 + (monthOf d2 - 1))) as [E|E].
    + specialize (Hsame E). right. split; [lia|]. right. split; lia.
    + lia.
Qed.

(** The days left to [endTime] are enough fuel for the month loop: with
    them it leaves through its own guard, and more turns add nothing. *)
Lemma monthsLoop_fuel endTime : forall n extra currentDate,
  endTime - currentDate + 1 <= Z.of_nat n ->
  monthsLoop (n + extra) currentDate endTime = monthsLoop n currentDate endTime.
Proof.
  induction n as [|n IH]; intros extra currentDate H.
  - simpl. destruct extra; simpl; [reflexivity|].
    destruct (Z.leb_spec currentDate endTime); [lia | reflexivity].
  - simpl. destruct (Z.leb_spec currentDate endTime); [|reflexivity].
    f_equal. apply IH. pose proof (month_span currentDate). lia.
Qed.

Lemma monthsBetween_fuel startDate endTime extra :
  monthsLoop (Z.to_nat (endTime - startOfMonth startDate + 1) + extra)
    (startOfMonth startDate) endTime
  = monthsBetween startDate endTime.
Proof. unfold monthsBetween. apply monthsLoop_fuel. lia. Qed.

(** A month has at least one possible night, so the fill rate of a
    bucket is always the quotient. *)
Lemma totalPossibleNights_month month :
  28 <= Client.totalPossibleNights (format (startOfMonth month))
          (format (endOfMonth month)) <= 31.
Proof.
  unfold Client.totalPossibleNights, differenceInDays, parseISO, format.
  rewrite endOfMonth_nextMonth. pose proof (month_span month). lia.
Qed.

End CalendarProps.

(* ------------------------------------------------------------------ *)
(** ** Properties of the client report builder                          *)
(* ------------------------------------------------------------------ *)

Module ClientProps.
Import Calendar Client Notions Examples.

(** *** Lists and sums *)

Lemma filter_all {A} (f : A -> bool) (l : list A) :
  (forall x, In x l -> f x = true) -> filter f l = l.
Proof.
  induction l as [|a l IH]; simpl; intros H; auto.
  rewrite (H a) by auto. f_equal. apply IH. auto.
Qed.

Lemma filter_none {A} (f : A -> bool) (l : list A) :
  (forall x, In x l -> f x = false) -> filter f l = [].
Proof.
  induction l as [|a l IH]; simpl; intros H; auto.
  rewrite (H a) by auto. apply IH. auto.
Qed.

Lemma forallb_filter {A} (p q : A -> bool) l :
  forallb p l = true -> forallb p (filter q l) = true.
Proof.
  rewrite !forallb_forall. intros H x Hx. apply filter_In in Hx. apply H, Hx.
Qed.

Lemma fold_left_sumZ (f : Booking -> Z) : forall l acc,
  fold_left (fun sum b => sum + f b) l acc = acc + sumZ f l.
Proof.
  induction l as [|a l IH]; intros acc; simpl.
  - lia.
  - rewrite IH. lia.
Qed.

Lemma sumZ_nonneg f l : (forall b, 0 <= f b) -> 0 <= sumZ f l.
Proof.
  intros H. induction l as [|a l IH]; simpl; [lia|]. specialize (H a). lia.
Qed.

Lemma sumZ_filter_split f (p : Booking -> bool) l :
  sumZ f l = sumZ f (filter p l) + sumZ f (filter (fun b => negb (p b)) l).
Proof.
  induction l as [|a l IH]; simpl; [lia|].
  destruct (p a); simpl; lia.
Qed.

Lemma sumZ_le f g l :
  (forall b, In b l -> f b <= g b) -> sumZ f l <= sumZ g l.
Proof.
  induction l as [|a l IH]; simpl; intros H; [lia|].
  assert (f a <= g a) by (apply H; auto).
  assert (sumZ f l <= sumZ g l) by (apply IH; auto). lia.
Qed.

Lemma sumZ_plus f g l :
  sumZ (fun b => f b + g b) l = sumZ f l + sumZ g l.
Proof. induction l as [|a l IH]; simpl; lia. Qed.

(** A conditional [reduce] is a [reduce] over the filtered list. *)
Lemma fold_left_cond (c : Booking -> bool) (p : Booking -> Q) : forall l acc,
  fold_left (fun sum b => if c b then (sum + p b)%Q else sum) l acc =
  fold_left (fun sum b => (sum + p b)%Q) (filter c l) acc.
Proof.
  induction l as [|a l IH]; intros acc; simpl; auto.
  destruct (c a); simpl; apply IH.
Qed.

Lemma filter_filter {A} (p q : A -> bool) l :
  filter p (filter q l) = filter (fun x => q x && p x) l.
Proof.
  induction l as [|a l IH]; simpl; auto.
  destruct (q a); simpl; [destruct (p a)|]; rewrite IH; auto.
Qed.

Lemma filter_ext_in' {A} (p q : A -> bool) l :
  (forall x, In x l -> p x = q x) -> filter p l = filter q l.
Proof.
  induction l as [|a l IH]; simpl; intros H; auto.
  rewrite (H a) by auto. rewrite IH by auto. reflexivity.
Qed.

(** *** Percentages *)

Lemma rate_full (n : Z) : 0 < n -> (inject_Z n / inject_Z n * 100 == 100)%Q.
Proof.
  intros H. field. intros E.
  assert (E' : (inject_Z n == inject_Z 0)%Q) by exact E.
  rewrite inject_Z_injective in E'. lia.
Qed.

Lemma rate_zero (n : Z) : (inject_Z 0 / inject_Z n * 100 == 0)%Q.
Proof. unfold Qdiv. rewrite Qmult_0_l. rewrite Qmult_0_l. reflexivity. Qed.

Lemma percent_range (a d : Z) :
  0 <= a -> 0 <= d ->
  (0 <= inject_Z a / inject_Z d * 100)%Q /\
  (a <= d -> 0 < d -> (inject_Z a / inject_Z d * 100 <= 100)%Q).
Proof.
  intros Ha Hd. split.
  - apply Qmult_le_0_compat; [|discriminate].
    unfold Qdiv. apply Qmult_le_0_compat.
    + change 0%Q with (inject_Z 0). rewrite <- Zle_Qle. exact Ha.
    + apply Qinv_le_0_compat.
      change 0%Q with (inject_Z 0). rewrite <- Zle_Qle. exact Hd.
  - intros Hle Hpos.
    assert (H1 : (inject_Z a / inject_Z d <= 1)%Q).
    { apply Qle_shift_div_r.
      - change 0%Q with (inject_Z 0). rewrite <- Zlt_Qlt. exact Hpos.
      - rewrite Qmult_1_l. rewrite <- Zle_Qle. exact Hle. }
    setoid_replace (100 : Q) with (1 * 100)%Q at 2 by reflexivity.
    apply Qmult_le_compat_r; [exact H1 | discriminate].
Qed.

(** *** The day loop of the per-room statistics *)

Lemma in_daysFrom n : forall d x,
  In x (daysFrom n d) <-> d <= x < d + Z.of_nat n.
Proof.
  induction n as [|n IH]; intros d x; simpl.
  - lia.
  - rewrite IH. lia.
Qed.

Lemma in_daysOfRange s e x : In x (daysOfRange s e) <-> s <= x <= e.
Proof. unfold daysOfRange. rewrite in_daysFrom. lia. Qed.

Lemma length_daysFrom n : forall d, List.length (daysFrom n d) = n.
Proof. induction n; simpl; intros; auto. Qed.

Lemma isOccupied_iff roomBookings d :
  isOccupied roomBookings d = true <->
  exists b, In b roomBookings /\ checkIn b <= d /\ d < checkOut b.
Proof.
  unfold isOccupied. rewrite existsb_exists.
  split; intros [b [Hin H]]; exists b; split; auto.
  - apply andb_true_iff in H. destruct H as [H1 H2].
    apply Z.leb_le in H1. apply Z.ltb_lt in H2. lia.
  - apply andb_true_iff. split; [apply Z.leb_le | apply Z.ltb_lt]; lia.
Qed.

(** As long as its guard holds on every turn, the loop counts the
    occupied days among the next [n]. *)
Lemma dayLoop_counts roomBookings end_ : forall n current acc,
  Z.of_nat n <= end_ - current + 1 ->
  dayLoop n roomBookings current end_ acc =
  acc + Z.of_nat (List.length (filter (isOccupied roomBookings) (daysFrom n current))).
Proof.
  induction n as [|n IH]; intros current acc Hn; simpl.
  - lia.
  - assert (Hle : (current <=? end_) = true) by (apply Z.leb_le; lia).
    rewrite Hle. unfold addDays, format. rewrite IH by lia.
    destruct (isOccupied roomBookings current); simpl; lia.
Qed.

Lemma dayLoop_exit roomBookings end_ : forall n current acc,
  end_ < current -> dayLoop n roomBookings current end_ acc = acc.
Proof.
  intros [|n] current acc H; simpl; auto.
  assert (Hle : (current <=? end_) = false) by (apply Z.leb_gt; lia).
  now rewrite Hle.
Qed.

(** The number of days of the window is enough fuel: with it the loop
    leaves through its own guard, and more turns change nothing. *)
Lemma dayLoop_fuel roomBookings end_ : forall n extra current acc,
  end_ - current + 1 <= Z.of_nat n ->
  dayLoop (n + extra) roomBookings current end_ acc =
  dayLoop n roomBookings current end_ acc.
Proof.
  induction n as [|n IH]; intros extra current acc H.
  - simpl. apply dayLoop_exit. lia.
  - simpl. destruct (current <=? end_) eqn:Hle; auto.
    apply IH. unfold addDays. lia.
Qed.

(** The loop computes the specification's [occupiedDayCount]. *)
Lemma occupiedDays_spec roomBookings s e :
  occupiedDays roomBookings s e = occupiedDayCount roomBookings s e.
Proof.
  unfold occupiedDays, occupiedDayCount, daysOfRange, daysInReport,
    differenceInDays, parseISO.
  destruct (0 <? e - s + 1) eqn:Hpos.
  - apply Z.ltb_lt in Hpos. rewrite dayLoop_counts by lia. lia.
  - apply Z.ltb_ge in Hpos.
    replace (Z.to_nat (e - s + 1)) with O by lia. reflexivity.
Qed.

Lemma occupiedDays_fuel roomBookings s e extra :
  0 < daysInReport s e ->
  dayLoop (Z.to_nat (daysInReport s e) + extra) roomBookings (parseISO s) (parseISO e) 0
  = occupiedDays roomBookings s e.
Proof.
  intros H. unfold occupiedDays.
  assert (Hpos : (0 <? daysInReport s e) = true) by (apply Z.ltb_lt; exact H).
  rewrite Hpos. apply dayLoop_fuel.
  unfold daysInReport, differenceInDays, parseISO in *. lia.
Qed.

Lemma occupiedDayCount_full roomBookings s e :
  (forall d, s <= d <= e -> isOccupied roomBookings d = true) ->
  occupiedDayCount roomBookings s e = Z.max 0 (e - s + 1).
Proof.
  intros H. unfold occupiedDayCount.
  rewrite filter_all by (intros d Hd; apply H, in_daysOfRange, Hd).
  unfold daysOfRange. rewrite length_daysFrom. lia.
Qed.

Lemma occupiedDayCount_none roomBookings s e :
  (forall d, s <= d <= e -> isOccupied roomBookings d = false) ->
  occupiedDayCount roomBookings s e = 0.
Proof.
  intros H. unfold occupiedDayCount.
  rewrite filter_none by (intros d Hd; apply H, in_daysOfRange, Hd).
  reflexivity.
Qed.

(** *** The month buckets *)

Lemma monthOccupancy_sum mb s e :
  monthOccupancy mb s e = sumZ (clampedDays s e) mb.
Proof. unfold monthOccupancy. rewrite fold_left_sumZ. lia. Qed.

Lemma clampedDays_nonneg s e b : 0 <= clampedDays s e b.
Proof. unfold clampedDays. lia. Qed.

Ltac unfold_clamp :=
  unfold clampedDays, differenceInDays, parseISO in *;
  repeat match goal with
         | |- context [?a <? ?b] => destruct (Z.ltb_spec a b)
         end.

(** What one booking adds to a bucket: its stay cut to the window
    from [realStart] to [monthEnd], the last day of the month. *)
Lemma clampedDays_value s e b :
  clampedDays s e b =
  Z.max 0 (Z.min (checkOut b) e - Z.max (checkIn b) s).
Proof. unfold_clamp; lia. Qed.

(** The bucket of a month misses the night of the last day of the
    month: a stay in house that night adds one night less than it has
    in the month, any other stay its nights in the month. *)
Lemma clampedDays_misses_last_night s e b :
  s <= e -> checkIn b < checkOut b ->
  clampedDays s e b =
  nightsInMonth s e b - (if (checkIn b <=? e) && (e <? checkOut b) then 1 else 0).
Proof.
  intros Hse Hstay. rewrite clampedDays_value. unfold nightsInMonth.
  destruct (Z.leb_spec (checkIn b) e), (Z.ltb_spec e (checkOut b)); simpl; lia.
Qed.

Lemma disjointStays_iff a b :
  disjointStays a b = true <-> checkOut a <= checkIn b \/ checkOut b <= checkIn a.
Proof.
  unfold disjointStays. rewrite orb_true_iff, !Z.leb_le. tauto.
Qed.

Lemma clamp_split_around a x s e :
  disjointStays a x = true ->
  0 < clampedDays s e a ->
  clampedDays s e x <=
    clampedDays s (Z.max (checkIn a) s) x + clampedDays (Z.min (checkOut a) e) e x.
Proof.
  rewrite disjointStays_iff. rewrite !clampedDays_value. lia.
Qed.

(** Stays that do not overlap cannot fill more than the window. *)
Lemma disjoint_stays_fit : forall l,
  pairwiseDisjoint l ->
  forall s e, s <= e -> sumZ (clampedDays s e) l <= e - s.
Proof.
  induction l as [|a l IH]; intros Hd s e Hse; simpl.
  - lia.
  - destruct Hd as [Ha Hl].
    destruct (Z.eq_dec (clampedDays s e a) 0) as [Hz|Hnz].
    + rewrite Hz. specialize (IH Hl s e Hse). lia.
    + pose proof (clampedDays_nonneg s e a) as Hnn.
      assert (Hpos : 0 < clampedDays s e a) by lia.
      set (a' := Z.max (checkIn a) s).
      set (b' := Z.min (checkOut a) e).
      assert (Hval : clampedDays s e a = b' - a' /\ s <= a' /\ b' <= e).
      { subst a' b'. rewrite clampedDays_value in *. lia. }
      destruct Hval as [Hval [H1 H2]].
      assert (Hsplit : sumZ (clampedDays s e) l <=
                       sumZ (clampedDays s a') l + sumZ (clampedDays b' e) l).
      { rewrite <- sumZ_plus. apply sumZ_le. intros x Hx.
        apply clamp_split_around; auto. }
      pose proof (IH Hl s a' H1). pose proof (IH Hl b' e H2). lia.
Qed.

Lemma noDoubleBooking_filter q : forall l,
  noDoubleBooking l = true -> noDoubleBooking (filter q l) = true.
Proof.
  induction l as [|a l IH]; simpl; intros H; auto.
  apply andb_true_iff in H. destruct H as [H1 H2].
  destruct (q a); simpl; auto.
  apply andb_true_iff. split; auto using forallb_filter.
Qed.

(** Live bookings of one room, none of them double booked, are
    pairwise disjoint stays. *)
Lemma one_room_disjoint r : forall l,
  noDoubleBooking l = true ->
  (forall b, In b l -> isCanceled (status b) = false /\ room b = r) ->
  pairwiseDisjoint l.
Proof.
  induction l as [|a l IH]; simpl; intros H Hall; auto.
  apply andb_true_iff in H. destruct H as [H1 H2]. split.
  - intros b Hb. rewrite forallb_forall in H1. specialize (H1 b Hb).
    unfold compatible in H1.
    destruct (Hall a (or_introl eq_refl)) as [Ca Ra].
    destruct (Hall b (or_intror Hb)) as [Cb Rb].
    rewrite Ca, Cb, Ra, Rb, String.eqb_refl in H1. exact H1.
  - apply IH; auto.
Qed.

Lemma one_room_fits r l s e :
  noDoubleBooking l = true ->
  (forall b, In b l -> isCanceled (status b) = false /\ room b = r) ->
  s <= e -> sumZ (clampedDays s e) l <= e - s.
Proof.
  intros H Hall Hse. apply disjoint_stays_fit; auto.
  eapply one_room_disjoint; eauto.
Qed.

(** Live bookings of configured rooms fit the window once per room. *)
Lemma all_rooms_fit s e : s <= e -> forall rooms l,
  noDoubleBooking l = true ->
  (forall b, In b l -> isCanceled (status b) = false /\
                       existsb (fun r => (roomId r =? room b)%string) rooms = true) ->
  sumZ (clampedDays s e) l <= (e - s) * Z.of_nat (List.length rooms).
Proof.
  intros Hse. induction rooms as [|r rooms IH]; intros l H Hall.
  - destruct l as [|b l]; simpl; [lia|].
    destruct (Hall b (or_introl eq_refl)) as [_ F]. discriminate.
  - rewrite (sumZ_filter_split _ (fun b => (roomId r =? room b)%string) l).
    assert (H1 : sumZ (clampedDays s e)
                   (filter (fun b => (roomId r =? room b)%string) l) <= e - s).
    { apply one_room_fits with (r := roomId r); auto using noDoubleBooking_filter.
      intros b Hb. apply filter_In in Hb. destruct Hb as [Hb Hr].
      apply String.eqb_eq in Hr. split; [apply Hall, Hb | auto]. }
    assert (H2 : sumZ (clampedDays s e)
                   (filter (fun b => negb (roomId r =? room b)%string) l)
                 <= (e - s) * Z.of_nat (List.length rooms)).
    { apply IH; auto using noDoubleBooking_filter.
      intros b Hb. apply filter_In in Hb. destruct Hb as [Hb Hr].
      destruct (Hall b Hb) as [Hc Hex]. split; auto.
      simpl in Hex. apply negb_true_iff in Hr. rewrite Hr in Hex. exact Hex. }
    simpl List.length. lia.
Qed.

Lemma roomsOf_nonempty tenantRooms : (0 < List.length (roomsOf tenantRooms))%nat.
Proof. destruct tenantRooms; simpl; lia. Qed.

Lemma totalRoomsOf_pos f tenantRooms : 1 <= totalRoomsOf f (roomsOf tenantRooms).
Proof.
  unfold totalRoomsOf. pose proof (roomsOf_nonempty tenantRooms).
  destruct (f =? "ALL")%string; lia.
Qed.

Lemma monthBookings_in bookings f s e b :
  In b (monthBookings bookings f s e) ->
  In b bookings /\ isCanceled (status b) = false /\ roomMatch f b = true.
Proof.
  unfold monthBookings. rewrite filter_In. intros [Hin H].
  repeat (apply andb_true_iff in H; destruct H as [H ?]).
  apply negb_true_iff in H. auto.
Qed.

(** The occupancy of a bucket fits the rooms when nothing is double
    booked. *)
Lemma monthOccupancy_fits bookings f tenantRooms s e :
  s <= e ->
  noDoubleBooking bookings = true ->
  (f = "ALL"%string -> roomsConfigured (roomsOf tenantRooms) bookings = true) ->
  monthOccupancy (monthBookings bookings f s e) s e
  <= (e - s) * totalRoomsOf f (roomsOf tenantRooms).
Proof.
  intros Hse Hnd Hconf. rewrite monthOccupancy_sum.
  assert (Hmb : noDoubleBooking (monthBookings bookings f s e) = true)
    by (apply noDoubleBooking_filter, Hnd).
  unfold totalRoomsOf. destruct (f =? "ALL")%string eqn:Hf.
  - apply String.eqb_eq in Hf. specialize (Hconf Hf).
    apply all_rooms_fit; auto.
    intros b Hb. apply monthBookings_in in Hb. destruct Hb as [Hin [Hc _]].
    split; auto. unfold roomsConfigured in Hconf.
    rewrite forallb_forall in Hconf. specialize (Hconf b Hin).
    rewrite Hc in Hconf. exact Hconf.
  - rewrite Z.mul_1_r. apply one_room_fits with (r := f); auto.
    intros b Hb. apply monthBookings_in in Hb. destruct Hb as [_ [Hc Hr]].
    split; auto. unfold roomMatch in Hr. rewrite Hf in Hr. simpl in Hr.
    apply String.eqb_eq in Hr. exact Hr.
Qed.

Lemma fillRate_monthStat bookings f tenantRooms month :
  let m := monthStat bookings f (roomsOf tenantRooms) month in
  (0 <= ms_fillRate m)%Q /\
  (noDoubleBooking bookings = true ->
   (f = "ALL"%string -> roomsConfigured (roomsOf tenantRooms) bookings = true) ->
   (ms_fillRate m <= 100)%Q).
Proof.
  simpl. unfold fillRateOf, format.
  set (s := startOfMonth month). set (e := endOfMonth month).
  set (occ := monthOccupancy (monthBookings bookings f s e) s e).
  set (rooms := totalRoomsOf f (roomsOf tenantRooms)).
  assert (Hocc : 0 <= occ).
  { subst occ. rewrite monthOccupancy_sum.
    apply sumZ_nonneg, clampedDays_nonneg. }
  assert (Hrooms : 1 <= rooms) by apply totalRoomsOf_pos.
  unfold totalPossibleNights, differenceInDays, parseISO.
  destruct (0 <? e - s + 1) eqn:Hpos.
  - apply Z.ltb_lt in Hpos.
    assert (Hd : 0 <= (e - s + 1) * rooms) by nia.
    destruct (percent_range occ ((e - s + 1) * rooms) Hocc Hd) as [Hlo Hhi].
    split; [exact Hlo|]. intros Hnd Hconf. apply Hhi; [|nia].
    assert (Hfit : occ <= (e - s) * rooms).
    { subst occ rooms. apply monthOccupancy_fits; auto. lia. }
    nia.
  - split; [apply Qle_refl|]. intros _ _. discriminate.
Qed.

(** *** Canceled bookings and the reversed window *)

Lemma filtered_canceled b bookings rt s e f :
  status b = CANCELED ->
  filtered (b :: bookings) rt s e f = filtered bookings rt s e f.
Proof. intros H. unfold filtered. simpl. rewrite H. reflexivity. Qed.

Lemma monthBookings_canceled b bookings f s e :
  status b = CANCELED ->
  monthBookings (b :: bookings) f s e = monthBookings bookings f s e.
Proof. intros H. unfold monthBookings. simpl. rewrite H. reflexivity. Qed.

Lemma monthStat_canceled b bookings f rooms month :
  status b = CANCELED ->
  monthStat (b :: bookings) f rooms month = monthStat bookings f rooms month.
Proof.
  intros H. unfold monthStat.
  rewrite (monthBookings_canceled b bookings f _ _ H). reflexivity.
Qed.

(** On the client a canceled booking changes nothing of the report. *)
Lemma reportData_canceled v b bookings s e f rt tenantRooms :
  status b = CANCELED ->
  reportData v (b :: bookings) s e f rt tenantRooms =
  reportData v bookings s e f rt tenantRooms.
Proof.
  intros H. unfold reportData. rewrite (filtered_canceled b bookings rt s e f H).
  destruct (eachMonthOfInterval v (parseISO s) (parseISO e)) as [err|months];
    [reflexivity|].
  rewrite (map_ext _ _ (fun month =>
             monthStat_canceled b bookings f (roomsOf tenantRooms) month H)).
  reflexivity.
Qed.

(** No booking has its basis date in a reversed window. *)
Lemma filtered_reversed bookings rt s e f :
  e < s -> filtered bookings rt s e f = [].
Proof.
  intros H. unfold filtered. apply filter_none. intros b _.
  destruct (isCanceled (status b)); auto.
  destruct (Z.leb_spec s (dateToCompare rt b)), (Z.leb_spec (dateToCompare rt b) e);
    simpl; auto; lia.
Qed.

Lemma roomStat_reversed bookings rt s e f r :
  e < s ->
  roomStat (filtered bookings rt s e f) s e r = mkRoomStat (roomId r) 0 0 0.
Proof.
  intros H. rewrite filtered_reversed by exact H.
  unfold roomStat, occupancyRate, daysInReport, differenceInDays, parseISO. simpl.
  assert (Hn : (0 <? e - s + 1) = false) by (apply Z.ltb_ge; lia).
  rewrite Hn. reflexivity.
Qed.

(** The month buckets never read the report type. *)
Lemma monthlyStats_ignore_reportType v bookings s e f tenantRooms :
  match reportData v bookings s e f stay tenantRooms,
        reportData v bookings s e f created tenantRooms with
  | inr r1, inr r2 => monthlyStats r1 = monthlyStats r2
  | inl e1, inl e2 => e1 = e2
  | _, _ => False
  end.
Proof.
  unfold reportData.
  destruct (eachMonthOfInterval v (parseISO s) (parseISO e)); reflexivity.
Qed.

(** The revenue of a bucket is the revenue of the live, room-matching
    bookings that check in during the month (stays being at least one
    night long). *)
Lemma monthRevenue_by_checkIn bookings f s e :
  (forall b, In b bookings -> checkIn b < checkOut b) ->
  monthRevenue (monthBookings bookings f s e) s e =
  sumRevenue (filter (fun b => negb (isCanceled (status b)) && roomMatch f b &&
                               ((s <=? checkIn b) && (checkIn b <=? e))) bookings).
Proof.
  intros Hvalid. unfold monthRevenue, sumRevenue, monthBookings.
  rewrite fold_left_cond, filter_filter. f_equal.
  apply filter_ext_in'. intros b Hb. specialize (Hvalid b Hb).
  destruct (isCanceled (status b)), (roomMatch f b); simpl;
    rewrite ?andb_false_r; auto;
    destruct (Z.leb_spec (checkIn b) e), (Z.leb_spec s (checkIn b)),
      (Z.ltb_spec s (checkOut b)); simpl; auto; lia.
Qed.

(** *** The statements of the specification *)

(** On bookings whose check-in and check-out are date-only strings
    'yyyy-MM-dd' the day test is the half-open stay: a day is occupied
    exactly when it is on or after the check-in and before the
    check-out, and the day loop counts such a day once.  The server
    delivers date-time strings, on which the test is another
    ([ReceivedProps.isOccupied_delivered]). *)
Lemma date_only_half_open :
  (forall (b : Booking) (day : IsoDate),
      isOccupied [b] day = true <-> checkIn b <= day /\ day < checkOut b) /\
  (forall (roomBookings : list Booking) (day : IsoDate),
      isOccupied roomBookings day = true <->
      exists b, In b roomBookings /\ checkIn b <= day /\ day < checkOut b) /\
  (forall (b : Booking) (day : IsoDate),
      occupiedDays [b] day day =
      if (checkIn b <=? day) && (day <? checkOut b) then 1 else 0) /\
  (forall i r n p c st,
      let b := mkBooking i r (ymd 2026 3 10) (ymd 2026 3 13) n p c st in
      map (isOccupied [b])
        [ymd 2026 3 9; ymd 2026 3 10; ymd 2026 3 11; ymd 2026 3 12; ymd 2026 3 13]
      = [false; true; true; true; false]).
Proof.
  split; [|split; [|split]].
  - intros b day. rewrite isOccupied_iff. split.
    + intros [b' [[E|[]] H]]. subst b'. exact H.
    + intros H. exists b. split; [left; reflexivity | exact H].
  - apply isOccupied_iff.
  - intros b day. unfold occupiedDays, daysInReport, differenceInDays, parseISO.
    replace (day - day + 1) with 1 by lia. simpl.
    rewrite Z.leb_refl. unfold format, isOccupied. simpl.
    rewrite orb_false_r.
    destruct ((checkIn b <=? day) && (day <? checkOut b)); reflexivity.
  - intros i r n p c st. reflexivity.
Qed.

Lemma occupancyRate_formula roomBookings s e :
  (occupancyRate roomBookings s e ==
     if 0 <? e - s + 1
     then inject_Z (occupiedDayCount roomBookings s e) / inject_Z (e - s + 1) * 100
     else 0)%Q.
Proof.
  unfold occupancyRate. rewrite occupiedDays_spec.
  unfold daysInReport, differenceInDays, parseISO. reflexivity.
Qed.

Lemma occupancyRate_full b s e :
  s <= e -> checkIn b <= s -> e < checkOut b ->
  (occupancyRate [b] s e == 100)%Q.
Proof.
  intros Hwin Hin Hout. rewrite occupancyRate_formula.
  assert (Hpos : (0 <? e - s + 1) = true) by (apply Z.ltb_lt; lia).
  rewrite Hpos. rewrite occupiedDayCount_full.
  - rewrite Z.max_r by lia. apply rate_full. lia.
  - intros d Hd. apply isOccupied_iff. exists b.
    split; [left; reflexivity | lia].
Qed.

(** On date-only strings, and for a list of room bookings taken as
    it is: the rate is the occupied days over the days of the
    inclusive window, times 100, and 0 when the window has no day; it
    is 0 without bookings and 100 with one booking that covers the
    whole window. *)
Lemma date_only_occupancy_rate
    (roomBookings : list Booking) (rangeStart rangeEnd : IsoDate) :
  let totalDaysInRange := (rangeEnd - rangeStart) + 1 in
  (occupancyRate roomBookings rangeStart rangeEnd ==
     if 0 <? totalDaysInRange
     then inject_Z (occupiedDayCount roomBookings rangeStart rangeEnd)
            / inject_Z totalDaysInRange * 100
     else 0)%Q /\
  (occupancyRate [] rangeStart rangeEnd == 0)%Q /\
  (forall b : Booking,
      rangeStart <= rangeEnd ->
      checkIn b <= rangeStart -> rangeEnd < checkOut b ->
      (occupancyRate [b] rangeStart rangeEnd == 100)%Q).
Proof.
  split; [apply occupancyRate_formula | split].
  - rewrite occupancyRate_formula.
    destruct (0 <? rangeEnd - rangeStart + 1); [|reflexivity].
    rewrite occupiedDayCount_none by reflexivity. apply rate_zero.
  - intros b. apply occupancyRate_full.
Qed.

(** The rate of a room in the report is that rate, taken over the
    room's bookings among the ones the report selected. *)
Lemma roomStats_occupancyRate v bookings s e f rt tenantRooms r :
  reportData v bookings s e f rt tenantRooms = inr r ->
  roomStats r =
  map (fun room_ =>
         let roomBookings :=
           filter (fun b => (room b =? roomId room_)%string)
             (filtered bookings rt s e f) in
         mkRoomStat (roomId room_) (sumNights roomBookings) (sumRevenue roomBookings)
           (occupancyRate roomBookings s e))
      (roomsOf tenantRooms).
Proof.
  unfold reportData.
  destruct (eachMonthOfInterval v (parseISO s) (parseISO e)); [discriminate|].
  intros E. injection E as <-. reflexivity.
Qed.

(** In the report: a room whose one live booking is selected by the
    report and covers the whole window has the rate 100.  (A booking
    is selected by its basis date, so under the basis CREATED a stay
    booked before the window is not.) *)
Lemma roomStats_full_window v b s e f rt tenantRooms r rs :
  reportData v [b] s e f rt tenantRooms = inr r ->
  isCanceled (status b) = false ->
  roomMatch f b = true ->
  s <= dateToCompare rt b <= e ->
  checkIn b <= s -> e < checkOut b ->
  In rs (roomStats r) -> rs_roomId rs = room b ->
  (rs_occupancyRate rs == 100)%Q.
Proof.
  intros E Hlive Hroom Hbasis Hin Hout Hrs Hid.
  rewrite (roomStats_occupancyRate _ _ _ _ _ _ _ _ E) in Hrs.
  apply in_map_iff in Hrs. destruct Hrs as [room_ [<- _]].
  simpl in Hid. cbv zeta. cbn [rs_occupancyRate].
  assert (Hsel : filtered [b] rt s e f = [b]).
  { unfold filtered. simpl. rewrite Hlive, Hroom.
    destruct (Z.leb_spec s (dateToCompare rt b)), (Z.leb_spec (dateToCompare rt b) e);
      simpl; auto; lia. }
  rewrite Hsel. simpl. rewrite Hid, String.eqb_refl.
  apply occupancyRate_full; lia.
Qed.

(** C6, as the code has it. Every monthly fill rate is at least 0; it
    is at most 100 when no two live bookings overlap on a room and,
    under the filter ALL, every live booking is on one of the rooms. *)
Theorem C6_fillRate_range v bookings s e f rt tenantRooms r m :
  reportData v bookings s e f rt tenantRooms = inr r ->
  In m (monthlyStats r) ->
  (0 <= ms_fillRate m)%Q /\
  (noDoubleBooking bookings = true ->
   (f = "ALL"%string -> roomsConfigured (roomsOf tenantRooms) bookings = true) ->
   (ms_fillRate m <= 100)%Q).
Proof.
  unfold reportData.
  destruct (eachMonthOfInterval v (parseISO s) (parseISO e)) as [err|months];
    [discriminate|].
  intros E Hm. injection E as <-. simpl in Hm.
  apply in_map_iff in Hm. destruct Hm as [month [<- _]].
  apply fillRate_monthStat.
Qed.

Lemma C6_fillRate_range_witness :
  match reportData V3 [winterStay; marchStay] (ymd 2026 2 1) (ymd 2026 3 31)
          "A1" stay threeRooms with
  | inr r => Forall (fun m => (0 <= ms_fillRate m)%Q /\ (ms_fillRate m <= 100)%Q)
               (monthlyStats r)
  | inl _ => False
  end.
Proof.
  destruct (reportData V3 [winterStay; marchStay] (ymd 2026 2 1) (ymd 2026 3 31)
              "A1" stay threeRooms) as [err|r] eqn:E.
  - vm_compute in E. discriminate.
  - apply Forall_forall. intros m Hm.
    destruct (C6_fillRate_range _ _ _ _ _ _ _ _ _ E Hm) as [Hlo Hhi].
    split; [exact Hlo|]. apply Hhi; [reflexivity | discriminate].
Defined.

(** C6, as the specification has it, fails: two bookings of room A1
    for the whole of February 2026 give a February fill rate of
    54 / 28 * 100. *)
Lemma C6_fillRate_above_100 :
  exists r m,
    reportData V3 februaryTwice (ymd 2026 2 1) (ymd 2026 2 28)
      "A1" stay [] = inr r /\
    In m (monthlyStats r) /\
    (100 < ms_fillRate m)%Q /\ (ms_fillRate m == 5400 # 28)%Q.
Proof.
  eexists. eexists.
  split; [vm_compute; reflexivity|].
  split; [left; reflexivity|].
  split; reflexivity.
Qed.

(** C3. A reversed window is not answered with an empty report: for
    the window from 2026-03-31 back to 2026-03-01 date-fns 2 throws
    out of [eachMonthOfInterval], and date-fns 3 yields the bucket of
    March with the revenue of the stay in it. *)
Theorem C3_reversed_window_not_empty :
  reportData V2 [marchStay] (ymd 2026 3 31) (ymd 2026 3 1) "ALL" stay []
    = inl InvalidInterval /\
  exists r m,
    reportData V3 [marchStay] (ymd 2026 3 31) (ymd 2026 3 1) "ALL" stay []
      = inr r /\
    monthlyStats r = [m] /\
    ms_month m = ymd 2026 3 1 /\
    (ms_revenue m == 300)%Q /\
    (ms_fillRate m == 300 # 155)%Q.
Proof.
  split; [reflexivity|].
  eexists. eexists.
  split; [vm_compute; reflexivity|].
  split; [reflexivity|].
  split; [reflexivity|]. split; reflexivity.
Qed.

(** What does hold in a reversed window: nothing is selected, so the
    totals are zero and every room has zero nights, revenue and rate. *)
Lemma reversed_window_totals v bookings s e f rt tenantRooms r :
  e < s ->
  reportData v bookings s e f rt tenantRooms = inr r ->
  totalRevenue r = 0%Q /\ totalNights r = 0 /\ bookingCount r = 0 /\
  roomStats r = map (fun room_ => mkRoomStat (roomId room_) 0 0 0) (roomsOf tenantRooms).
Proof.
  intros Hrev. unfold reportData.
  destruct (eachMonthOfInterval v (parseISO s) (parseISO e)); [discriminate|].
  intros E. injection E as <-. simpl.
  rewrite filtered_reversed by exact Hrev. repeat split.
  apply map_ext. intros room_.
  rewrite <- (filtered_reversed bookings rt s e f Hrev).
  apply roomStat_reversed. exact Hrev.
Qed.

(** C4. With the basis CREATED the monthly revenue still goes by the
    check-in: the stay booked on 2026-01-10 for 2026-02-25 is selected
    by its creation date (total revenue 800), and its 800 appear in
    the bucket of February, none in the bucket of January. *)
Theorem C4_created_basis_ignored_by_monthly_revenue :
  exists r,
    reportData V3 [winterStay] (ymd 2026 1 1) (ymd 2026 1 31) "ALL" created []
      = inr r /\
    (totalRevenue r == 800)%Q /\
    map (fun m => (ms_month m, Qred (ms_revenue m))) (monthlyStats r)
      = [(ymd 2026 1 1, 0%Q)] /\
  exists r',
    reportData V3 [winterStay] (ymd 2026 1 1) (ymd 2026 3 31) "ALL" created []
      = inr r' /\
    map (fun m => (ms_month m, Qred (ms_revenue m))) (monthlyStats r')
      = [(ymd 2026 1 1, 0%Q); (ymd 2026 2 1, 800%Q); (ymd 2026 3 1, 0%Q)].
Proof.
  eexists. split; [vm_compute; reflexivity|].
  split; [reflexivity|]. split; [reflexivity|].
  eexists. split; [vm_compute; reflexivity|]. reflexivity.
Qed.

End ClientProps.

(* ------------------------------------------------------------------ *)
(** ** Properties of the server resolvers                               *)
(* ------------------------------------------------------------------ *)

Module ServerProps.
Import Calendar Server Examples.

(** *** Upper case *)

Lemma toUpperCase_empty s : toUpperCase s = ""%string <-> s = ""%string.
Proof. destruct s; simpl; split; intros H; try reflexivity; discriminate. Qed.

(** The status a resolver hands out: the stored one in upper case,
    UPCOMING when none is stored or the stored one is empty. *)
Lemma normalizedStatus_cases (stored : option string) :
  normalizedStatus stored =
  match stored with
  | None => "UPCOMING"%string
  | Some s => if (s =? "")%string then "UPCOMING"%string else toUpperCase s
  end.
Proof.
  unfold normalizedStatus. destruct stored as [s|]; simpl; [|reflexivity].
  destruct s; reflexivity.
Qed.

Lemma upperAscii_idempotent c : upperAscii (upperAscii c) = upperAscii c.
Proof.
  destruct c as [[] [] [] [] [] [] [] []]; reflexivity.
Qed.

Lemma toUpperCase_idempotent s : toUpperCase (toUpperCase s) = toUpperCase s.
Proof.
  unfold toUpperCase. induction s as [|c s IH]; simpl; [reflexivity|].
  rewrite upperAscii_idempotent, IH. reflexivity.
Qed.

(** *** Ordering and paging keep to the rows they are given *)

Lemma in_insertBy le x : forall l y, In y (insertBy le x l) -> y = x \/ In y l.
Proof.
  induction l as [|a l IH]; simpl; intros y H.
  - destruct H as [H|[]]; auto.
  - destruct (le x a); simpl in H.
    + destruct H as [H|H]; auto.
    + destruct H as [H|H]; auto. destruct (IH y H); auto.
Qed.

Lemma in_sortBy le : forall l y, In y (sortBy le l) -> In y l.
Proof.
  induction l as [|a l IH]; simpl; intros y H; auto.
  apply in_insertBy in H. destruct H as [H|H]; auto.
Qed.

Lemma in_orderBy column d l ordered y :
  orderBy column d l = inr ordered -> In y ordered -> In y l.
Proof.
  unfold orderBy. destruct (columnLe column) as [le|]; [|discriminate].
  intros E. injection E as <-. destruct d; apply in_sortBy.
Qed.

Lemma in_firstn {A} n : forall (l : list A) y, In y (firstn n l) -> In y l.
Proof.
  intros l y H. rewrite <- (firstn_skipn n l). apply in_or_app. auto.
Qed.

Lemma in_skipn {A} n : forall (l : list A) y, In y (skipn n l) -> In y l.
Proof.
  intros l y H. rewrite <- (firstn_skipn n l). apply in_or_app. auto.
Qed.

Lemma in_takeSkip take skip l page y :
  takeSkip take skip l = inr page -> In y page -> In y l.
Proof.
  unfold takeSkip. destruct (skip <? 0); [discriminate|].
  destruct (0 <=? take); intros E; injection E as <-; intros H.
  - eapply in_skipn, in_firstn, H.
  - apply in_rev in H. apply in_firstn, in_skipn in H. apply in_rev, H.
Qed.

Lemma requireAuth_inr {A} context (k : string -> Result A) a :
  requireAuth context k = inr a ->
  exists tenant, user context = Some tenant /\ k tenant = inr a.
Proof.
  unfold requireAuth. destruct (user context) as [tenant|]; [|discriminate].
  intros H. exists tenant. auto.
Qed.

Lemma inr_inj {A B} (x y : B) : @inr A B x = inr y -> x = y.
Proof. intros H. injection H. auto. Qed.

(** *** The reports *)

(** Without a room argument the capacity is five rooms for every
    tenant. *)
Lemma totalNights_without_room context year month r :
  getOccupancyReport context None year month = inr r ->
  or_totalNights r = getDaysInMonth (jsDate year (month - 1) 1) * 5.
Proof.
  intros H. apply requireAuth_inr in H. destruct H as [tenant [_ H]].
  destruct ((month <? 1) || (12 <? month)); [discriminate|].
  apply inr_inj in H. rewrite <- H. reflexivity.
Qed.

(** With a room argument it is one room. *)
Lemma totalNights_with_room context room_ year month r :
  room_ <> ""%string ->
  getOccupancyReport context (Some room_) year month = inr r ->
  or_totalNights r = getDaysInMonth (jsDate year (month - 1) 1) * 1.
Proof.
  intros Hne H. apply requireAuth_inr in H. destruct H as [tenant [_ H]].
  destruct ((month <? 1) || (12 <? month)); [discriminate|].
  apply inr_inj in H. rewrite <- H. destruct room_; [congruence | reflexivity].
Qed.

(** The occupancy query leaves out the rows whose status is the
    upper-case CANCELED ... *)
Lemma occupancyWhere_CANCELED tenant roomArg startDate endDate r :
  status r = Some "CANCELED"%string ->
  occupancyWhere tenant roomArg startDate endDate r = false.
Proof.
  intros H. unfold occupancyWhere. rewrite H. simpl.
  rewrite andb_false_r. reflexivity.
Qed.

(** ... and keeps a canceled row the way the mutations store it, in
    lower case: the winter stay, canceled, still fills three nights of
    February. *)
Lemma occupancy_counts_stored_canceled :
  exists r,
    getOccupancyReport (contextOf [winterRow (Some "canceled"%string)])
      (Some "A1"%string) 2026 2 = inr r /\
    or_occupiedNights r = 3.
Proof. eexists. split; [vm_compute; reflexivity | reflexivity]. Qed.

(** *** The statements of the specification *)

(** C2. The revenue report does not look at the status: whatever the
    stored status of a booking created in March 2026 is, CANCELED (or
    canceled, as the mutations store it) included, the booking is
    counted with its price, deposit and balance in the report of that
    month. *)
Theorem C2_revenue_report_counts_canceled :
  forall stored : option string,
  exists r,
    getRevenueReport (contextOf [winterRow stored]) 2026 (Some 3) = inr r /\
    rr_bookingCount r = 1 /\
    (rr_totalRevenue r == 800)%Q /\
    (rr_totalDeposits r == 100)%Q /\
    (rr_totalOutstanding r == 700)%Q.
Proof.
  intros stored. eexists. split; [vm_compute; reflexivity|].
  split; [reflexivity|]. split; [reflexivity|]. split; reflexivity.
Qed.

(** C5. For a tenant with three rooms and no room argument the server
    takes 31 * 5 nights as the capacity of March 2026, where the
    client takes the three rooms of the tenant. *)
Theorem C5_server_capacity_is_five_rooms :
  exists r,
    getOccupancyReport (contextOf []) None 2026 3 = inr r /\
    or_totalNights r = 155 /\
    getDaysInMonth (ymd 2026 3 1) * 3 = 93 /\
    Client.totalRoomsOf "ALL" (Client.roomsOf threeRooms) = 3.
Proof.
  eexists. split; [vm_compute; reflexivity|].
  split; [reflexivity|]. split; reflexivity.
Qed.

(** C9, as the code has it. For a page size and an offset that are not
    negative, [getBookings] returns the rows from [offset] on, at
    most [min pageSize 500] of them, each with its status normalized;
    an offset at or beyond the end gives the empty list. *)
Theorem C9_pagination_capped context tenant filter limit offset column order ordered :
  user context = Some tenant ->
  orderBy column (directionOf order)
    (List.filter (bookingsWhere tenant filter) (bookingTable (prisma context)))
    = inr ordered ->
  0 <= limit -> 0 <= offset ->
  let pageSize := Z.min limit 500 in
  let page := firstn (Z.to_nat pageSize) (skipn (Z.to_nat offset) ordered) in
  getBookings context filter limit offset column order
    = inr (map normalizeBooking page) /\
  Z.of_nat (List.length page)
    = Z.min pageSize (Z.max 0 (Z.of_nat (List.length ordered) - offset)) /\
  (forall i, (i < Z.to_nat pageSize)%nat ->
             nth_error page i = nth_error ordered (Z.to_nat offset + i)) /\
  (Z.of_nat (List.length ordered) <= offset -> page = []).
Proof.
  intros Huser Hord Hlimit Hoffset pageSize page.
  split; [|split; [|split]].
  - unfold getBookings, requireAuth. rewrite Huser, Hord. unfold takeSkip.
    assert (H1 : (offset <? 0) = false) by (apply Z.ltb_ge; lia).
    assert (H2 : (0 <=? Z.min limit 500) = true) by (apply Z.leb_le; lia).
    rewrite H1, H2. reflexivity.
  - subst page. rewrite length_firstn, length_skipn. subst pageSize. lia.
  - intros i Hi. subst page. rewrite nth_error_firstn, nth_error_skipn.
    apply Nat.ltb_lt in Hi. rewrite Hi. reflexivity.
  - intros Hend. subst page. rewrite skipn_all2 by lia. apply firstn_nil.
Qed.

Lemma C9_pagination_capped_witness :
  getBookings (contextOf [winterRow (Some "upcoming"%string)]) noFilter 600 0
    "checkIn" "desc"
  = inr [normalizeBooking (winterRow (Some "upcoming"%string))].
Proof.
  apply (C9_pagination_capped (contextOf [winterRow (Some "upcoming"%string)])
           "t1" noFilter 600 0 "checkIn" "desc"
           [winterRow (Some "upcoming"%string)]);
    first [reflexivity | lia].
Defined.

(** C9, as the specification has it, fails: of 501 bookings a page of
    size 501 holds 500. *)
Lemma C9_page_of_501 :
  exists page,
    getBookings (contextOf (repeat (winterRow (Some "upcoming"%string)) 501))
      noFilter 501 0 "checkIn" "desc" = inr page /\
    List.length page = 500%nat /\
    Nat.min 501 (501 - 0) = 501%nat.
Proof.
  eexists. split; [vm_compute; reflexivity|]. split; reflexivity.
Qed.

(** C10. Every booking a query resolver returns is a stored booking
    of the table with its status replaced by the upper-case form of
    the stored status, and by UPCOMING when no status (or an empty
    one) is stored; a booking stored as 'canceled' is returned as
    CANCELED, and so for each of the five statuses. *)
Theorem C10_status_normalized (context : AppContext) :
  let returned (b : Row) :=
    exists stored,
      In stored (bookingTable (prisma context)) /\
      b = normalizeBooking stored /\
      status b = Some (match status stored with
                       | None => "UPCOMING"%string
                       | Some s => if (s =? "")%string then "UPCOMING"%string
                                   else toUpperCase s
                       end) in
  (forall filter limit offset column order l b,
      getBookings context filter limit offset column order = inr l ->
      In b l -> returned b) /\
  (forall bookingId b, getBooking context bookingId = inr b -> returned b) /\
  (forall startDate endDate l b,
      getBookingsByDateRange context startDate endDate = inr l ->
      In b l -> returned b) /\
  (forall roomArg l b,
      getBookingsByRoom context roomArg = inr l -> In b l -> returned b) /\
  (forall stored,
      status stored = Some "canceled"%string ->
      status (normalizeBooking stored) = Some "CANCELED"%string) /\
  map (fun s => normalizedStatus (Some s))
    ["upcoming"; "active"; "completed"; "canceled"; "no_show"]%string
  = ["UPCOMING"; "ACTIVE"; "COMPLETED"; "CANCELED"; "NO_SHOW"]%string.
Proof.
  intros returned.
  assert (Hret : forall stored,
             In stored (bookingTable (prisma context)) ->
             returned (normalizeBooking stored)).
  { intros stored Hin. exists stored. split; [exact Hin|]. split; [reflexivity|].
    simpl. rewrite normalizedStatus_cases. reflexivity. }
  split; [|split; [|split; [|split; [|split]]]].
  - intros filter limit offset column order l b H Hb.
    apply requireAuth_inr in H. destruct H as [tenant [_ H]].
    cbv zeta in H.
    destruct (orderBy _ _ _) as [e|ordered] eqn:Hord; [discriminate|].
    destruct (takeSkip _ _ _) as [e|page] eqn:Hpage; [discriminate|].
    apply inr_inj in H. subst l. apply in_map_iff in Hb. destruct Hb as [stored [<- Hs]].
    apply Hret.
    eapply in_takeSkip in Hs; [|exact Hpage].
    eapply in_orderBy in Hs; [|exact Hord].
    apply filter_In in Hs. apply Hs.
  - intros bookingId b H.
    apply requireAuth_inr in H. destruct H as [tenant [_ H]].
    destruct (find _ _) as [stored|] eqn:Hfind; [|discriminate].
    apply inr_inj in H. subst b. apply Hret. apply find_some in Hfind. apply Hfind.
  - intros startDate endDate l b H Hb.
    apply requireAuth_inr in H. destruct H as [tenant [_ H]].
    destruct (endDate <? startDate); [discriminate|].
    apply inr_inj in H. subst l. apply in_map_iff in Hb. destruct Hb as [stored [<- Hs]].
    apply Hret. apply in_sortBy in Hs. apply filter_In in Hs. apply Hs.
  - intros roomArg l b H Hb.
    apply requireAuth_inr in H. destruct H as [tenant [_ H]].
    apply inr_inj in H. subst l. apply in_map_iff in Hb. destruct Hb as [stored [<- Hs]].
    apply Hret. apply in_sortBy in Hs. apply filter_In in Hs. apply Hs.
  - intros stored H. simpl. rewrite H. reflexivity.
  - reflexivity.
Qed.

Lemma C10_status_normalized_witness :
  exists stored,
    In stored [winterRow (Some "canceled"%string)] /\
    normalizeBooking (winterRow (Some "canceled"%string)) = normalizeBooking stored /\
    status (normalizeBooking (winterRow (Some "canceled"%string)))
      = Some "CANCELED"%string.
Proof.
  destruct (C10_status_normalized (contextOf [winterRow (Some "canceled"%string)]))
    as [_ [_ [_ [H _]]]].
  destruct (H "A1"%string _ (normalizeBooking (winterRow (Some "canceled"%string)))
              eq_refl (or_introl eq_refl)) as [stored [Hin [Heq Hst]]].
  exists stored. split; [exact Hin|]. split; [exact Heq|]. reflexivity.
Defined.

End ServerProps.

(* ------------------------------------------------------------------ *)
(** ** Client and server on a stay across the end of a month            *)
(* ------------------------------------------------------------------ *)

Module BothProps.
Import Calendar Examples.

(** C1. The stay from 2026-02-25 to 2026-03-05 has eight nights, four
    of them in February.  Both report paths close the bucket of
    February with its last day, 2026-02-28, taken as the day of
    departure, and count three nights there; with the four of March
    the buckets hold seven nights. *)
Theorem C1_month_boundary_counts_three_nights :
  let feb := ymd 2026 2 1 in
  let mar := ymd 2026 3 1 in
  let clientNights month :=
    Client.monthOccupancy
      (Client.monthBookings [winterStay] "ALL" (format (startOfMonth month))
         (format (endOfMonth month)))
      (format (startOfMonth month)) (format (endOfMonth month)) in
  let serverNights month :=
    option_map Server.or_occupiedNights
      (match Server.getOccupancyReport (contextOf [winterRow (Some "upcoming"%string)])
               None 2026 month with
       | inr r => Some r
       | inl _ => None
       end) in
  Client.nights winterStay = 8 /\
  Client.checkOut winterStay - Client.checkIn winterStay = 8 /\
  eachMonthOfInterval V3 (ymd 2026 2 1) (ymd 2026 3 31) = inr [feb; mar] /\
  (endOfMonth feb = ymd 2026 2 28 /\ clientNights feb = 3 /\ clientNights mar = 4) /\
  (serverNights 2 = Some 3 /\ serverNights 3 = Some 4).
Proof. vm_compute. repeat split; reflexivity. Qed.

End BothProps.

(* ------------------------------------------------------------------ *)
(** ** The room statistics on delivered bookings                        *)
(* ------------------------------------------------------------------ *)

Module ReceivedProps.
Import Calendar Notions TextNotions CalendarProps Received ReceivedExamples.

(** *** The day loop ends *)

Lemma received_dayLoop_exit roomBookings end_ : forall n current acc,
  end_ < current -> dayLoop n roomBookings current end_ acc = acc.
Proof.
  intros [|n] current acc H; [reflexivity|].
  simpl. destruct (Z.leb_spec current end_) as [Hle|_]; [lia | reflexivity].
Qed.

(** The number of days of the window is enough fuel: with it the loop
    leaves through its own guard, and more turns change nothing. *)
Lemma received_dayLoop_enough roomBookings end_ : forall n extra current acc,
  end_ - current + 1 <= Z.of_nat n ->
  dayLoop (n + extra) roomBookings current end_ acc =
  dayLoop n roomBookings current end_ acc.
Proof.
  induction n as [|n IH]; intros extra current acc H.
  - simpl. apply received_dayLoop_exit. lia.
  - simpl. destruct (current <=? end_) eqn:Hle; [|reflexivity].
    apply IH. unfold addDays. lia.
Qed.

Lemma received_occupiedDays_enough roomBookings s e extra :
  0 < Client.daysInReport s e ->
  dayLoop (Z.to_nat (Client.daysInReport s e) + extra) roomBookings
    (parseISO s) (parseISO e) 0
  = occupiedDays roomBookings s e.
Proof.
  intros H. unfold occupiedDays. cbv zeta.
  assert (Hpos : (0 <? Client.daysInReport s e) = true) by (apply Z.ltb_lt; exact H).
  rewrite Hpos. apply received_dayLoop_enough.
  unfold Client.daysInReport, differenceInDays in *. lia.
Qed.

(** *** The order of the texts of dates *)

Lemma compare_app a1 : forall a2 b1 b2,
  String.length a1 = String.length a2 ->
  (a1 ++ b1 ?= a2 ++ b2)%string
  = match (a1 ?= a2)%string with Eq => (b1 ?= b2)%string | c => c end.
Proof.
  induction a1 as [|c a1 IH]; intros [|c2 a2] b1 b2 H; try discriminate.
  - reflexivity.
  - simpl. destruct (Ascii.compare c c2); try reflexivity.
    apply IH. simpl in H. congruence.
Qed.

Lemma pad2_compare_table :
  forallb (fun a =>
    forallb (fun b =>
      sameComparison (pad2 (Z.of_nat a) ?= pad2 (Z.of_nat b))%string
        (Z.of_nat a ?= Z.of_nat b)) (seq 0 100)) (seq 0 100) = true.
Proof. vm_compute. reflexivity. Qed.

Lemma sameComparison_eq c1 c2 : sameComparison c1 c2 = true -> c1 = c2.
Proof. destruct c1, c2; simpl; intros H; try reflexivity; discriminate. Qed.

Lemma pad2_compare a b :
  0 <= a < 100 -> 0 <= b < 100 -> (pad2 a ?= pad2 b)%string = (a ?= b).
Proof.
  intros Ha Hb. pose proof pad2_compare_table as T.
  rewrite forallb_forall in T.
  assert (Ta := T (Z.to_nat a) ltac:(apply in_seq; lia)).
  rewrite forallb_forall in Ta.
  assert (Tb := Ta (Z.to_nat b) ltac:(apply in_seq; lia)).
  rewrite !Z2Nat.id in Tb by lia.
  apply sameComparison_eq, Tb.
Qed.

Lemma pad4_compare a b :
  0 <= a <= 9999 -> 0 <= b <= 9999 -> (pad4 a ?= pad4 b)%string = (a ?= b).
Proof.
  intros Ha Hb. unfold pad4. rewrite compare_app by reflexivity.
  rewrite !pad2_compare by (Z.div_mod_to_equations; lia).
  destruct (Z.compare_spec (a / 100) (b / 100)) as [H|H|H];
    destruct (Z.compare_spec (a mod 100) (b mod 100)) as [H'|H'|H'];
    destruct (Z.compare_spec a b) as [H''|H''|H'']; try reflexivity;
    exfalso; Z.div_mod_to_equations; lia.
Qed.

Lemma isoDate_fields d :
  isoDate d
  = (pad4 (yearOf d) ++ "-" ++ pad2 (monthOf d) ++ "-" ++ pad2 (dayOf d))%string.
Proof. unfold isoDate. rewrite civil_from_days_fields. reflexivity. Qed.

Lemma dayOf_range d : 1 <= dayOf d <= 31.
Proof.
  rewrite dayOf_startOfMonth. pose proof (month_span d). lia.
Qed.

Lemma isoDate_length d : String.length (isoDate d) = 10%nat.
Proof. rewrite isoDate_fields. reflexivity. Qed.

Lemma isoDate_compare_fields d1 d2 :
  fourDigitYear d1 -> fourDigitYear d2 ->
  (isoDate d1 ?= isoDate d2)%string
  = match yearOf d1 ?= yearOf d2 with
    | Eq => match monthOf d1 ?= monthOf d2 with
            | Eq => dayOf d1 ?= dayOf d2
            | c => c
            end
    | c => c
    end.
Proof.
  intros H1 H2. rewrite !isoDate_fields.
  rewrite compare_app by reflexivity. rewrite pad4_compare by assumption.
  destruct (yearOf d1 ?= yearOf d2); try reflexivity.
  change (("-" ++ pad2 (monthOf d1) ++ "-" ++ pad2 (dayOf d1)
           ?= "-" ++ pad2 (monthOf d2) ++ "-" ++ pad2 (dayOf d2))%string)
    with ((pad2 (monthOf d1) ++ "-" ++ pad2 (dayOf d1)
           ?= pad2 (monthOf d2) ++ "-" ++ pad2 (dayOf d2))%string).
  rewrite compare_app by reflexivity.
  pose proof (monthOf_range d1). pose proof (monthOf_range d2).
  rewrite pad2_compare by lia.
  destruct (monthOf d1 ?= monthOf d2); try reflexivity.
  change (("-" ++ pad2 (dayOf d1) ?= "-" ++ pad2 (dayOf d2))%string)
    with ((pad2 (dayOf d1) ?= pad2 (dayOf d2))%string).
  pose proof (dayOf_range d1). pose proof (dayOf_range d2).
  apply pad2_compare; lia.
Qed.

(** The texts of two days are in the order of the days. *)
Lemma isoDate_compare d1 d2 :
  fourDigitYear d1 -> fourDigitYear d2 ->
  (isoDate d1 ?= isoDate d2)%string = (d1 ?= d2).
Proof.
  intros H1 H2. rewrite isoDate_compare_fields by assumption.
  pose proof (civil_order d1 d2) as H12. pose proof (civil_order d2 d1) as H21.
  rewrite !civil_from_days_fields in H12, H21. unfold civilLe in H12, H21.
  destruct (Z.compare_spec (yearOf d1) (yearOf d2)) as [Hy|Hy|Hy];
    destruct (Z.compare_spec (monthOf d1) (monthOf d2)) as [Hm|Hm|Hm];
    destruct (Z.compare_spec (dayOf d1) (dayOf d2)) as [Hd|Hd|Hd];
    destruct (Z.compare_spec d1 d2) as [Hc|Hc|Hc]; try reflexivity;
    exfalso; lia.
Qed.

Lemma toISOString_midnight d :
  toISOString (d * Server.MS_PER_DAY) = (isoDate d ++ "T00:00:00.000Z")%string.
Proof.
  unfold toISOString. cbv zeta.
  rewrite Z.div_mul by (unfold Server.MS_PER_DAY; lia).
  rewrite Z.mod_mul by (unfold Server.MS_PER_DAY; lia).
  reflexivity.
Qed.

Lemma append_empty s : (s ++ "")%string = s.
Proof. induction s as [|c s IH]; simpl; [reflexivity | rewrite IH; reflexivity]. Qed.

(** A date-time string against a date-only string: the date decides,
    and on the same date the longer string is the greater. *)
Lemma compare_with_time a b suffix :
  fourDigitYear a -> fourDigitYear b -> suffix <> ""%string ->
  (isoDate a ++ suffix ?= isoDate b)%string
  = match a ?= b with Eq => Gt | c => c end.
Proof.
  intros Ha Hb Hs.
  rewrite <- (append_empty (isoDate b)) at 1.
  rewrite compare_app by (rewrite !isoDate_length; reflexivity).
  rewrite isoDate_compare by assumption.
  destruct (a ?= b); try reflexivity.
  destruct suffix; [congruence | reflexivity].
Qed.

Lemma jsLe_with_time a b suffix :
  fourDigitYear a -> fourDigitYear b -> suffix <> ""%string ->
  jsLe (isoDate a ++ suffix) (isoDate b) = (a <? b).
Proof.
  intros Ha Hb Hs. unfold jsLe, String.leb.
  rewrite compare_with_time by assumption.
  destruct (Z.compare_spec a b) as [H|H|H]; destruct (Z.ltb_spec a b) as [H'|H'];
    try reflexivity; lia.
Qed.

Lemma jsLt_with_time a b suffix :
  fourDigitYear a -> fourDigitYear b -> suffix <> ""%string ->
  jsLt (isoDate a) (isoDate b ++ suffix) = (a <=? b).
Proof.
  intros Ha Hb Hs. unfold jsLt, String.ltb.
  rewrite String.compare_antisym, compare_with_time by assumption.
  destruct (Z.compare_spec b a) as [H|H|H]; destruct (Z.leb_spec a b) as [H'|H'];
    try reflexivity; lia.
Qed.

Lemma existsb_one {A} (f : A -> bool) x : existsb f [x] = f x.
Proof. simpl. apply orb_false_r. Qed.

Lemma delivered_checkIn checkIn checkOut :
  Received.checkIn (delivered checkIn checkOut)
  = toISOString (checkIn * Server.MS_PER_DAY).
Proof. reflexivity. Qed.

Lemma delivered_checkOut checkIn checkOut :
  Received.checkOut (delivered checkIn checkOut)
  = toISOString (checkOut * Server.MS_PER_DAY).
Proof. reflexivity. Qed.

(** The days the report counts for a stay as it is delivered: those
    after the check-in day, up to the check-out day and with it. *)
Lemma isOccupied_delivered checkIn checkOut d :
  fourDigitYear checkIn -> fourDigitYear checkOut -> fourDigitYear d ->
  isOccupied [delivered checkIn checkOut] (isoDate d)
  = (checkIn <? d) && (d <=? checkOut).
Proof.
  intros Hi Ho Hd. unfold isOccupied. rewrite existsb_one.
  rewrite delivered_checkIn, delivered_checkOut, !toISOString_midnight.
  rewrite jsLe_with_time, jsLt_with_time by (assumption || discriminate).
  reflexivity.
Qed.

(** *** The statements of the specification on delivered bookings *)

(** C8. The report does not take a stay as half-open.  For a stay as
    the server delivers it, the day test of the report holds on the
    days after the check-in day, up to the check-out day and with it,
    where the specification's [overlapsDay] holds from the check-in day
    to the day before the check-out.  The stay from 2026-03-10 to
    2026-03-13 gives false, false, true, true, true on the 9th to the
    13th, where the specification has false, true, true, true, false;
    over the window of its three nights the room's rate is 200/3, not
    100. *)
Theorem C8_check_in_day_dropped_check_out_day_counted :
  (forall checkIn checkOut d,
      fourDigitYear checkIn -> fourDigitYear checkOut -> fourDigitYear d ->
      isOccupied [delivered checkIn checkOut] (isoDate d)
      = (checkIn <? d) && (d <=? checkOut)) /\
  (forall checkIn checkOut d,
      SpecOccupancy.overlapsDay checkIn checkOut d = (checkIn <=? d) && (d <? checkOut)) /\
  map (fun d => isOccupied [delivered (ymd 2026 3 10) (ymd 2026 3 13)] (isoDate d))
    marchDays9to13
  = [false; false; true; true; true] /\
  map (SpecOccupancy.isOccupied [delivered (ymd 2026 3 10) (ymd 2026 3 13)] "A1")
    marchDays9to13
  = [false; true; true; true; false] /\
  match roomStats [delivered (ymd 2026 3 10) (ymd 2026 3 13)]
          (ymd 2026 3 10) (ymd 2026 3 12) "ALL" Client.stay roomA1 with
  | [rs] => Client.rs_roomId rs = "A1"%string /\ (Client.rs_occupancyRate rs == 200 # 3)%Q
  | _ => False
  end /\
  (SpecOccupancy.occupancyRate [delivered (ymd 2026 3 10) (ymd 2026 3 13)] "A1"
     (ymd 2026 3 10) (ymd 2026 3 12) == 100)%Q.
Proof.
  split; [exact isOccupied_delivered|].
  split; [reflexivity|].
  split; [vm_compute; reflexivity|].
  split; [vm_compute; reflexivity|].
  split; [vm_compute; split; reflexivity | vm_compute; reflexivity].
Qed.

(** C7. The rate of a room in the report is not the specification's
    rate.  A room with one booking from 2026-03-01 to 2026-04-01, which
    covers the whole window 2026-03-01 to 2026-03-31, has the rate
    3000/31: the report does not count the check-in day.  A room with
    one booking from 2026-02-25 to 2026-04-05, which covers the same
    window, has the rate 0: the report takes the room's bookings among
    those whose check-in lies in the window.  The specification's
    [occupancyRate] is 100 for both. *)
Theorem C7_room_rate_is_not_the_rate_of_the_specification :
  match roomStats [delivered (ymd 2026 3 1) (ymd 2026 4 1)]
          (ymd 2026 3 1) (ymd 2026 3 31) "ALL" Client.stay roomA1 with
  | [rs] => Client.rs_roomId rs = "A1"%string /\ (Client.rs_occupancyRate rs == 3000 # 31)%Q
  | _ => False
  end /\
  (SpecOccupancy.occupancyRate [delivered (ymd 2026 3 1) (ymd 2026 4 1)] "A1"
     (ymd 2026 3 1) (ymd 2026 3 31) == 100)%Q /\
  match roomStats [delivered (ymd 2026 2 25) (ymd 2026 4 5)]
          (ymd 2026 3 1) (ymd 2026 3 31) "ALL" Client.stay roomA1 with
  | [rs] => Client.rs_roomId rs = "A1"%string /\ (Client.rs_occupancyRate rs == 0)%Q
  | _ => False
  end /\
  (SpecOccupancy.occupancyRate [delivered (ymd 2026 2 25) (ymd 2026 4 5)] "A1"
     (ymd 2026 3 1) (ymd 2026 3 31) == 100)%Q.
Proof.
  split; [vm_compute; split; reflexivity|].
  split; [vm_compute; reflexivity|].
  split; [vm_compute; split; reflexivity | vm_compute; reflexivity].
Qed.

End ReceivedProps.

(* ------------------------------------------------------------------ *)
(** ** Properties of the mutations and the remaining queries            *)
(* ------------------------------------------------------------------ *)

Module StoreProps.
Import Calendar Server Store StoreExamples.

(** *** Letter case *)

Lemma upper_lower_ascii c : upperAscii (lowerAscii c) = upperAscii c.
Proof. destruct c as [[] [] [] [] [] [] [] []]; reflexivity. Qed.

Lemma toUpperCase_toLowerCase s : toUpperCase (toLowerCase s) = toUpperCase s.
Proof.
  unfold toUpperCase, toLowerCase. induction s as [|c s IH]; simpl; [reflexivity|].
  rewrite upper_lower_ascii, IH. reflexivity.
Qed.

Lemma toLowerCase_idempotent s : toLowerCase (toLowerCase s) = toLowerCase s.
Proof.
  unfold toLowerCase. induction s as [|c s IH]; simpl; [reflexivity|].
  rewrite IH. f_equal. destruct c as [[] [] [] [] [] [] [] []]; reflexivity.
Qed.

Lemma toLowerCase_empty s : toLowerCase s = ""%string <-> s = ""%string.
Proof. destruct s; simpl; split; intros H; try reflexivity; discriminate. Qed.

Lemma truthy_Some (o : option string) s : truthy o = Some s -> o = Some s /\ s <> ""%string.
Proof.
  destruct o as [[|c t]|]; simpl; intros H; try discriminate.
  injection H as <-. split; [reflexivity | discriminate].
Qed.

Lemma storedStatus_lower st : toLowerCase (storedStatus st) = storedStatus st.
Proof.
  destruct st as [[|c s]|]; try reflexivity.
  exact (toLowerCase_idempotent (String c s)).
Qed.

Lemma storedStatus_nonempty st : storedStatus st <> ""%string.
Proof. destruct st as [[|c s]|]; discriminate. Qed.

(** What the client gets back for the status it asked for. *)
Lemma normalized_storedStatus st :
  normalizedStatus (Some (storedStatus st)) =
  match truthy st with
  | Some s => toUpperCase s
  | None => "UPCOMING"%string
  end.
Proof.
  destruct st as [[|c s]|]; try reflexivity.
  change (storedStatus (Some (String c s))) with (toLowerCase (String c s)).
  unfold normalizedStatus, option_map. rewrite toUpperCase_toLowerCase. reflexivity.
Qed.

(** *** Lookups *)

Lemma appContext_user context : user (appContext context) = ctx_user context.
Proof. reflexivity. Qed.

Lemma find_app_left {A} (p : A -> bool) l1 l2 x :
  find p l1 = Some x -> find p (l1 ++ l2) = Some x.
Proof.
  induction l1 as [|a l1 IH]; simpl; [discriminate|].
  destruct (p a); auto.
Qed.

Lemma find_app_right {A} (p : A -> bool) l1 l2 :
  find p l1 = None -> find p (l1 ++ l2) = find p l2.
Proof.
  induction l1 as [|a l1 IH]; simpl; [reflexivity|].
  destruct (p a); [discriminate | auto].
Qed.

Lemma find_none_iff {A} (p : A -> bool) l :
  find p l = None <-> forall x, In x l -> p x = false.
Proof.
  induction l as [|a l IH]; simpl.
  - split; [intros _ x [] | reflexivity].
  - destruct (p a) eqn:E.
    + split; [discriminate|]. intros H. rewrite (H a) in E by auto. discriminate.
    + rewrite IH. split.
      * intros H x [<-|Hx]; auto.
      * intros H x Hx. apply H. auto.
Qed.

Lemma find_map {A B} (f : A -> B) (p : B -> bool) l :
  find p (map f l) = option_map f (find (fun a => p (f a)) l).
Proof.
  induction l as [|a l IH]; simpl; [reflexivity|].
  destruct (p (f a)); [reflexivity | exact IH].
Qed.

Lemma find_filter_keep {A} (p q : A -> bool) l :
  (forall x, In x l -> p x = true -> q x = true) ->
  find p (filter q l) = find p l.
Proof.
  induction l as [|a l IH]; simpl; intros H; [reflexivity|].
  destruct (q a) eqn:Eq; simpl.
  - destruct (p a); [reflexivity|]. apply IH. intros x Hx. apply H. auto.
  - destruct (p a) eqn:Ep.
    + rewrite (H a) in Eq by auto. discriminate.
    + apply IH. intros x Hx. apply H. auto.
Qed.

(** [getBooking] on the whole database. *)
Lemma getBooking_find context bookingId tenant :
  ctx_user context = Some tenant ->
  getBooking (appContext context) bookingId =
  match findBooking (ctx_db context) bookingId tenant with
  | Some b => inr (normalizeBooking (base b))
  | None => inl "Booking not found"%string
  end.
Proof.
  intros Hu. unfold getBooking, requireAuth. rewrite appContext_user, Hu.
  unfold findBooking. simpl. rewrite find_map.
  destruct (find _ (bookings (ctx_db context))); reflexivity.
Qed.

Lemma pair_inj {A B} (a a' : A) (b b' : B) : (a, b) = (a', b') -> a = a' /\ b = b'.
Proof. intros H. injection H. auto. Qed.

Lemma requireAuth_some {A} context (k : string -> Result A) a :
  requireAuth (appContext context) k = inr a ->
  exists tenantKey, ctx_user context = Some tenantKey /\ k tenantKey = inr a.
Proof. intros H. apply ServerProps.requireAuth_inr in H. exact H. Qed.

(** *** Creating a booking *)

Lemma calculateBookingDetails_inr checkIn checkOut nightPrice deposit taxRate d :
  calculateBookingDetails checkIn checkOut nightPrice deposit taxRate = inr d ->
  dayOfDate checkIn < dayOfDate checkOut /\
  d = mkDetails (dayOfDate checkOut - dayOfDate checkIn)
        (inject_Z (dayOfDate checkOut - dayOfDate checkIn) * nightPrice)
        (inject_Z (dayOfDate checkOut - dayOfDate checkIn) * nightPrice * (taxRate / 100))
        (inject_Z (dayOfDate checkOut - dayOfDate checkIn) * nightPrice
         + inject_Z (dayOfDate checkOut - dayOfDate checkIn) * nightPrice * (taxRate / 100)
         - deposit).
Proof.
  unfold calculateBookingDetails, differenceInCalendarDays.
  destruct (Z.leb_spec (dayOfDate checkOut - dayOfDate checkIn) 0) as [Hle|Hlt];
    [discriminate|].
  intros H. apply ServerProps.inr_inj in H. subst d. split; [lia | reflexivity].
Qed.

Lemma calculateBookingDetails_accepts checkIn checkOut nightPrice deposit taxRate :
  dayOfDate checkIn < dayOfDate checkOut ->
  exists d, calculateBookingDetails checkIn checkOut nightPrice deposit taxRate = inr d.
Proof.
  intros H. unfold calculateBookingDetails, differenceInCalendarDays.
  destruct (Z.leb_spec (dayOfDate checkOut - dayOfDate checkIn) 0) as [Hle|Hlt]; [lia|].
  eexists. reflexivity.
Qed.

Lemma createBooking_inr context input returned db' :
  createBooking context input = inr (returned, db') ->
  exists tenantKey tenant details,
    ctx_user context = Some tenantKey /\
    findTenant (ctx_db context) tenantKey = Some tenant /\
    existsb (fun r => (r_id r =? in_room input)%string) (tenant_rooms tenant) = true /\
    calculateBookingDetails (in_checkIn input) (in_checkOut input)
      (in_nightPrice input) (in_deposit input) (taxRateOf tenant) = inr details /\
    returned = normalizeRow (newBooking context tenantKey input details) /\
    db' = mkDb (bookings (ctx_db context) ++ [newBooking context tenantKey input details])
            (tenants (ctx_db context))
            (auditLogs (ctx_db context) ++
             [auditEntry context tenantKey "BOOKING_CREATED" (ctx_newId context)
                (booking_created (newBooking context tenantKey input details))]).
Proof.
  intros H. apply requireAuth_some in H. destruct H as [tenantKey [Hu H]].
  cbv zeta in H.
  destruct (findTenant (ctx_db context) tenantKey) as [tenant|] eqn:Ht; [|discriminate].
  destruct (existsb _ (tenant_rooms tenant)) eqn:Hroom; simpl in H; [|discriminate].
  destruct (calculateBookingDetails _ _ _ _ _) as [e|details] eqn:Hd; [discriminate|].
  apply ServerProps.inr_inj, pair_inj in H. destruct H as [<- <-].
  exists tenantKey, tenant, details. repeat split; auto.
Qed.

Lemma findTenant_some db tenantKey tenant :
  findTenant db tenantKey = Some tenant ->
  In tenant (tenants db) /\ tenant_id tenant = tenantKey.
Proof.
  unfold findTenant. intros H. apply find_some in H. destruct H as [Hin H].
  apply String.eqb_eq in H. auto.
Qed.

(** X1. A successful [createBooking] appends one booking and one audit
    entry and changes nothing else.  The stored booking belongs to the
    caller, is in one of the caller's rooms, checks out on a later
    calendar day than it checks in, and has [nights] equal to the
    difference of the calendar days, [totalPrice = nights * nightPrice],
    [tax = totalPrice * taxRate / 100] and
    [remaining = totalPrice + tax - deposit]. *)
Theorem X1_createBooking_stores_a_sound_booking context input returned db' :
  createBooking context input = inr (returned, db') ->
  exists tenant stored log,
    In tenant (tenants (ctx_db context)) /\
    ctx_user context = Some (tenant_id tenant) /\
    returned = normalizeRow stored /\
    bookings db' = bookings (ctx_db context) ++ [stored] /\
    tenants db' = tenants (ctx_db context) /\
    auditLogs db' = auditLogs (ctx_db context) ++ [log] /\
    (log_tenantId log = tenant_id tenant /\
     log_action log = "BOOKING_CREATED"%string /\
     log_entityId log = id (base stored)) /\
    (id (base stored) = ctx_newId context /\
     tenantId (base stored) = tenant_id tenant /\
     In (room (base stored)) (map r_id (tenant_rooms tenant))) /\
    (dayOfDate (checkIn (base stored)) < dayOfDate (checkOut (base stored)) /\
     nights (base stored)
       = dayOfDate (checkOut (base stored)) - dayOfDate (checkIn (base stored))) /\
    (totalPrice (base stored) == inject_Z (nights (base stored)) * nightPrice stored)%Q /\
    (tax stored == totalPrice (base stored) * (taxRateOf tenant / 100))%Q /\
    (remaining (base stored) == totalPrice (base stored) + tax stored - deposit (base stored))%Q.
Proof.
  intros H. apply createBooking_inr in H.
  destruct H as (tenantKey & tenant & details & Hu & Ht & Hroom & Hd & -> & ->).
  apply findTenant_some in Ht. destruct Ht as [Hin <-].
  apply calculateBookingDetails_inr in Hd. destruct Hd as [Hdays ->].
  set (details := mkDetails _ _ _ _).
  exists tenant, (newBooking context (tenant_id tenant) input details),
    (auditEntry context (tenant_id tenant) "BOOKING_CREATED" (ctx_newId context)
       (booking_created (newBooking context (tenant_id tenant) input details))).
  simpl. repeat split; try reflexivity; auto.
  apply existsb_exists in Hroom. destruct Hroom as [r [Hr E]].
  apply String.eqb_eq in E. rewrite <- E. apply in_map, Hr.
Qed.

Lemma X1_createBooking_stores_a_sound_booking_witness :
  match createBooking (asTenant "t1" twoTenants) marchInput with
  | inr (returned, db') =>
      exists stored,
        bookings db' = bookings twoTenants ++ [stored] /\
        nights (base stored)
          = dayOfDate (checkOut (base stored)) - dayOfDate (checkIn (base stored))
  | inl _ => False
  end.
Proof.
  destruct (createBooking (asTenant "t1" twoTenants) marchInput) as [e|[returned db']] eqn:E.
  - vm_compute in E. discriminate.
  - destruct (X1_createBooking_stores_a_sound_booking _ _ _ _ E)
      as (tenant & stored & log & _ & _ & _ & Hb & _ & _ & _ & _ & [_ Hn] & _).
    exists stored. split; [exact Hb | exact Hn].
Defined.

Lemma createBooking_accepts context input tenantKey tenant :
  ctx_user context = Some tenantKey ->
  findTenant (ctx_db context) tenantKey = Some tenant ->
  existsb (fun r => (r_id r =? in_room input)%string) (tenant_rooms tenant) = true ->
  dayOfDate (in_checkIn input) < dayOfDate (in_checkOut input) ->
  exists details,
    calculateBookingDetails (in_checkIn input) (in_checkOut input)
      (in_nightPrice input) (in_deposit input) (taxRateOf tenant) = inr details /\
    createBooking context input =
    inr (normalizeRow (newBooking context tenantKey input details),
         mkDb (bookings (ctx_db context) ++ [newBooking context tenantKey input details])
           (tenants (ctx_db context))
           (auditLogs (ctx_db context) ++
            [auditEntry context tenantKey "BOOKING_CREATED" (ctx_newId context)
               (booking_created (newBooking context tenantKey input details))])).
Proof.
  intros Hu Ht Hroom Hdays.
  destruct (calculateBookingDetails_accepts (in_checkIn input) (in_checkOut input)
              (in_nightPrice input) (in_deposit input) (taxRateOf tenant) Hdays)
    as [details Hd].
  exists details. split; [exact Hd|].
  unfold createBooking, requireAuth. rewrite appContext_user, Hu. cbv zeta.
  rewrite Ht, Hroom. simpl negb. cbv iota. rewrite Hd. reflexivity.
Qed.

(** X2. [createBooking] never looks at the bookings already stored: a
    booking that was accepted is accepted again on the database it
    left, whatever id and time the second request gets, and the table
    then holds two live bookings of the same room for the same dates. *)
Theorem X2_createBooking_accepts_a_double_booking context input returned db' newId now :
  createBooking context input = inr (returned, db') ->
  exists first second returned' db'',
    createBooking (mkCtx (ctx_user context) db' newId now) input = inr (returned', db'') /\
    bookings db'' = bookings (ctx_db context) ++ [first; second] /\
    room (base first) = room (base second) /\
    checkIn (base first) = checkIn (base second) /\
    checkOut (base first) = checkOut (base second) /\
    tenantId (base first) = tenantId (base second) /\
    status (base first) = status (base second) /\
    dayOfDate (checkIn (base first)) < dayOfDate (checkOut (base first)).
Proof.
  intros H. apply createBooking_inr in H.
  destruct H as (tenantKey & tenant & details & Hu & Ht & Hroom & Hd & -> & ->).
  pose proof (calculateBookingDetails_inr _ _ _ _ _ _ Hd) as [Hdays _].
  set (context' := mkCtx (ctx_user context) _ newId now).
  destruct (createBooking_accepts context' input tenantKey tenant Hu Ht Hroom Hdays)
    as [details' [Hd' Hc]].
  exists (newBooking context tenantKey input details),
    (newBooking context' tenantKey input details'),
    (normalizeRow (newBooking context' tenantKey input details')).
  eexists. split; [exact Hc|].
  simpl. rewrite <- app_assoc. repeat split; auto.
Qed.

Lemma X2_createBooking_accepts_a_double_booking_witness :
  match createBooking (asTenant "t1" twoTenants) marchInput with
  | inr (_, db') =>
      exists returned' db'',
        createBooking (mkCtx (Some "t1"%string) db' "b10" (newDate 2026 1 3)) marchInput
        = inr (returned', db'') /\
        List.length (bookings db'') = 4%nat
  | inl _ => False
  end.
Proof.
  destruct (createBooking (asTenant "t1" twoTenants) marchInput) as [e|[returned db']] eqn:E.
  - vm_compute in E. discriminate.
  - destruct (X2_createBooking_accepts_a_double_booking _ _ _ _ "b10"%string
                (newDate 2026 1 3) E)
      as (first & second & returned' & db'' & Hc & Hb & _).
    exists returned', db''. split; [exact Hc|]. rewrite Hb, length_app. reflexivity.
Defined.

Lemma findBooking_fresh db bookingId tenantKey :
  (forall b, In b (bookings db) -> id (base b) <> bookingId) ->
  findBooking db bookingId tenantKey = None.
Proof.
  intros H. unfold findBooking. apply find_none_iff. intros b Hb.
  apply andb_false_iff. left. apply String.eqb_neq. apply H, Hb.
Qed.

(** X3. A created booking can be fetched: when the id the database
    gave it is not the id of an older row, [getBooking] with that id
    on the database [createBooking] left returns the booking
    [createBooking] returned, and a booking fetched under any other id
    is the one fetched before. *)
Theorem X3_createBooking_then_getBooking context input returned db' :
  createBooking context input = inr (returned, db') ->
  (forall b, In b (bookings (ctx_db context)) -> id (base b) <> ctx_newId context) ->
  getBooking (appContext (withDb context db')) (ctx_newId context)
    = inr (base returned) /\
  forall other,
    other <> ctx_newId context ->
    getBooking (appContext (withDb context db')) other
    = getBooking (appContext context) other.
Proof.
  intros H Hfresh. apply createBooking_inr in H.
  destruct H as (tenantKey & tenant & details & Hu & Ht & Hroom & Hd & -> & ->).
  split.
  - rewrite (getBooking_find _ _ tenantKey) by exact Hu.
    unfold findBooking. simpl bookings.
    rewrite find_app_right by (apply findBooking_fresh, Hfresh).
    simpl. rewrite !String.eqb_refl. reflexivity.
  - intros other Hother.
    rewrite !(getBooking_find _ _ tenantKey) by exact Hu.
    unfold findBooking. simpl bookings.
    destruct (find _ (bookings (ctx_db context))) as [b|] eqn:E.
    + rewrite (find_app_left _ _ _ _ E). reflexivity.
    + rewrite (find_app_right _ _ _ E). simpl.
      assert (Hne : (ctx_newId context =? other)%string = false)
        by (apply String.eqb_neq; congruence).
      rewrite Hne. reflexivity.
Qed.

Lemma X3_createBooking_then_getBooking_witness :
  match createBooking (asTenant "t1" twoTenants) marchInput with
  | inr (returned, db') =>
      getBooking (appContext (withDb (asTenant "t1" twoTenants) db')) "b9"
      = inr (base returned)
  | inl _ => False
  end.
Proof.
  destruct (createBooking (asTenant "t1" twoTenants) marchInput) as [e|[returned db']] eqn:E.
  - vm_compute in E. discriminate.
  - apply (X3_createBooking_then_getBooking _ _ _ _ E).
    intros b [<-|[<-|[]]]; discriminate.
Defined.

(** X4. The status comes back as it was asked for: the booking
    [createBooking] returns has the requested status in upper case
    (so a status given in upper case is returned unchanged) and
    UPCOMING when none, or an empty one, was requested; what is stored
    is in lower case and never empty. *)
Theorem X4_createBooking_status context input returned db' :
  createBooking context input = inr (returned, db') ->
  status (base returned)
    = Some (match truthy (in_status input) with
            | Some s => toUpperCase s
            | None => "UPCOMING"%string
            end) /\
  exists stored s,
    In stored (bookings db') /\ id (base stored) = ctx_newId context /\
    status (base stored) = Some s /\ toLowerCase s = s /\ s <> ""%string.
Proof.
  intros H. apply createBooking_inr in H.
  destruct H as (tenantKey & tenant & details & Hu & Ht & Hroom & Hd & -> & ->).
  split.
  - simpl. rewrite normalized_storedStatus. reflexivity.
  - exists (newBooking context tenantKey input details), (storedStatus (in_status input)).
    simpl. split; [apply in_or_app; right; left; reflexivity|].
    repeat split; auto using storedStatus_lower, storedStatus_nonempty.
Qed.

Lemma X4_createBooking_status_witness :
  match createBooking (asTenant "t1" twoTenants) marchInput with
  | inr (returned, _) => status (base returned) = Some "ACTIVE"%string
  | inl _ => False
  end.
Proof.
  destruct (createBooking (asTenant "t1" twoTenants) marchInput) as [e|[returned db']] eqn:E.
  - vm_compute in E. discriminate.
  - apply (X4_createBooking_status _ _ _ _ E).
Defined.

End StoreProps.

(* ------------------------------------------------------------------ *)
(** ** Properties of deleting and updating bookings                     *)
(* ------------------------------------------------------------------ *)

Module MutationProps.
Import Calendar Server Store StoreExamples StoreProps.

Lemma find_filter_drop {A} (p q : A -> bool) l :
  (forall x, In x l -> p x = true -> q x = false) ->
  find p (filter q l) = None.
Proof.
  intros H. apply find_none_iff. intros x Hx. apply filter_In in Hx.
  destruct Hx as [Hin Hq]. destruct (p x) eqn:Ep; [|reflexivity].
  rewrite (H x Hin Ep) in Hq. discriminate.
Qed.

Lemma findBooking_some db bookingId tenantKey booking :
  findBooking db bookingId tenantKey = Some booking ->
  In booking (bookings db) /\ id (base booking) = bookingId /\
  tenantId (base booking) = tenantKey.
Proof.
  unfold findBooking. intros H. apply find_some in H. destruct H as [Hin H].
  apply andb_true_iff in H. destruct H as [H1 H2].
  apply String.eqb_eq in H1, H2. auto.
Qed.

Lemma findBooking_foreign db bookingId tenantKey :
  (forall b, In b (bookings db) -> id (base b) = bookingId ->
             tenantId (base b) <> tenantKey) ->
  findBooking db bookingId tenantKey = None.
Proof.
  intros H. unfold findBooking. apply find_none_iff. intros b Hb.
  destruct (String.eqb_spec (id (base b)) bookingId) as [Hid|Hid]; [|reflexivity].
  simpl. apply String.eqb_neq. apply H; assumption.
Qed.

Lemma deleteBooking_inr context bookingId r db' :
  deleteBooking context bookingId = inr (r, db') ->
  exists tenantKey booking,
    ctx_user context = Some tenantKey /\
    findBooking (ctx_db context) bookingId tenantKey = Some booking /\
    r = true /\
    db' = mkDb (filter (fun b => negb (id (base b) =? bookingId)%string)
                  (bookings (ctx_db context)))
            (tenants (ctx_db context))
            (auditLogs (ctx_db context) ++
             [auditEntry context tenantKey "BOOKING_DELETED" bookingId
                (booking_deleted booking)]).
Proof.
  intros H. apply requireAuth_some in H. destruct H as [tenantKey [Hu H]].
  cbv zeta in H.
  destruct (findBooking (ctx_db context) bookingId tenantKey) as [booking|] eqn:Hb;
    [|discriminate].
  apply ServerProps.inr_inj, pair_inj in H. destruct H as [<- <-].
  exists tenantKey, booking. repeat split; auto.
Qed.

(** X5. A deleted booking is gone and nothing else is: after
    [deleteBooking] the id can no longer be fetched nor deleted a second
    time (both answer "Booking not found"), every other id fetches what
    it fetched before, the tenants are untouched, and one audit entry
    BOOKING_DELETED holding the deleted row has been added. *)
Theorem X5_deleteBooking_removes_the_booking context bookingId r db' :
  deleteBooking context bookingId = inr (r, db') ->
  r = true /\
  getBooking (appContext (withDb context db')) bookingId
    = inl "Booking not found"%string /\
  deleteBooking (withDb context db') bookingId = inl "Booking not found"%string /\
  (forall other, other <> bookingId ->
     getBooking (appContext (withDb context db')) other
     = getBooking (appContext context) other) /\
  tenants db' = tenants (ctx_db context) /\
  exists tenantKey booking,
    ctx_user context = Some tenantKey /\
    In booking (bookings (ctx_db context)) /\
    id (base booking) = bookingId /\ tenantId (base booking) = tenantKey /\
    auditLogs db' = auditLogs (ctx_db context) ++
      [mkAuditLog tenantKey "BOOKING_DELETED" "Booking" bookingId
         (booking_deleted booking) (ctx_now context)].
Proof.
  intros H. apply deleteBooking_inr in H.
  destruct H as (tenantKey & booking & Hu & Hb & -> & ->).
  assert (Hgone : findBooking
            (mkDb (filter (fun b => negb (id (base b) =? bookingId)%string)
                     (bookings (ctx_db context)))
               (tenants (ctx_db context))
               (auditLogs (ctx_db context) ++
                [auditEntry context tenantKey "BOOKING_DELETED" bookingId
                   (booking_deleted booking)])) bookingId tenantKey = None).
  { unfold findBooking. simpl bookings. apply find_filter_drop.
    intros x _ Hx. apply andb_true_iff in Hx. destruct Hx as [Hx _].
    rewrite Hx. reflexivity. }
  split; [reflexivity|]. split.
  { rewrite (getBooking_find _ _ tenantKey) by exact Hu.
    simpl ctx_db. rewrite Hgone. reflexivity. }
  split.
  { unfold deleteBooking, requireAuth. rewrite appContext_user. simpl ctx_user.
    rewrite Hu. cbv zeta. simpl ctx_db. rewrite Hgone. reflexivity. }
  split.
  { intros other Hother.
    rewrite !(getBooking_find _ _ tenantKey) by exact Hu.
    unfold findBooking. simpl bookings. rewrite find_filter_keep; [reflexivity|].
    intros x _ Hx. apply andb_true_iff in Hx. destruct Hx as [Hx _].
    apply String.eqb_eq in Hx. apply negb_true_iff, String.eqb_neq. congruence. }
  split; [reflexivity|].
  apply findBooking_some in Hb. destruct Hb as (Hin & Hid & Ht).
  exists tenantKey, booking. repeat split; auto.
Qed.

Lemma X5_deleteBooking_removes_the_booking_witness :
  match deleteBooking (asTenant "t1" twoTenants) "b1" with
  | inr (_, db') =>
      getBooking (appContext (withDb (asTenant "t1" twoTenants) db')) "b1"
      = inl "Booking not found"%string
  | inl _ => False
  end.
Proof.
  destruct (deleteBooking (asTenant "t1" twoTenants) "b1") as [e|[r db']] eqn:E.
  - vm_compute in E. discriminate.
  - apply (X5_deleteBooking_removes_the_booking _ _ _ _ E).
Defined.

Lemma updateBooking_inr context bookingId input returned db' :
  updateBooking context bookingId input = inr (returned, db') ->
  exists tenantKey booking tenant details,
    ctx_user context = Some tenantKey /\
    findBooking (ctx_db context) bookingId tenantKey = Some booking /\
    findTenant (ctx_db context) tenantKey = Some tenant /\
    (if recalculates input
     then exists d,
       calculateBookingDetails
         (orElse (up_checkIn input) (checkIn (base booking)))
         (orElse (up_checkOut input) (checkOut (base booking)))
         (orElse (truthyNumber (up_nightPrice input)) (nightPrice booking))
         (orElse (truthyNumber (up_deposit input)) (deposit (base booking)))
         (taxRateOf tenant) = inr d /\ details = Some d
     else details = None) /\
    returned = normalizeRow (applyUpdate booking input details) /\
    db' = mkDb (updateById bookingId (applyUpdate booking input details)
                  (bookings (ctx_db context)))
            (tenants (ctx_db context))
            (auditLogs (ctx_db context) ++
             [auditEntry context tenantKey "BOOKING_UPDATED" (id (base booking))
                (booking_updated booking (applyUpdate booking input details))]).
Proof.
  intros H. apply requireAuth_some in H. destruct H as [tenantKey [Hu H]].
  cbv zeta in H.
  destruct (findBooking (ctx_db context) bookingId tenantKey) as [booking|] eqn:Hb;
    [|discriminate].
  destruct (findTenant (ctx_db context) tenantKey) as [tenant|] eqn:Ht; [|discriminate].
  exists tenantKey, booking, tenant.
  destruct (recalculates input) eqn:Hr.
  - destruct (calculateBookingDetails _ _ _ _ _) as [e|d] eqn:Hd; [discriminate|].
    apply ServerProps.inr_inj, pair_inj in H. destruct H as [<- <-].
    exists (Some d). repeat split; auto. exists d. auto.
  - apply ServerProps.inr_inj, pair_inj in H. destruct H as [<- <-].
    exists None. repeat split; auto.
Qed.

Lemma find_updateById_same bookingId tenantKey updated rows :
  id (base updated) = bookingId -> tenantId (base updated) = tenantKey ->
  find (fun b => (id (base b) =? bookingId)%string &&
                 (tenantId (base b) =? tenantKey)%string) rows <> None ->
  find (fun b => (id (base b) =? bookingId)%string &&
                 (tenantId (base b) =? tenantKey)%string)
    (updateById bookingId updated rows) = Some updated.
Proof.
  intros Hid Ht. unfold updateById.
  induction rows as [|b rows IH]; simpl; intros H; [congruence|].
  destruct (String.eqb_spec (id (base b)) bookingId) as [Hb|Hb].
  - rewrite Hid, Ht, !String.eqb_refl. reflexivity.
  - apply String.eqb_neq in Hb. rewrite Hb in *. simpl in *. auto.
Qed.

Lemma find_updateById_other bookingId other tenantKey updated rows :
  id (base updated) = bookingId -> other <> bookingId ->
  find (fun b => (id (base b) =? other)%string &&
                 (tenantId (base b) =? tenantKey)%string)
    (updateById bookingId updated rows)
  = find (fun b => (id (base b) =? other)%string &&
                   (tenantId (base b) =? tenantKey)%string) rows.
Proof.
  intros Hid Hother. unfold updateById.
  induction rows as [|b rows IH]; simpl; [reflexivity|].
  destruct (String.eqb_spec (id (base b)) bookingId) as [Hb|Hb].
  - assert (H1 : (id (base updated) =? other)%string = false)
      by (apply String.eqb_neq; congruence).
    assert (H2 : (id (base b) =? other)%string = false)
      by (apply String.eqb_neq; congruence).
    rewrite H1, H2. simpl. exact IH.
  - rewrite IH. reflexivity.
Qed.

(** X6. An updated booking can be fetched: after [updateBooking],
    [getBooking] with the same id returns the booking [updateBooking]
    returned, which kept its id, tenant and creation time; every other
    id fetches what it fetched before; and one audit entry
    BOOKING_UPDATED has been added. *)
Theorem X6_updateBooking_then_getBooking context bookingId input returned db' :
  updateBooking context bookingId input = inr (returned, db') ->
  getBooking (appContext (withDb context db')) bookingId = inr (base returned) /\
  (forall other, other <> bookingId ->
     getBooking (appContext (withDb context db')) other
     = getBooking (appContext context) other) /\
  id (base returned) = bookingId /\
  ctx_user context = Some (tenantId (base returned)) /\
  tenants db' = tenants (ctx_db context) /\
  exists before log,
    In before (bookings (ctx_db context)) /\
    id (base before) = bookingId /\
    createdAt (base returned) = createdAt (base before) /\
    auditLogs db' = auditLogs (ctx_db context) ++ [log] /\
    log_action log = "BOOKING_UPDATED"%string /\
    log_entityId log = bookingId /\
    log_tenantId log = tenantId (base returned).
Proof.
  intros H. apply updateBooking_inr in H.
  destruct H as (tenantKey & booking & tenant & details & Hu & Hb & Ht & _ & -> & ->).
  pose proof (findBooking_some _ _ _ _ Hb) as (Hin & Hid & Hten).
  split.
  { rewrite (getBooking_find _ _ tenantKey) by exact Hu.
    unfold findBooking. simpl bookings. rewrite find_updateById_same.
    - reflexivity.
    - exact Hid.
    - exact Hten.
    - unfold findBooking in Hb. rewrite Hb. discriminate. }
  split.
  { intros other Hother.
    rewrite !(getBooking_find _ _ tenantKey) by exact Hu.
    unfold findBooking. simpl bookings.
    rewrite find_updateById_other by (auto; exact Hid). reflexivity. }
  split; [exact Hid|]. split; [simpl; rewrite Hten; exact Hu|].
  split; [reflexivity|].
  exists booking. eexists. split; [exact Hin|]. split; [exact Hid|].
  split; [reflexivity|]. split; [reflexivity|].
  simpl. rewrite Hid, Hten. auto.
Qed.

Lemma X6_updateBooking_then_getBooking_witness :
  match updateBooking (asTenant "t1" twoTenants) "b1" (statusUpdate "active") with
  | inr (returned, db') =>
      getBooking (appContext (withDb (asTenant "t1" twoTenants) db')) "b1"
      = inr (base returned)
  | inl _ => False
  end.
Proof.
  destruct (updateBooking (asTenant "t1" twoTenants) "b1" (statusUpdate "active"))
    as [e|[returned db']] eqn:E.
  - vm_compute in E. discriminate.
  - apply (X6_updateBooking_then_getBooking _ _ _ _ _ E).
Defined.

Lemma bulkDeleteBookings_inr context ids r db' :
  bulkDeleteBookings context ids = inr (r, db') ->
  exists tenantKey,
    ctx_user context = Some tenantKey /\ ids <> [] /\ r = true /\
    db' = mkDb (filter (fun b => negb (inIds ids (id (base b)) &&
                                       (tenantId (base b) =? tenantKey)%string))
                  (bookings (ctx_db context)))
            (tenants (ctx_db context))
            (auditLogs (ctx_db context) ++
             [auditEntry context tenantKey "BOOKING_DELETED" "bulk-delete"
                (bulk_delete ids (Z.of_nat (List.length ids)))]).
Proof.
  intros H. apply requireAuth_some in H. destruct H as [tenantKey [Hu H]].
  cbv zeta in H. destruct ids as [|i ids]; [discriminate|].
  apply ServerProps.inr_inj, pair_inj in H. destruct H as [<- <-].
  exists tenantKey. repeat split; auto. discriminate.
Qed.

(** X7. A tenant cannot reach another tenant's booking: when every row
    with the given id belongs to someone else, [getBooking],
    [updateBooking] and [deleteBooking] all answer "Booking not found",
    and no [bulkDeleteBookings] of the caller removes a row of another
    tenant. *)
Theorem X7_foreign_booking_is_out_of_reach context tenantKey bookingId :
  ctx_user context = Some tenantKey ->
  (forall b, In b (bookings (ctx_db context)) -> id (base b) = bookingId ->
             tenantId (base b) <> tenantKey) ->
  getBooking (appContext context) bookingId = inl "Booking not found"%string /\
  (forall input, updateBooking context bookingId input = inl "Booking not found"%string) /\
  deleteBooking context bookingId = inl "Booking not found"%string /\
  forall ids r db' b,
    bulkDeleteBookings context ids = inr (r, db') ->
    In b (bookings (ctx_db context)) -> tenantId (base b) <> tenantKey ->
    In b (bookings db').
Proof.
  intros Hu Hforeign.
  pose proof (findBooking_foreign _ _ _ Hforeign) as Hnone.
  split.
  { rewrite (getBooking_find _ _ tenantKey) by exact Hu. rewrite Hnone. reflexivity. }
  split.
  { intros input. unfold updateBooking, requireAuth. rewrite appContext_user, Hu.
    cbv zeta. rewrite Hnone. reflexivity. }
  split.
  { unfold deleteBooking, requireAuth. rewrite appContext_user, Hu.
    cbv zeta. rewrite Hnone. reflexivity. }
  intros ids r db' b H Hin Hb. apply bulkDeleteBookings_inr in H.
  destruct H as (tenantKey' & Hu' & _ & _ & ->).
  assert (tenantKey' = tenantKey) as -> by congruence.
  simpl. apply filter_In. split; [exact Hin|].
  apply negb_true_iff, andb_false_iff. right. apply String.eqb_neq. exact Hb.
Qed.

Lemma X7_foreign_booking_is_out_of_reach_witness :
  getBooking (appContext (asTenant "t1" twoTenants)) "b2" = inl "Booking not found"%string /\
  deleteBooking (asTenant "t1" twoTenants) "b2" = inl "Booking not found"%string.
Proof.
  assert (H : forall b, In b (bookings (ctx_db (asTenant "t1" twoTenants))) ->
                id (base b) = "b2"%string -> tenantId (base b) <> "t1"%string).
  { intros b [<-|[<-|[]]] Hid; discriminate. }
  destruct (X7_foreign_booking_is_out_of_reach (asTenant "t1" twoTenants) "t1" "b2"
              eq_refl H) as (Hget & _ & Hdel & _).
  split; assumption.
Defined.

Lemma inIds_In ids bookingId : inIds ids bookingId = true <-> In bookingId ids.
Proof.
  unfold inIds. rewrite existsb_exists. split.
  - intros [i [Hin Hi]]. apply String.eqb_eq in Hi. congruence.
  - intros Hin. exists bookingId. split; [exact Hin | apply String.eqb_refl].
Qed.

(** X8. [bulkDeleteBookings] with a list that is not empty always
    succeeds, whether the ids exist or not: afterwards none of the
    listed ids can be fetched by the caller, every other id fetches what
    it fetched before, and the audit entry records the number of ids
    that were asked for, not the number of rows deleted.  With an empty
    list it answers "No booking IDs provided". *)
Theorem X8_bulkDeleteBookings context tenantKey ids :
  ctx_user context = Some tenantKey ->
  bulkDeleteBookings context [] = inl "No booking IDs provided"%string /\
  (ids <> [] ->
   exists db',
     bulkDeleteBookings context ids = inr (true, db') /\
     (forall bookingId, In bookingId ids ->
        getBooking (appContext (withDb context db')) bookingId
        = inl "Booking not found"%string) /\
     (forall other, ~ In other ids ->
        getBooking (appContext (withDb context db')) other
        = getBooking (appContext context) other) /\
     tenants db' = tenants (ctx_db context) /\
     auditLogs db' = auditLogs (ctx_db context) ++
       [mkAuditLog tenantKey "BOOKING_DELETED" "Booking" "bulk-delete"
          (bulk_delete ids (Z.of_nat (List.length ids))) (ctx_now context)]).
Proof.
  intros Hu. split.
  { unfold bulkDeleteBookings, requireAuth. rewrite appContext_user, Hu. reflexivity. }
  intros Hids. eexists. split.
  { unfold bulkDeleteBookings, requireAuth. rewrite appContext_user, Hu. cbv zeta.
    destruct ids as [|i ids]; [congruence|]. reflexivity. }
  split.
  { intros bookingId Hin.
    rewrite (getBooking_find _ _ tenantKey) by exact Hu.
    unfold findBooking. simpl bookings. rewrite find_filter_drop; [reflexivity|].
    intros x _ Hx. apply andb_true_iff in Hx. destruct Hx as [Hx1 Hx2].
    apply String.eqb_eq in Hx1. rewrite Hx2, Hx1.
    apply (proj2 (inIds_In ids bookingId)) in Hin. rewrite Hin. reflexivity. }
  split.
  { intros other Hother.
    rewrite !(getBooking_find _ _ tenantKey) by exact Hu.
    unfold findBooking. simpl bookings. rewrite find_filter_keep; [reflexivity|].
    intros x _ Hx. apply andb_true_iff in Hx. destruct Hx as [Hx _].
    apply String.eqb_eq in Hx. apply negb_true_iff, andb_false_iff. left.
    destruct (inIds ids (id (base x))) eqn:E; [|reflexivity].
    apply inIds_In in E. congruence. }
  split; reflexivity.
Qed.

Lemma X8_bulkDeleteBookings_witness :
  exists db',
    bulkDeleteBookings (asTenant "t1" twoTenants) ["b1"; "b2"; "nowhere"]%string
    = inr (true, db') /\
    getBooking (appContext (withDb (asTenant "t1" twoTenants) db')) "b1"
    = inl "Booking not found"%string.
Proof.
  destruct (X8_bulkDeleteBookings (asTenant "t1" twoTenants) "t1"
              ["b1"; "b2"; "nowhere"]%string eq_refl) as [_ H].
  destruct H as (db' & Hd & Hget & _); [discriminate|].
  exists db'. split; [exact Hd|]. apply Hget. left. reflexivity.
Defined.

Lemma updateBooking_plain context tenantKey bookingId booking tenant input :
  ctx_user context = Some tenantKey ->
  findBooking (ctx_db context) bookingId tenantKey = Some booking ->
  findTenant (ctx_db context) tenantKey = Some tenant ->
  recalculates input = false ->
  updateBooking context bookingId input =
  inr (normalizeRow (applyUpdate booking input None),
       mkDb (updateById bookingId (applyUpdate booking input None)
               (bookings (ctx_db context)))
         (tenants (ctx_db context))
         (auditLogs (ctx_db context) ++
          [auditEntry context tenantKey "BOOKING_UPDATED" (id (base booking))
             (booking_updated booking (applyUpdate booking input None))])).
Proof.
  intros Hu Hb Ht Hr. unfold updateBooking, requireAuth.
  rewrite appContext_user, Hu. cbv zeta. rewrite Hb, Ht, Hr. reflexivity.
Qed.

Lemma findBooking_updated db logs bookingId tenantKey booking updated :
  findBooking db bookingId tenantKey = Some booking ->
  id (base updated) = id (base booking) ->
  tenantId (base updated) = tenantId (base booking) ->
  findBooking (mkDb (updateById bookingId updated (bookings db)) (tenants db) logs)
    bookingId tenantKey = Some updated.
Proof.
  intros Hb Hid Ht. pose proof (findBooking_some _ _ _ _ Hb) as (_ & Hid' & Ht').
  unfold findBooking. simpl bookings. apply find_updateById_same.
  - congruence.
  - congruence.
  - unfold findBooking in Hb. rewrite Hb. discriminate.
Qed.

(** X9. An update that gives only a status changes only the status: it
    is accepted for every status that is not empty, the row is stored
    with that status in lower case, the booking returned carries it in
    upper case, and every other column of the row is as it was. *)
Theorem X9_updateBooking_status_only context tenantKey bookingId booking tenant s :
  ctx_user context = Some tenantKey ->
  findBooking (ctx_db context) bookingId tenantKey = Some booking ->
  findTenant (ctx_db context) tenantKey = Some tenant ->
  s <> ""%string ->
  exists returned stored db',
    updateBooking context bookingId (statusUpdate s) = inr (returned, db') /\
    findBooking db' bookingId tenantKey = Some stored /\
    returned = normalizeRow stored /\
    status (base stored) = Some (toLowerCase s) /\
    status (base returned) = Some (toUpperCase s) /\
    guestName (base stored) = guestName (base booking) /\
    room (base stored) = room (base booking) /\
    checkIn (base stored) = checkIn (base booking) /\
    checkOut (base stored) = checkOut (base booking) /\
    nights (base stored) = nights (base booking) /\
    totalPrice (base stored) = totalPrice (base booking) /\
    deposit (base stored) = deposit (base booking) /\
    remaining (base stored) = remaining (base booking) /\
    nightPrice stored = nightPrice booking /\ tax stored = tax booking /\
    guestEmail stored = guestEmail booking /\ guestPhone stored = guestPhone booking /\
    city stored = city booking /\ notes stored = notes booking.
Proof.
  intros Hu Hb Ht Hs. destruct s as [|c s]; [congruence|].
  exists (normalizeRow (applyUpdate booking (statusUpdate (String c s)) None)),
    (applyUpdate booking (statusUpdate (String c s)) None).
  eexists. split.
  { apply (updateBooking_plain _ _ _ _ _ _ Hu Hb Ht). reflexivity. }
  split; [apply (findBooking_updated _ _ _ _ booking); [exact Hb | reflexivity | reflexivity]|].
  split; [reflexivity|]. split; [reflexivity|]. split.
  { change (status (base (normalizeRow (applyUpdate booking (statusUpdate (String c s)) None))))
      with (Some (normalizedStatus (Some (toLowerCase (String c s))))).
    unfold normalizedStatus, option_map. rewrite toUpperCase_toLowerCase. reflexivity. }
  repeat split.
Qed.

Lemma X9_updateBooking_status_only_witness :
  exists returned db',
    updateBooking (asTenant "t1" twoTenants) "b1" (statusUpdate "Active")
    = inr (returned, db') /\
    status (base returned) = Some "ACTIVE"%string.
Proof.
  destruct (X9_updateBooking_status_only (asTenant "t1" twoTenants) "t1" "b1"
              (stayOf "b1" "t1" (Some "upcoming"%string)) seaView "Active"
              eq_refl eq_refl eq_refl)
    as (returned & stored & db' & Hup & _ & _ & _ & Hst & _); [discriminate|].
  exists returned, db'. split; [exact Hup | exact Hst].
Defined.

(** X10. [createBooking] checks the room and [updateBooking] does not:
    for a room that is not one of the tenant's, every [createBooking]
    answers "Invalid room", while an update that moves an existing
    booking to that room is accepted and stored. *)
Theorem X10_updateBooking_does_not_check_the_room
    context tenantKey bookingId booking tenant r :
  ctx_user context = Some tenantKey ->
  findBooking (ctx_db context) bookingId tenantKey = Some booking ->
  findTenant (ctx_db context) tenantKey = Some tenant ->
  ~ In r (map r_id (tenant_rooms tenant)) ->
  (forall input, in_room input = r ->
     createBooking context input = inl "Invalid room"%string) /\
  exists returned stored db',
    updateBooking context bookingId (roomUpdate r) = inr (returned, db') /\
    findBooking db' bookingId tenantKey = Some stored /\
    room (base stored) = r /\ room (base returned) = r /\
    getBooking (appContext (withDb context db')) bookingId = inr (base returned).
Proof.
  intros Hu Hb Ht Hr. split.
  { intros input Hin. unfold createBooking, requireAuth.
    rewrite appContext_user, Hu. cbv zeta. rewrite Ht.
    replace (existsb _ (tenant_rooms tenant)) with false; [reflexivity|].
    symmetry. destruct (existsb _ (tenant_rooms tenant)) eqn:E; [|reflexivity].
    apply existsb_exists in E. destruct E as [x [Hx Hid]].
    apply String.eqb_eq in Hid. exfalso. apply Hr. rewrite <- Hin, <- Hid.
    apply in_map. exact Hx. }
  exists (normalizeRow (applyUpdate booking (roomUpdate r) None)),
    (applyUpdate booking (roomUpdate r) None).
  eexists. split.
  { apply (updateBooking_plain _ _ _ _ _ _ Hu Hb Ht). reflexivity. }
  split; [apply (findBooking_updated _ _ _ _ booking); [exact Hb | reflexivity | reflexivity]|].
  split; [reflexivity|]. split; [reflexivity|].
  rewrite (getBooking_find _ _ tenantKey) by exact Hu. simpl ctx_db.
  rewrite (findBooking_updated _ _ _ _ _ _ Hb) by reflexivity. reflexivity.
Qed.

Lemma X10_updateBooking_does_not_check_the_room_witness :
  createBooking (asTenant "t1" twoTenants)
    (mkInput "Bob" None None None "Z9" (newDate 2026 2 10) (newDate 2026 2 13)
       100 50 None None) = inl "Invalid room"%string /\
  exists returned db',
    updateBooking (asTenant "t1" twoTenants) "b1" (roomUpdate "Z9") = inr (returned, db') /\
    room (base returned) = "Z9"%string.
Proof.
  assert (Hr : ~ In "Z9"%string (map r_id (tenant_rooms seaView))).
  { intros [H|[H|[]]]; discriminate. }
  destruct (X10_updateBooking_does_not_check_the_room (asTenant "t1" twoTenants) "t1" "b1"
              (stayOf "b1" "t1" (Some "upcoming"%string)) seaView "Z9"
              eq_refl eq_refl eq_refl Hr)
    as (Hc & returned & stored & db' & Hup & _ & _ & Hroom & _).
  split; [apply Hc; reflexivity|].
  exists returned, db'. split; [exact Hup | exact Hroom].
Defined.

Lemma updateBooking_recalculated context tenantKey bookingId booking tenant input d :
  ctx_user context = Some tenantKey ->
  findBooking (ctx_db context) bookingId tenantKey = Some booking ->
  findTenant (ctx_db context) tenantKey = Some tenant ->
  recalculates input = true ->
  calculateBookingDetails
    (orElse (up_checkIn input) (checkIn (base booking)))
    (orElse (up_checkOut input) (checkOut (base booking)))
    (orElse (truthyNumber (up_nightPrice input)) (nightPrice booking))
    (orElse (truthyNumber (up_deposit input)) (deposit (base booking)))
    (taxRateOf tenant) = inr d ->
  updateBooking context bookingId input =
  inr (normalizeRow (applyUpdate booking input (Some d)),
       mkDb (updateById bookingId (applyUpdate booking input (Some d))
               (bookings (ctx_db context)))
         (tenants (ctx_db context))
         (auditLogs (ctx_db context) ++
          [auditEntry context tenantKey "BOOKING_UPDATED" (id (base booking))
             (booking_updated booking (applyUpdate booking input (Some d)))])).
Proof.
  intros Hu Hb Ht Hr Hd. unfold updateBooking, requireAuth.
  rewrite appContext_user, Hu. cbv zeta. rewrite Hb, Ht, Hr, Hd. reflexivity.
Qed.

(** X11. A new deposit is taken into account only when it is not 0.
    An update that gives a deposit other than 0 recomputes the nights,
    the total and the remaining amount from the stored dates and price
    (and is refused when the stored check-out is not after the stored
    check-in); an update that sets the deposit to 0 stores the deposit
    and leaves the remaining amount as it was. *)
Theorem X11_updateBooking_deposit context tenantKey bookingId booking tenant d :
  ctx_user context = Some tenantKey ->
  findBooking (ctx_db context) bookingId tenantKey = Some booking ->
  findTenant (ctx_db context) tenantKey = Some tenant ->
  (Qeq_bool d 0 = true ->
   exists returned db',
     updateBooking context bookingId (depositUpdate d) = inr (returned, db') /\
     deposit (base returned) = d /\
     remaining (base returned) = remaining (base booking) /\
     totalPrice (base returned) = totalPrice (base booking)) /\
  (Qeq_bool d 0 = false ->
   dayOfDate (checkIn (base booking)) < dayOfDate (checkOut (base booking)) ->
   exists returned db',
     updateBooking context bookingId (depositUpdate d) = inr (returned, db') /\
     deposit (base returned) = d /\
     nights (base returned)
       = dayOfDate (checkOut (base booking)) - dayOfDate (checkIn (base booking)) /\
     (totalPrice (base returned)
        == inject_Z (nights (base returned)) * nightPrice booking)%Q /\
     (tax returned == totalPrice (base returned) * (taxRateOf tenant / 100))%Q /\
     (remaining (base returned) == totalPrice (base returned) + tax returned - d)%Q) /\
  (Qeq_bool d 0 = false ->
   dayOfDate (checkOut (base booking)) <= dayOfDate (checkIn (base booking)) ->
   updateBooking context bookingId (depositUpdate d)
   = inl "Check-out must be after check-in"%string).
Proof.
  intros Hu Hb Ht. split; [|split].
  - intros Hd.
    exists (normalizeRow (applyUpdate booking (depositUpdate d) None)). eexists. split.
    { apply (updateBooking_plain _ _ _ _ _ _ Hu Hb Ht).
      unfold recalculates, depositUpdate, truthyNumber. simpl. rewrite Hd. reflexivity. }
    repeat split.
  - intros Hd Hdays.
    destruct (calculateBookingDetails_accepts (checkIn (base booking))
                (checkOut (base booking)) (nightPrice booking) d (taxRateOf tenant) Hdays)
      as [details Hc].
    pose proof (calculateBookingDetails_inr _ _ _ _ _ _ Hc) as [_ Hdet].
    exists (normalizeRow (applyUpdate booking (depositUpdate d) (Some details))).
    eexists. split.
    { apply (updateBooking_recalculated _ _ _ _ _ _ _ Hu Hb Ht).
      - unfold recalculates, depositUpdate, truthyNumber. simpl. rewrite Hd. reflexivity.
      - unfold depositUpdate, truthyNumber. simpl. rewrite Hd. exact Hc. }
    rewrite Hdet. simpl. repeat split; reflexivity.
  - intros Hd Hdays. unfold updateBooking, requireAuth.
    rewrite appContext_user, Hu. cbv zeta. rewrite Hb, Ht.
    unfold recalculates, depositUpdate, truthyNumber. simpl. rewrite Hd. simpl.
    unfold calculateBookingDetails, differenceInCalendarDays.
    destruct (Z.leb_spec (dayOfDate (checkOut (base booking))
                          - dayOfDate (checkIn (base booking))) 0) as [Hle|Hlt];
      [reflexivity | lia].
Qed.

Lemma X11_updateBooking_deposit_witness :
  (exists returned db',
     updateBooking (asTenant "t1" twoTenants) "b1" (depositUpdate 0) = inr (returned, db') /\
     deposit (base returned) = 0%Q /\ remaining (base returned) = 700%Q) /\
  (exists returned db',
     updateBooking (asTenant "t1" twoTenants) "b1" (depositUpdate 200)
     = inr (returned, db') /\
     (remaining (base returned) == 640)%Q).
Proof.
  split.
  - destruct (X11_updateBooking_deposit (asTenant "t1" twoTenants) "t1" "b1"
                (stayOf "b1" "t1" (Some "upcoming"%string)) seaView 0
                eq_refl eq_refl eq_refl) as [H _].
    destruct (H eq_refl) as (returned & db' & Hup & Hd & Hr & _).
    exists returned, db'. repeat split; assumption.
  - destruct (X11_updateBooking_deposit (asTenant "t1" twoTenants) "t1" "b1"
                (stayOf "b1" "t1" (Some "upcoming"%string)) seaView 200
                eq_refl eq_refl eq_refl) as [_ [H _]].
    destruct H as (returned & db' & Hup & Hd & Hn & Ht & Hx & Hr);
      [reflexivity | vm_compute; reflexivity |].
    exists returned, db'. split; [exact Hup|].
    rewrite Hr, Hx, Ht, Hn. vm_compute. reflexivity.
Defined.

Lemma unique_id (l : list BookingRow) a b :
  NoDup (map (fun x => id (base x)) l) ->
  In a l -> In b l -> id (base a) = id (base b) -> a = b.
Proof.
  induction l as [|x l IH]; simpl; intros Hnd Ha Hb Hid; [contradiction|].
  inversion Hnd as [|? ? Hnotin Hnd']; subst.
  destruct Ha as [->|Ha]; destruct Hb as [->|Hb]; auto.
  - exfalso. apply Hnotin. rewrite Hid.
    exact (in_map (fun x => id (base x)) l b Hb).
  - exfalso. apply Hnotin. rewrite <- Hid.
    exact (in_map (fun x => id (base x)) l a Ha).
Qed.

Lemma toLowerCase_not_CANCELED s : (toLowerCase s =? "CANCELED")%string = false.
Proof.
  apply String.eqb_neq. intros H.
  pose proof (toLowerCase_idempotent s) as Hi. rewrite H in Hi.
  vm_compute in Hi. discriminate.
Qed.

Lemma occupiedNights_update tenantKey roomArg startDate endDate
    (g : BookingRow -> BookingRow) l :
  (forall b, In b l ->
     occupancyWhere tenantKey roomArg startDate endDate (base (g b))
     = occupancyWhere tenantKey roomArg startDate endDate (base b) /\
     clampedNights startDate endDate (base (g b))
     = clampedNights startDate endDate (base b)) ->
  occupiedNightsOf
    (filter (occupancyWhere tenantKey roomArg startDate endDate) (map base (map g l)))
    startDate endDate
  = occupiedNightsOf
      (filter (occupancyWhere tenantKey roomArg startDate endDate) (map base l))
      startDate endDate.
Proof.
  unfold occupiedNightsOf. generalize 0.
  induction l as [|a l IH]; intros z H; [reflexivity|].
  destruct (H a (or_introl eq_refl)) as [Hw Hc].
  simpl map. simpl filter. rewrite Hw.
  destruct (occupancyWhere tenantKey roomArg startDate endDate (base a)).
  - simpl fold_left. rewrite Hc. apply IH. intros b Hb. apply H. right. exact Hb.
  - apply IH. intros b Hb. apply H. right. exact Hb.
Qed.

(** X12. Changing the status of a booking through [updateBooking] never
    changes the occupancy report, cancelling it included: the status is
    stored in lower case, the report leaves out only the rows whose
    stored status is CANCELED in upper case, so the nights of the
    cancelled booking stay occupied for every room, year and month. *)
Theorem X12_cancelling_keeps_the_nights_occupied
    context bookingId s returned db' roomArg year month :
  NoDup (map (fun b => id (base b)) (bookings (ctx_db context))) ->
  (forall b, In b (bookings (ctx_db context)) -> id (base b) = bookingId ->
     exists s0, status (base b) = Some s0 /\ toLowerCase s0 = s0) ->
  updateBooking context bookingId (statusUpdate s) = inr (returned, db') ->
  getOccupancyReport (appContext (withDb context db')) roomArg year month
  = getOccupancyReport (appContext context) roomArg year month.
Proof.
  intros Hnd Hold H. apply updateBooking_inr in H.
  destruct H as (tenantKey & booking & tenant & details & Hu & Hb & Ht & Hr & -> & ->).
  simpl in Hr. subst details.
  pose proof (findBooking_some _ _ _ _ Hb) as (Hin & Hid & Hten).
  destruct (Hold booking Hin Hid) as (s0 & Hs0 & Hlow).
  unfold getOccupancyReport, requireAuth. rewrite !appContext_user.
  simpl ctx_user. rewrite Hu.
  destruct ((month <? 1) || (12 <? month)); [reflexivity|].
  cbv zeta. unfold appContext. simpl prisma. simpl bookingTable. simpl ctx_db.
  simpl bookings. unfold updateById.
  rewrite occupiedNights_update; [reflexivity|].
  intros b Hb'.
  destruct (String.eqb_spec (id (base b)) bookingId) as [Hbid|Hbid]; [|split; reflexivity].
  assert (b = booking) as ->.
  { apply (unique_id _ _ _ Hnd Hb' Hin). congruence. }
  split; [|reflexivity].
  unfold occupancyWhere. rewrite Hs0.
  assert (Hne : (s0 =? "CANCELED")%string = false)
    by (rewrite <- Hlow; apply toLowerCase_not_CANCELED).
  rewrite Hne. destruct s as [|c s].
  - reflexivity.
  - change (status (base (applyUpdate booking (statusUpdate (String c s)) None)))
      with (Some (toLowerCase (String c s))).
    cbv iota. rewrite toLowerCase_not_CANCELED. reflexivity.
Qed.

Lemma X12_cancelling_keeps_the_nights_occupied_witness :
  match updateBooking (asTenant "t1" twoTenants) "b1" (statusUpdate "CANCELED") with
  | inr (returned, db') =>
      status (base returned) = Some "CANCELED"%string /\
      getOccupancyReport (appContext (withDb (asTenant "t1" twoTenants) db')) None 2026 3
      = getOccupancyReport (appContext (asTenant "t1" twoTenants)) None 2026 3
  | inl _ => False
  end.
Proof.
  destruct (updateBooking (asTenant "t1" twoTenants) "b1" (statusUpdate "CANCELED"))
    as [e|[returned db']] eqn:E.
  - vm_compute in E. discriminate.
  - split.
    + vm_compute in E. apply ServerProps.inr_inj, pair_inj in E.
      destruct E as [<- _]. reflexivity.
    + apply (X12_cancelling_keeps_the_nights_occupied _ "b1" "CANCELED" returned db').
      * repeat constructor; simpl; intuition discriminate.
      * intros b [<-|[<-|[]]] Hid; try discriminate.
        exists "upcoming"%string. split; reflexivity.
      * exact E.
Defined.

Lemma filter_map_kept {A} (q : A -> bool) (g : A -> A) l :
  (forall b, In b l -> g b = b \/ (q (g b) = false /\ q b = false)) ->
  filter q (map g l) = filter q l.
Proof.
  induction l as [|a l IH]; simpl; intros H; [reflexivity|].
  rewrite IH by (intros b Hb; apply H; auto).
  destruct (H a (or_introl eq_refl)) as [->|[H1 H2]]; [reflexivity|].
  rewrite H1, H2. reflexivity.
Qed.

Lemma filter_filter_kept {A} (q p : A -> bool) l :
  (forall b, In b l -> p b = false -> q b = false) ->
  filter q (filter p l) = filter q l.
Proof.
  induction l as [|a l IH]; simpl; intros H; [reflexivity|].
  rewrite <- IH by (intros b Hb; apply H; auto).
  destruct (p a) eqn:Ep; simpl; [reflexivity|].
  rewrite (H a (or_introl eq_refl) Ep). reflexivity.
Qed.

(** X21. No mutation of bookings touches another tenant's data: with
    unique booking ids, whatever [createBooking], [updateBooking],
    [deleteBooking] or [bulkDeleteBookings] the caller gets through,
    the rows of every other tenant and the tenants themselves are
    afterwards exactly what they were. *)
Theorem X21_mutations_keep_other_tenants_rows context tenantKey db' :
  NoDup (map (fun b => id (base b)) (bookings (ctx_db context))) ->
  ctx_user context = Some tenantKey ->
  (exists input returned, createBooking context input = inr (returned, db')) \/
  (exists bookingId input returned,
     updateBooking context bookingId input = inr (returned, db')) \/
  (exists bookingId r, deleteBooking context bookingId = inr (r, db')) \/
  (exists ids r, bulkDeleteBookings context ids = inr (r, db')) ->
  filter (fun b => negb (tenantId (base b) =? tenantKey)%string) (bookings db')
  = filter (fun b => negb (tenantId (base b) =? tenantKey)%string)
      (bookings (ctx_db context)) /\
  tenants db' = tenants (ctx_db context).
Proof.
  intros Hnd Hu [H|[H|[H|H]]].
  - destruct H as (input & returned & H). apply createBooking_inr in H.
    destruct H as (tenantKey' & tenant & details & Hu' & _ & _ & _ & _ & ->).
    assert (tenantKey' = tenantKey) as -> by congruence.
    split; [|reflexivity]. simpl bookings. rewrite filter_app. simpl.
    rewrite String.eqb_refl. simpl. apply app_nil_r.
  - destruct H as (bookingId & input & returned & H). apply updateBooking_inr in H.
    destruct H as (tenantKey' & booking & tenant & details & Hu' & Hb & _ & _ & _ & ->).
    assert (tenantKey' = tenantKey) as -> by congruence.
    pose proof (findBooking_some _ _ _ _ Hb) as (Hin & Hid & Hten).
    split; [|reflexivity]. simpl bookings. unfold updateById.
    apply filter_map_kept. intros b Hb'.
    destruct (String.eqb_spec (id (base b)) bookingId) as [Hbid|Hbid]; [|left; reflexivity].
    right. assert (b = booking) as ->.
    { apply (unique_id _ _ _ Hnd Hb' Hin). congruence. }
    split.
    + change (tenantId (base (applyUpdate booking input details)))
        with (tenantId (base booking)).
      rewrite Hten, String.eqb_refl. reflexivity.
    + rewrite Hten, String.eqb_refl. reflexivity.
  - destruct H as (bookingId & r & H). apply deleteBooking_inr in H.
    destruct H as (tenantKey' & booking & Hu' & Hb & _ & ->).
    assert (tenantKey' = tenantKey) as -> by congruence.
    pose proof (findBooking_some _ _ _ _ Hb) as (Hin & Hid & Hten).
    split; [|reflexivity]. simpl bookings.
    apply filter_filter_kept. intros b Hb' Hdel.
    apply negb_false_iff, String.eqb_eq in Hdel.
    assert (b = booking) as ->.
    { apply (unique_id _ _ _ Hnd Hb' Hin). congruence. }
    rewrite Hten, String.eqb_refl. reflexivity.
  - destruct H as (ids & r & H). apply bulkDeleteBookings_inr in H.
    destruct H as (tenantKey' & Hu' & _ & _ & ->).
    assert (tenantKey' = tenantKey) as -> by congruence.
    split; [|reflexivity]. simpl bookings.
    apply filter_filter_kept. intros b _ Hdel.
    apply negb_false_iff, andb_true_iff in Hdel. destruct Hdel as [_ Hdel].
    rewrite Hdel. reflexivity.
Qed.

Lemma X21_mutations_keep_other_tenants_rows_witness :
  match deleteBooking (asTenant "t1" twoTenants) "b1" with
  | inr (_, db') =>
      filter (fun b => negb (tenantId (base b) =? "t1")%string) (bookings db')
      = [stayOf "b2" "t2" (Some "upcoming"%string)]
  | inl _ => False
  end.
Proof.
  destruct (deleteBooking (asTenant "t1" twoTenants) "b1") as [e|[r db']] eqn:E.
  - vm_compute in E. discriminate.
  - assert (Hnd : NoDup (map (fun b => id (base b))
                           (bookings (ctx_db (asTenant "t1" twoTenants))))).
    { repeat constructor; simpl; intuition discriminate. }
    destruct (X21_mutations_keep_other_tenants_rows (asTenant "t1" twoTenants) "t1" db'
                Hnd eq_refl) as [Hrows _].
    { right. right. left. exists "b1"%string, r. exact E. }
    exact Hrows.
Defined.

End MutationProps.

(* ------------------------------------------------------------------ *)
(** ** Properties of the queries                                        *)
(* ------------------------------------------------------------------ *)

Module QueryProps.
Import Calendar Server Notions QueryNotions Examples.

Lemma filter_filter_implied {A} (p q : A -> bool) l :
  (forall x, p x = true -> q x = true) ->
  filter p (filter q l) = filter p l.
Proof.
  intros H. induction l as [|a l IH]; simpl; [reflexivity|].
  destruct (q a) eqn:Eq; simpl.
  - rewrite IH. reflexivity.
  - destruct (p a) eqn:Ep; [|exact IH]. rewrite (H a Ep) in Eq. discriminate.
Qed.

Lemma find_filter_implied {A} (p q : A -> bool) l :
  (forall x, p x = true -> q x = true) ->
  find p (filter q l) = find p l.
Proof.
  intros H. induction l as [|a l IH]; simpl; [reflexivity|].
  destruct (q a) eqn:Eq; simpl.
  - rewrite IH. reflexivity.
  - destruct (p a) eqn:Ep; [|exact IH]. rewrite (H a Ep) in Eq. discriminate.
Qed.

Lemma own_tenant tenant r rest :
  (tenantId r =? tenant)%string && rest = true -> (tenant =? tenantId r)%string = true.
Proof.
  intros H. apply andb_true_iff in H. destruct H as [H _].
  rewrite String.eqb_sym. exact H.
Qed.

Lemma bookingsWhere_own tenant f r :
  bookingsWhere tenant f r = true -> (tenant =? tenantId r)%string = true.
Proof.
  unfold bookingsWhere. intros H.
  repeat (apply andb_true_iff in H; destruct H as [H _]).
  rewrite String.eqb_sym. exact H.
Qed.

Lemma occupancyWhere_own tenant roomArg s e r :
  occupancyWhere tenant roomArg s e r = true -> (tenant =? tenantId r)%string = true.
Proof.
  unfold occupancyWhere. intros H.
  repeat (apply andb_true_iff in H; destruct H as [H _]).
  rewrite String.eqb_sym. exact H.
Qed.

(** X13. The answers of the queries depend on the caller's rows only:
    each of the four booking queries and of the two reports gives the
    same answer on the whole table as on the table cut down to the rows
    of the caller's tenant, whatever the other tenants have stored. *)
Theorem X13_queries_read_own_rows_only context :
  (forall f limit offset column order,
     getBookings (ownRows context) f limit offset column order
     = getBookings context f limit offset column order) /\
  (forall bookingId,
     getBooking (ownRows context) bookingId = getBooking context bookingId) /\
  (forall startDate endDate,
     getBookingsByDateRange (ownRows context) startDate endDate
     = getBookingsByDateRange context startDate endDate) /\
  (forall roomArg,
     getBookingsByRoom (ownRows context) roomArg = getBookingsByRoom context roomArg) /\
  (forall roomArg year month,
     getOccupancyReport (ownRows context) roomArg year month
     = getOccupancyReport context roomArg year month) /\
  (forall year month,
     getRevenueReport (ownRows context) year month
     = getRevenueReport context year month).
Proof.
  destruct context as [[tenant|] [rows tenants]].
  2: { refine (conj _ (conj _ (conj _ (conj _ (conj _ _))))); intros; reflexivity. }
  unfold ownRows. simpl user. simpl prisma. simpl bookingTable. simpl optEq.
  refine (conj _ (conj _ (conj _ (conj _ (conj _ _))))).
  - intros f limit offset column order. unfold getBookings, requireAuth.
    simpl user. simpl prisma. simpl bookingTable. cbv beta iota zeta.
    rewrite filter_filter_implied by apply bookingsWhere_own. reflexivity.
  - intros bookingId. unfold getBooking, requireAuth.
    simpl user. simpl prisma. simpl bookingTable. cbv beta iota zeta.
    rewrite find_filter_implied; [reflexivity|].
    intros x Hx. apply andb_true_iff in Hx. destruct Hx as [_ Hx].
    rewrite String.eqb_sym. exact Hx.
  - intros startDate endDate. unfold getBookingsByDateRange, requireAuth.
    simpl user. simpl prisma. simpl bookingTable. cbv beta iota zeta.
    rewrite filter_filter_implied; [reflexivity|].
    intros x Hx. rewrite <- andb_assoc in Hx. exact (own_tenant _ _ _ Hx).
  - intros roomArg. unfold getBookingsByRoom, requireAuth.
    simpl user. simpl prisma. simpl bookingTable. cbv beta iota zeta.
    rewrite filter_filter_implied; [reflexivity|].
    intros x Hx. exact (own_tenant _ _ _ Hx).
  - intros roomArg year month. unfold getOccupancyReport, requireAuth.
    simpl user. simpl prisma. simpl bookingTable. cbv beta iota zeta.
    rewrite filter_filter_implied by apply occupancyWhere_own. reflexivity.
  - intros year month. unfold getRevenueReport, requireAuth, revenueRows.
    simpl user. simpl prisma. simpl bookingTable. cbv beta iota zeta.
    rewrite filter_filter_implied; [reflexivity|].
    intros x Hx. rewrite <- andb_assoc in Hx. exact (own_tenant _ _ _ Hx).
Qed.

(** *** Ordering *)

Lemma insertBy_perm le x l : Permutation (insertBy le x l) (x :: l).
Proof.
  induction l as [|y l IH]; simpl; [apply Permutation_refl|].
  destruct (le x y); [apply Permutation_refl|].
  apply Permutation_trans with (y :: x :: l).
  - apply perm_skip, IH.
  - apply perm_swap.
Qed.

Lemma sortBy_perm le l : Permutation (sortBy le l) l.
Proof.
  induction l as [|x l IH]; simpl; [apply Permutation_refl|].
  apply Permutation_trans with (x :: sortBy le l).
  - apply insertBy_perm.
  - apply perm_skip, IH.
Qed.

Lemma insertBy_sorted (le : Row -> Row -> bool) x l :
  (forall a b, le a b = false -> le b a = true) ->
  Sorted (fun a b => le a b = true) l ->
  Sorted (fun a b => le a b = true) (insertBy le x l).
Proof.
  intros Htotal. induction l as [|y l IH]; simpl; intros Hs.
  - constructor; constructor.
  - destruct (le x y) eqn:E.
    + constructor; [exact Hs | constructor; exact E].
    + inversion Hs as [|? ? Hs' Hhd]; subst. constructor; [apply IH, Hs'|].
      destruct l as [|z l]; simpl.
      * constructor. apply Htotal, E.
      * inversion Hhd; subst. destruct (le x z); constructor; auto.
Qed.

Lemma sortBy_sorted (le : Row -> Row -> bool) l :
  (forall a b, le a b = false -> le b a = true) ->
  Sorted (fun a b => le a b = true) (sortBy le l).
Proof.
  intros Htotal. induction l as [|x l IH]; simpl; [constructor|].
  apply insertBy_sorted; assumption.
Qed.

Lemma Sorted_normalized (R : Row -> Row -> Prop) (le : Row -> Row -> bool) l :
  (forall a b, le a b = true -> R (normalizeBooking a) (normalizeBooking b)) ->
  Sorted (fun a b => le a b = true) l ->
  Sorted R (map normalizeBooking l).
Proof.
  intros H. induction l as [|x l IH]; simpl; intros Hs; [constructor|].
  inversion Hs as [|? ? Hs' Hhd]; subst. constructor; [apply IH, Hs'|].
  destruct l as [|y l]; simpl; constructor.
  inversion Hhd; subst. apply H. assumption.
Qed.

(** X14. The two list queries return the caller's matching bookings,
    all of them, in check-in order.  [getBookingsByDateRange] returns
    the stays that lie wholly inside the window (check-in on or after
    its start and check-out on or before its end), earliest check-in
    first, and refuses a window whose end is before its start;
    [getBookingsByRoom] returns the stays of the room, latest check-in
    first. *)
Theorem X14_list_queries_are_complete_and_ordered context tenant :
  user context = Some tenant ->
  (forall startDate endDate, startDate <= endDate ->
     exists stored,
       getBookingsByDateRange context startDate endDate
       = inr (map normalizeBooking stored) /\
       Sorted checkInAscending (map normalizeBooking stored) /\
       (List.length stored <= List.length (bookingTable (prisma context)))%nat /\
       forall r, In r stored <->
         In r (bookingTable (prisma context)) /\ tenantId r = tenant /\
         startDate <= checkIn r /\ checkOut r <= endDate) /\
  (forall startDate endDate, endDate < startDate ->
     getBookingsByDateRange context startDate endDate
     = inl "Start date must be before end date"%string) /\
  (forall roomArg,
     exists stored,
       getBookingsByRoom context roomArg = inr (map normalizeBooking stored) /\
       Sorted checkInDescending (map normalizeBooking stored) /\
       forall r, In r stored <->
         In r (bookingTable (prisma context)) /\ tenantId r = tenant /\
         room r = roomArg).
Proof.
  intros Hu. refine (conj _ (conj _ _)).
  - intros startDate endDate Hle. eexists. split.
    { unfold getBookingsByDateRange, requireAuth. rewrite Hu.
      destruct (Z.ltb_spec endDate startDate) as [Hlt|_]; [lia|]. reflexivity. }
    split.
    { apply (Sorted_normalized _ (fun a b => checkIn a <=? checkIn b)).
      - intros a b H. apply Z.leb_le in H. exact H.
      - apply sortBy_sorted. intros a b H. apply Z.leb_gt in H. apply Z.leb_le. lia. }
    split.
    { rewrite (Permutation_length (sortBy_perm _ _)). apply filter_length_le. }
    intros r. split.
    + intros H. apply (Permutation_in _ (sortBy_perm _ _)) in H.
      apply filter_In in H. destruct H as [Hin H].
      apply andb_true_iff in H. destruct H as [H H3].
      apply andb_true_iff in H. destruct H as [H1 H2].
      apply String.eqb_eq in H1. apply Z.leb_le in H2, H3. auto.
    + intros (Hin & H1 & H2 & H3).
      apply (Permutation_in _ (Permutation_sym (sortBy_perm _ _))).
      apply filter_In. split; [exact Hin|].
      apply String.eqb_eq in H1. apply Z.leb_le in H2, H3.
      rewrite H1, H2, H3. reflexivity.
  - intros startDate endDate Hlt. unfold getBookingsByDateRange, requireAuth.
    rewrite Hu. destruct (Z.ltb_spec endDate startDate) as [_|Hge]; [reflexivity | lia].
  - intros roomArg. eexists. split.
    { unfold getBookingsByRoom, requireAuth. rewrite Hu. reflexivity. }
    split.
    { apply (Sorted_normalized _ (fun a b => checkIn b <=? checkIn a)).
      - intros a b H. apply Z.leb_le in H. exact H.
      - apply sortBy_sorted. intros a b H. apply Z.leb_gt in H. apply Z.leb_le. lia. }
    intros r. split.
    + intros H. apply (Permutation_in _ (sortBy_perm _ _)) in H.
      apply filter_In in H. destruct H as [Hin H].
      apply andb_true_iff in H. destruct H as [H1 H2].
      apply String.eqb_eq in H1, H2. auto.
    + intros (Hin & H1 & H2).
      apply (Permutation_in _ (Permutation_sym (sortBy_perm _ _))).
      apply filter_In. split; [exact Hin|].
      apply String.eqb_eq in H1, H2. rewrite H1, H2. reflexivity.
Qed.

Lemma X14_list_queries_are_complete_and_ordered_witness :
  exists stored,
    getBookingsByDateRange (contextOf [winterRow (Some "active"%string)])
      (newDate 2026 1 1) (newDate 2026 2 31)
    = inr (map normalizeBooking stored) /\
    List.length stored = 1%nat.
Proof.
  destruct (X14_list_queries_are_complete_and_ordered
              (contextOf [winterRow (Some "active"%string)]) "t1" eq_refl) as [H _].
  destruct (H (newDate 2026 1 1) (newDate 2026 2 31)) as (stored & Hq & _ & _ & _).
  { vm_compute. discriminate. }
  exists stored. split; [exact Hq|].
  assert (E : getBookingsByDateRange (contextOf [winterRow (Some "active"%string)])
                (newDate 2026 1 1) (newDate 2026 2 31)
              = inr [normalizeBooking (winterRow (Some "active"%string))])
    by (vm_compute; reflexivity).
  rewrite E in Hq. apply ServerProps.inr_inj in Hq.
  apply (f_equal (@List.length Row)) in Hq. rewrite length_map in Hq.
  symmetry. exact Hq.
Defined.

(** *** The revenue report *)

Lemma jsDate_monthStart year monthIndex day :
  jsDate year monthIndex day = monthStart (year * 12 + monthIndex) + (day - 1).
Proof.
  unfold monthStart, jsDate.
  replace (0 * 12 + (year * 12 + monthIndex)) with (year * 12 + monthIndex) by lia.
  lia.
Qed.

Lemma truthyMonth_some m : m <> 0 -> truthyMonth (Some m) = Some m.
Proof. destruct m; [congruence | reflexivity | reflexivity]. Qed.

Lemma revenueRows_month context tenant year month :
  month <> 0 ->
  revenueRows context tenant year (Some month)
  = filter (fun r => (tenantId r =? tenant)%string &&
                     (monthStart (year * 12 + month - 1) * MS_PER_DAY <=? createdAt r) &&
                     (createdAt r <=? (monthStart (year * 12 + month) - 1) * MS_PER_DAY))
      (bookingTable (prisma context)).
Proof.
  intros Hm. unfold revenueRows. rewrite (truthyMonth_some _ Hm). cbv zeta.
  unfold newDate. rewrite !jsDate_monthStart.
  replace (year * 12 + (month - 1)) with (year * 12 + month - 1) by lia.
  replace (monthStart (year * 12 + month - 1) + (1 - 1))
    with (monthStart (year * 12 + month - 1)) by lia.
  replace (monthStart (year * 12 + month) + (0 - 1))
    with (monthStart (year * 12 + month) - 1) by lia.
  reflexivity.
Qed.

Lemma reportTotals_rows context context' year month year' month' :
  user context = user context' ->
  (forall tenant, revenueRows context tenant year month
                  = revenueRows context' tenant year' month') ->
  reportTotals (getRevenueReport context year month)
  = reportTotals (getRevenueReport context' year' month').
Proof.
  intros Hu H. unfold getRevenueReport, requireAuth. rewrite <- Hu.
  destruct (user context) as [tenant|]; [|reflexivity].
  cbv zeta. rewrite (H tenant). reflexivity.
Qed.



Lemma filter_cons_false {A} (f : A -> bool) x l :
  f x = false -> filter f (x :: l) = filter f l.
Proof. intros H. simpl. rewrite H. reflexivity. Qed.

Lemma monthStart_le a b : a <= b -> monthStart a <= monthStart b.
Proof.
  intros H. destruct (Z.eq_dec a b) as [->|Hne]; [lia|].
  apply Z.lt_le_incl, CalendarProps.monthStart_mono. lia.
Qed.

(** X16. The window of a monthly revenue report ends at the first
    instant of the month's last day, and the next month's starts on
    the first: a booking created during the last day of a month, after
    midnight, is counted in no monthly report of any year. *)
Theorem X16_last_day_is_in_no_monthly_revenue_report context row year month :
  newDate year month 0 < createdAt row < newDate year month 1 ->
  forall year' month', month' <> 0 ->
    reportTotals (getRevenueReport (withRow row context) year' (Some month'))
    = reportTotals (getRevenueReport context year' (Some month')).
Proof.
  intros Hc year' month' Hm'.
  apply reportTotals_rows; [reflexivity|]. intros t.
  rewrite !revenueRows_month by assumption.
  unfold withRow. simpl prisma. simpl bookingTable.
  apply filter_cons_false.
  rewrite <- andb_assoc. apply andb_false_iff. right.
  unfold newDate in Hc. rewrite !jsDate_monthStart in Hc.
  apply andb_false_iff.
  destruct (Z_le_gt_dec (year' * 12 + month') (year * 12 + month)) as [Hk|Hk].
  - right. apply Z.leb_gt. pose proof (monthStart_le _ _ Hk).
    unfold MS_PER_DAY in *. lia.
  - left. apply Z.leb_gt.
    assert (Hk' : year * 12 + month <= year' * 12 + month' - 1) by lia.
    pose proof (monthStart_le _ _ Hk'). unfold MS_PER_DAY in *. lia.
Qed.

Lemma X16_last_day_is_in_no_monthly_revenue_report_witness :
  newDate 2026 3 0 < createdAt lastDayRow < newDate 2026 3 1 /\
  reportTotals (getRevenueReport (withRow lastDayRow (contextOf [])) 2026 (Some 3))
  = reportTotals (getRevenueReport (contextOf []) 2026 (Some 3)).
Proof.
  assert (H : newDate 2026 3 0 < createdAt lastDayRow < newDate 2026 3 1)
    by (vm_compute; split; reflexivity).
  split; [exact H|].
  apply (X16_last_day_is_in_no_monthly_revenue_report (contextOf []) lastDayRow 2026 3 H).
  discriminate.
Defined.

End QueryProps.

(* ------------------------------------------------------------------ *)
(** ** Properties of the rooms of a tenant                              *)
(* ------------------------------------------------------------------ *)

Module RoomProps.
Import Calendar Server Store StoreExamples StoreProps.

Lemma findTenant_setRooms db tenantKey tenant rooms :
  findTenant db tenantKey = Some tenant ->
  findTenant (setRooms tenantKey rooms db) tenantKey
  = Some (mkTenantRow (tenant_id tenant) (tenant_name tenant) rooms
            (tenant_settings tenant)).
Proof.
  unfold findTenant, setRooms. simpl tenants.
  induction (tenants db) as [|t l IH]; simpl; [discriminate|].
  destruct (String.eqb_spec (tenant_id t) tenantKey) as [Ht|Ht].
  - intros H. injection H as <-. simpl. rewrite Ht, String.eqb_refl. reflexivity.
  - apply String.eqb_neq in Ht. rewrite Ht. exact IH.
Qed.

Lemma findTenant_setRooms_other db tenantKey other rooms :
  other <> tenantKey ->
  findTenant (setRooms tenantKey rooms db) other = findTenant db other.
Proof.
  intros Hother. unfold findTenant, setRooms. simpl tenants.
  induction (tenants db) as [|t l IH]; simpl; [reflexivity|].
  destruct (String.eqb_spec (tenant_id t) tenantKey) as [Ht|Ht].
  - simpl. assert (H : (tenant_id t =? other)%string = false)
      by (apply String.eqb_neq; congruence).
    rewrite H. exact IH.
  - rewrite IH. reflexivity.
Qed.

Lemma addRoom_inr context name rooms db' :
  addRoom context name = inr (rooms, db') ->
  exists tenantKey tenant,
    ctx_user context = Some tenantKey /\
    findTenant (ctx_db context) tenantKey = Some tenant /\
    existsb (fun r => (r_name r =? name)%string) (tenant_rooms tenant) = false /\
    rooms = tenant_rooms tenant ++ [mkRoom (roomIdAt (ctx_now context)) name] /\
    db' = setRooms tenantKey rooms (ctx_db context).
Proof.
  intros H. apply requireAuth_some in H. destruct H as [tenantKey [Hu H]].
  cbv zeta in H.
  destruct (findTenant (ctx_db context) tenantKey) as [tenant|] eqn:Ht; [|discriminate].
  destruct (existsb _ (tenant_rooms tenant)) eqn:Hname; [discriminate|].
  apply ServerProps.inr_inj, pair_inj in H. destruct H as [<- <-].
  exists tenantKey, tenant. repeat split; auto.
Qed.

Lemma existsb_false_not_in {A B} (f : A -> B) (eqb : B -> B -> bool) (l : list A) y :
  (forall a b, eqb a b = true <-> a = b) ->
  existsb (fun x => eqb (f x) y) l = false -> ~ In y (map f l).
Proof.
  intros Heqb H Hin. apply in_map_iff in Hin. destruct Hin as [x [Hx Hin]].
  assert (existsb (fun x => eqb (f x) y) l = true).
  { apply existsb_exists. exists x. split; [exact Hin | apply Heqb, Hx]. }
  congruence.
Qed.

Lemma NoDup_snoc {A} (l : list A) x : NoDup l -> ~ In x l -> NoDup (l ++ [x]).
Proof.
  induction l as [|a l IH]; simpl; intros Hnd Hx.
  - constructor; [intros [] | constructor].
  - inversion Hnd as [|? ? Ha Hnd']; subst. constructor.
    + intros Hin. apply in_app_or in Hin. destruct Hin as [Hin|[->|[]]]; auto.
    + apply IH; auto.
Qed.

(** X17. A room that was added can be booked, and its name cannot be
    added again: [addRoom] appends one room with the given name to the
    caller's rooms and keeps the room names distinct, leaves the
    bookings and the other tenants' rooms alone; afterwards
    [createBooking] accepts the new room for any stay of at least one
    night, and a second [addRoom] with the same name answers "Room name
    already exists". *)
Theorem X17_addRoom_then_createBooking context name rooms db' :
  addRoom context name = inr (rooms, db') ->
  exists tenantKey tenant newRoom,
    ctx_user context = Some tenantKey /\
    findTenant (ctx_db context) tenantKey = Some tenant /\
    rooms = tenant_rooms tenant ++ [newRoom] /\ r_name newRoom = name /\
    option_map tenant_rooms (findTenant db' tenantKey) = Some rooms /\
    (NoDup (map r_name (tenant_rooms tenant)) -> NoDup (map r_name rooms)) /\
    bookings db' = bookings (ctx_db context) /\
    (forall other, other <> tenantKey ->
       findTenant db' other = findTenant (ctx_db context) other) /\
    (forall input,
       in_room input = r_id newRoom ->
       dayOfDate (in_checkIn input) < dayOfDate (in_checkOut input) ->
       exists returned db'',
         createBooking (withDb context db') input = inr (returned, db'')) /\
    addRoom (withDb context db') name = inl "Room name already exists"%string.
Proof.
  intros H. apply addRoom_inr in H.
  destruct H as (tenantKey & tenant & Hu & Ht & Hname & -> & ->).
  exists tenantKey, tenant, (mkRoom (roomIdAt (ctx_now context)) name).
  pose proof (findTenant_setRooms _ _ _
                (tenant_rooms tenant ++ [mkRoom (roomIdAt (ctx_now context)) name]) Ht)
    as Ht'.
  split; [exact Hu|]. split; [exact Ht|]. split; [reflexivity|]. split; [reflexivity|].
  split; [rewrite Ht'; reflexivity|].
  split.
  { intros Hnd. rewrite map_app. simpl.
    apply NoDup_snoc.
    - exact Hnd.
    - apply (existsb_false_not_in r_name String.eqb); [apply String.eqb_eq | exact Hname]. }
  split; [reflexivity|].
  split; [intros other Hother; apply findTenant_setRooms_other, Hother|].
  split.
  { intros input Hroom Hdays.
    destruct (createBooking_accepts
                (withDb context
                   (setRooms tenantKey
                      (tenant_rooms tenant ++ [mkRoom (roomIdAt (ctx_now context)) name])
                      (ctx_db context)))
                input tenantKey _ Hu Ht') as [details [_ Hc]].
    - simpl tenant_rooms. rewrite existsb_app. simpl.
      rewrite Hroom. simpl. rewrite String.eqb_refl, orb_true_r. reflexivity.
    - exact Hdays.
    - eexists. eexists. exact Hc. }
  unfold addRoom, requireAuth. rewrite appContext_user. simpl ctx_user. rewrite Hu.
  cbv zeta. simpl ctx_db. rewrite Ht'. simpl tenant_rooms.
  rewrite existsb_app. simpl. rewrite String.eqb_refl, orb_true_r. reflexivity.
Qed.

Lemma X17_addRoom_then_createBooking_witness :
  match addRoom (asTenant "t1" twoTenants) "Garden" with
  | inr (rooms, db') =>
      (exists newRoom, rooms = tenant_rooms seaView ++ [newRoom]) /\
      addRoom (withDb (asTenant "t1" twoTenants) db') "Garden"
      = inl "Room name already exists"%string
  | inl _ => False
  end.
Proof.
  destruct (addRoom (asTenant "t1" twoTenants) "Garden") as [e|[rooms db']] eqn:E.
  - vm_compute in E. discriminate.
  - destruct (X17_addRoom_then_createBooking _ _ _ _ E)
      as (tenantKey & tenant & newRoom & Hu & Ht & Hrooms & _ & _ & _ & _ & _ & _ & Hagain).
    split; [|exact Hagain].
    assert (tenantKey = "t1"%string) as -> by (simpl in Hu; congruence).
    assert (Hsea : findTenant (ctx_db (asTenant "t1" twoTenants)) "t1" = Some seaView)
      by reflexivity.
    rewrite Hsea in Ht. injection Ht as <-. exists newRoom. exact Hrooms.
Defined.

Lemma removeRoom_inr context roomId rooms db' :
  removeRoom context roomId = inr (rooms, db') ->
  exists tenantKey tenant,
    ctx_user context = Some tenantKey /\
    findTenant (ctx_db context) tenantKey = Some tenant /\
    existsb (fun r => (r_id r =? roomId)%string) (tenant_rooms tenant) = true /\
    rooms = filter (fun r => negb (r_id r =? roomId)%string) (tenant_rooms tenant) /\
    db' = setRooms tenantKey rooms (ctx_db context).
Proof.
  intros H. apply requireAuth_some in H. destruct H as [tenantKey [Hu H]].
  cbv zeta in H.
  destruct (findTenant (ctx_db context) tenantKey) as [tenant|] eqn:Ht; [|discriminate].
  destruct (existsb _ (tenant_rooms tenant)) eqn:Hroom; simpl in H; [|discriminate].
  apply ServerProps.inr_inj, pair_inj in H. destruct H as [<- <-].
  exists tenantKey, tenant. repeat split; auto.
Qed.

Lemma existsb_removed roomId (rooms : list Room) :
  existsb (fun r => (r_id r =? roomId)%string)
    (filter (fun r => negb (r_id r =? roomId)%string) rooms) = false.
Proof.
  induction rooms as [|r rooms IH]; simpl; [reflexivity|].
  destruct (r_id r =? roomId)%string eqn:E; simpl; [exact IH|].
  rewrite E. exact IH.
Qed.

(** X18. Removing a room never looks at the bookings: [removeRoom]
    takes the room out of the caller's rooms and leaves every booking
    where it was, those of the removed room included, so that they can
    still be fetched; afterwards [createBooking] answers "Invalid room"
    for that room and a second [removeRoom] answers "Room not found". *)
Theorem X18_removeRoom_keeps_the_bookings context roomId rooms db' :
  removeRoom context roomId = inr (rooms, db') ->
  exists tenantKey tenant,
    ctx_user context = Some tenantKey /\
    findTenant (ctx_db context) tenantKey = Some tenant /\
    (forall r, In r rooms <-> In r (tenant_rooms tenant) /\ r_id r <> roomId) /\
    option_map tenant_rooms (findTenant db' tenantKey) = Some rooms /\
    bookings db' = bookings (ctx_db context) /\
    (forall bookingId,
       getBooking (appContext (withDb context db')) bookingId
       = getBooking (appContext context) bookingId) /\
    (forall other, other <> tenantKey ->
       findTenant db' other = findTenant (ctx_db context) other) /\
    (forall input, in_room input = roomId ->
       createBooking (withDb context db') input = inl "Invalid room"%string) /\
    removeRoom (withDb context db') roomId = inl "Room not found"%string.
Proof.
  intros H. apply removeRoom_inr in H.
  destruct H as (tenantKey & tenant & Hu & Ht & Hroom & -> & ->).
  exists tenantKey, tenant.
  pose proof (findTenant_setRooms _ _ _
                (filter (fun r => negb (r_id r =? roomId)%string) (tenant_rooms tenant)) Ht)
    as Ht'.
  split; [exact Hu|]. split; [exact Ht|].
  split.
  { intros r. rewrite filter_In, negb_true_iff, String.eqb_neq. reflexivity. }
  split; [rewrite Ht'; reflexivity|].
  split; [reflexivity|].
  split.
  { intros bookingId. rewrite !(getBooking_find _ _ tenantKey) by exact Hu. reflexivity. }
  split; [intros other Hother; apply findTenant_setRooms_other, Hother|].
  split.
  { intros input Hin. unfold createBooking, requireAuth.
    rewrite appContext_user. simpl ctx_user. rewrite Hu. cbv zeta. simpl ctx_db.
    rewrite Ht'. simpl tenant_rooms. rewrite Hin, existsb_removed. reflexivity. }
  unfold removeRoom, requireAuth.
  rewrite appContext_user. simpl ctx_user. rewrite Hu. cbv zeta. simpl ctx_db.
  rewrite Ht'. simpl tenant_rooms. rewrite existsb_removed. reflexivity.
Qed.

Lemma X18_removeRoom_keeps_the_bookings_witness :
  match removeRoom (asTenant "t1" twoTenants) "A1" with
  | inr (rooms, db') =>
      bookings db' = bookings twoTenants /\
      createBooking (withDb (asTenant "t1" twoTenants) db')
        (mkInput "Bob" None None None "A1" (newDate 2026 2 10) (newDate 2026 2 13)
           100 50 None None) = inl "Invalid room"%string
  | inl _ => False
  end.
Proof.
  destruct (removeRoom (asTenant "t1" twoTenants) "A1") as [e|[rooms db']] eqn:E.
  - vm_compute in E. discriminate.
  - destruct (X18_removeRoom_keeps_the_bookings _ _ _ _ E)
      as (tenantKey & tenant & _ & _ & _ & _ & Hb & _ & _ & Hc & _).
    split; [exact Hb | apply Hc; reflexivity].
Defined.

End RoomProps.

(* ------------------------------------------------------------------ *)
(** ** Properties of the guest statistics and of the audit log          *)
(* ------------------------------------------------------------------ *)

Module StatisticsProps.
Import Calendar Server Store StoreExamples StoreProps.

Lemma round2_range x : (0 <= x)%Q -> (x <= 100)%Q -> (0 <= round2 x)%Q /\ (round2 x <= 100)%Q.
Proof.
  intros H0 H100. unfold round2, Math_round.
  assert (Hlo : 0 <= Qfloor (x * 100 + (1 # 2))).
  { change 0 with (Qfloor 0). apply Qfloor_resp_le.
    apply (Qle_trans _ (0 * 100 + (1 # 2))); [discriminate|].
    apply Qplus_le_l. apply Qmult_le_compat_r; [exact H0 | discriminate]. }
  assert (Hhi : Qfloor (x * 100 + (1 # 2)) <= 10000).
  { change 10000 with (Qfloor (100 * 100 + (1 # 2))). apply Qfloor_resp_le.
    apply Qplus_le_l. apply Qmult_le_compat_r; [exact H100 | discriminate]. }
  split.
  - apply Qle_shift_div_l; [reflexivity|]. rewrite Qmult_0_l.
    change 0%Q with (inject_Z 0). rewrite <- Zle_Qle. exact Hlo.
  - apply Qle_shift_div_r; [reflexivity|].
    change (100 * 100)%Q with (inject_Z 10000). rewrite <- Zle_Qle. exact Hhi.
Qed.

Lemma round2_zero : (round2 0 == 0)%Q.
Proof. reflexivity. Qed.

Lemma percentOf_range part total :
  0 <= part <= total -> (0 <= percentOf part total)%Q /\ (percentOf part total <= 100)%Q.
Proof.
  intros H. unfold percentOf. destruct (Z.ltb_spec 0 total) as [Hpos|Hle].
  - destruct (ClientProps.percent_range part total) as [Hlo Hhi]; [lia | lia |].
    split; [exact Hlo | apply Hhi; lia].
  - split; discriminate.
Qed.

Lemma percentOf_zero total : (percentOf 0 total == 0)%Q.
Proof.
  unfold percentOf. destruct (0 <? total); [|reflexivity].
  apply ClientProps.rate_zero.
Qed.

Lemma nodup_length_le (l : list string) :
  (List.length (nodup string_dec l) <= List.length l)%nat.
Proof.
  induction l as [|a l IH]; simpl; [lia|].
  destruct (in_dec string_dec a l); simpl; lia.
Qed.

Lemma setSize_range values : 0 <= setSize values <= Z.of_nat (List.length values).
Proof. unfold setSize. pose proof (nodup_length_le values). lia. Qed.

Lemma truthyValues_length values :
  (List.length (truthyValues values) <= List.length values)%nat.
Proof.
  unfold truthyValues. induction values as [|v values IH]; simpl; [lia|].
  rewrite length_app. destruct (truthy v); simpl; lia.
Qed.

Lemma no_CANCELED (rows : list BookingRow) :
  (forall b s, In b rows -> status (base b) = Some s -> toLowerCase s = s) ->
  filter (fun b => optEq (status (base b)) "CANCELED") rows = [].
Proof.
  induction rows as [|b rows IH]; simpl; intros H; [reflexivity|].
  replace (optEq (status (base b)) "CANCELED") with false.
  - apply IH. intros b' s Hin. apply H. right. exact Hin.
  - symmetry. destruct (status (base b)) as [s|] eqn:E; [|reflexivity].
    simpl. rewrite <- (H b s (or_introl eq_refl) E).
    apply MutationProps.toLowerCase_not_CANCELED.
Qed.

Lemma round2_proper x y : (x == y)%Q -> round2 x = round2 y.
Proof.
  intros H. unfold round2, Math_round.
  assert (E : Qfloor (x * 100 + (1 # 2)) = Qfloor (y * 100 + (1 # 2)))
    by (rewrite H; reflexivity).
  rewrite E. reflexivity.
Qed.

(** X19. The guest statistics of an authenticated caller are always
    produced, count the caller's bookings only, and keep their ranges:
    the number of cities is at most the number of bookings and both
    rates lie between 0 and 100.  With no booking every figure is 0.
    The cancellation rate is 0 whenever the statuses are stored in
    lower case, as [createBooking] and [updateBooking] store them,
    because only the upper-case CANCELED is counted. *)
Theorem X19_getGuestStatistics context tenantKey :
  ctx_user context = Some tenantKey ->
  exists g,
    getGuestStatistics context = inr g /\
    totalGuests g
      = Z.of_nat (List.length (filter (fun b => (tenantId (base b) =? tenantKey)%string)
                                 (bookings (ctx_db context)))) /\
    0 <= uniqueCities g <= totalGuests g /\
    (0 <= repeatGuestRate g)%Q /\ (repeatGuestRate g <= 100)%Q /\
    (0 <= cancellationRate g)%Q /\ (cancellationRate g <= 100)%Q /\
    (totalGuests g = 0 ->
     uniqueCities g = 0 /\ (averageNightStay g == 0)%Q /\
     (repeatGuestRate g == 0)%Q /\ (cancellationRate g == 0)%Q) /\
    ((forall b s, In b (bookings (ctx_db context)) -> tenantId (base b) = tenantKey ->
                  status (base b) = Some s -> toLowerCase s = s) ->
     (cancellationRate g == 0)%Q).
Proof.
  intros Hu. eexists. split.
  { unfold getGuestStatistics, requireAuth. rewrite appContext_user, Hu. reflexivity. }
  set (rows := filter (fun b => (tenantId (base b) =? tenantKey)%string)
                 (bookings (ctx_db context))).
  cbv zeta. simpl totalGuests. simpl uniqueCities. simpl repeatGuestRate.
  simpl cancellationRate. simpl averageNightStay. fold rows.
  pose proof (setSize_range (truthyValues (map city rows))) as Hc.
  pose proof (truthyValues_length (map city rows)) as Hc'. rewrite length_map in Hc'.
  pose proof (setSize_range (map (fun b => guestName (base b)) rows)) as Hg.
  rewrite length_map in Hg.
  split; [reflexivity|]. split; [lia|].
  assert (Hrepeat := percentOf_range
            (Z.of_nat (List.length rows) - setSize (map (fun b => guestName (base b)) rows))
            (Z.of_nat (List.length rows))).
  assert (Hcancel := percentOf_range
            (Z.of_nat (List.length
                         (filter (fun b => optEq (status (base b)) "CANCELED") rows)))
            (Z.of_nat (List.length rows))).
  destruct Hrepeat as [Hr0 Hr100]; [lia|].
  destruct Hcancel as [Hc0 Hc100].
  { pose proof (filter_length_le (fun b => optEq (status (base b)) "CANCELED") rows). lia. }
  destruct (round2_range _ Hr0 Hr100) as [Hr0' Hr100'].
  destruct (round2_range _ Hc0 Hc100) as [Hc0' Hc100'].
  split; [exact Hr0'|]. split; [exact Hr100'|]. split; [exact Hc0'|].
  split; [exact Hc100'|]. split.
  - intros Hzero. destruct rows as [|b rows'].
    + repeat split; reflexivity.
    + simpl List.length in Hzero. lia.
  - intros Hlow. rewrite no_CANCELED.
    + simpl List.length. simpl Z.of_nat.
      rewrite (round2_proper _ 0 (percentOf_zero _)). reflexivity.
    + intros b s Hin. apply filter_In in Hin. destruct Hin as [Hin Ht].
      apply String.eqb_eq in Ht. apply Hlow; assumption.
Qed.

Lemma X19_getGuestStatistics_witness :
  exists g,
    getGuestStatistics (asTenant "t1" twoTenants) = inr g /\
    totalGuests g = 1 /\ (cancellationRate g == 0)%Q.
Proof.
  destruct (X19_getGuestStatistics (asTenant "t1" twoTenants) "t1" eq_refl)
    as (g & Hg & Ht & _ & _ & _ & _ & _ & _ & Hc).
  exists g. split; [exact Hg|]. split; [exact Ht|].
  apply Hc. intros b s [<-|[<-|[]]] _ Hs; injection Hs as <-; reflexivity.
Defined.

(** *** The audit log *)

Lemma insertLog_perm x l : Permutation (insertLog x l) (x :: l).
Proof.
  induction l as [|y l IH]; simpl; [apply Permutation_refl|].
  destruct (log_createdAt y <=? log_createdAt x); [apply Permutation_refl|].
  apply Permutation_trans with (y :: x :: l).
  - apply perm_skip, IH.
  - apply perm_swap.
Qed.

Lemma newestFirst_perm l : Permutation (newestFirst l) l.
Proof.
  induction l as [|x l IH]; simpl; [apply Permutation_refl|].
  apply Permutation_trans with (x :: newestFirst l).
  - apply insertLog_perm.
  - apply perm_skip, IH.
Qed.

Lemma insertLog_sorted x l :
  Sorted (fun a b => log_createdAt b <= log_createdAt a) l ->
  Sorted (fun a b => log_createdAt b <= log_createdAt a) (insertLog x l).
Proof.
  induction l as [|y l IH]; simpl; intros Hs.
  - constructor; constructor.
  - destruct (Z.leb_spec (log_createdAt y) (log_createdAt x)) as [Hle|Hgt].
    + constructor; [exact Hs | constructor; exact Hle].
    + inversion Hs as [|? ? Hs' Hhd]; subst. constructor; [apply IH, Hs'|].
      destruct l as [|z l]; simpl.
      * constructor. lia.
      * inversion Hhd; subst.
        destruct (log_createdAt z <=? log_createdAt x); constructor; lia.
Qed.

Lemma newestFirst_sorted l :
  Sorted (fun a b => log_createdAt b <= log_createdAt a) (newestFirst l).
Proof.
  induction l as [|x l IH]; simpl; [constructor|]. apply insertLog_sorted, IH.
Qed.

Lemma Sorted_skipn {A} (R : A -> A -> Prop) n : forall l,
  Sorted R l -> Sorted R (skipn n l).
Proof.
  induction n as [|n IH]; intros l Hs; [exact Hs|].
  destruct l as [|a l]; [constructor|]. simpl. apply IH.
  inversion Hs; assumption.
Qed.

Lemma Sorted_firstn {A} (R : A -> A -> Prop) n : forall l,
  Sorted R l -> Sorted R (firstn n l).
Proof.
  induction n as [|n IH]; intros l Hs; [constructor|].
  destruct l as [|a l]; [constructor|]. simpl.
  inversion Hs as [|? ? Hs' Hhd]; subst. constructor; [apply IH, Hs'|].
  destruct l as [|b l]; [destruct n; constructor|].
  destruct n; simpl; constructor. inversion Hhd; assumption.
Qed.

(** X20. [getAuditLogs] returns entries of the caller's tenant only,
    with the requested action when one is given, newest first, and at
    most 500 of them however large the limit; when the page starts at
    the first entry and is large enough for all the matching entries,
    none is left out. *)
Theorem X20_getAuditLogs context tenantKey limit offset action :
  ctx_user context = Some tenantKey ->
  0 <= limit -> 0 <= offset ->
  exists logs,
    getAuditLogs context limit offset action = inr logs /\
    Z.of_nat (List.length logs) <= Z.min limit 500 /\
    Sorted (fun a b => log_createdAt b <= log_createdAt a) logs /\
    (forall l, In l logs ->
       In l (auditLogs (ctx_db context)) /\ log_tenantId l = tenantKey /\
       forall a, action = Some a -> a <> ""%string -> log_action l = a) /\
    (offset = 0 ->
     Z.of_nat (List.length (auditLogs (ctx_db context))) <= Z.min limit 500 ->
     forall l, In l (auditLogs (ctx_db context)) -> log_tenantId l = tenantKey ->
       (forall a, action = Some a -> a <> ""%string -> log_action l = a) ->
       In l logs).
Proof.
  intros Hu Hlimit Hoffset. eexists. split.
  { unfold getAuditLogs, requireAuth. rewrite appContext_user, Hu. cbv zeta.
    destruct (Z.ltb_spec offset 0) as [Hneg|_]; [lia|].
    destruct (Z.leb_spec 0 (Z.min limit 500)) as [_|Hneg]; [reflexivity | lia]. }
  set (matching := filter _ (auditLogs (ctx_db context))).
  split.
  { pose proof (firstn_le_length (Z.to_nat (Z.min limit 500))
                  (skipn (Z.to_nat offset) (newestFirst matching))). lia. }
  split; [apply Sorted_firstn, Sorted_skipn, newestFirst_sorted|].
  split.
  - intros l Hin. apply ServerProps.in_firstn, ServerProps.in_skipn in Hin.
    apply (Permutation_in _ (newestFirst_perm _)) in Hin.
    apply filter_In in Hin. destruct Hin as [Hin H].
    apply andb_true_iff in H. destruct H as [H1 H2].
    apply String.eqb_eq in H1. split; [exact Hin|]. split; [exact H1|].
    intros a -> Ha. destruct a as [|c a]; [congruence|].
    simpl in H2. apply String.eqb_eq in H2. exact H2.
  - intros -> Hall l Hin Ht Ha. simpl skipn.
    rewrite firstn_all2.
    + apply (Permutation_in _ (Permutation_sym (newestFirst_perm _))).
      apply filter_In. split; [exact Hin|].
      apply andb_true_iff. split; [apply String.eqb_eq, Ht|].
      destruct action as [[|c a]|]; try reflexivity.
      simpl. apply String.eqb_eq. apply Ha; [reflexivity | discriminate].
    + rewrite (Permutation_length (newestFirst_perm _)).
      pose proof (filter_length_le
                    (fun l0 => (log_tenantId l0 =? tenantKey)%string &&
                               optTest (truthy action)
                                 (fun a => (log_action l0 =? a)%string))
                    (auditLogs (ctx_db context))).
      fold matching in H. lia.
Qed.

Lemma X20_getAuditLogs_witness :
  match createBooking (asTenant "t1" twoTenants) marchInput with
  | inr (_, db') =>
      exists logs,
        getAuditLogs (withDb (asTenant "t1" twoTenants) db') 1000 0 None = inr logs /\
        Z.of_nat (List.length logs) <= 500
  | inl _ => False
  end.
Proof.
  destruct (createBooking (asTenant "t1" twoTenants) marchInput) as [e|[returned db']] eqn:E.
  - vm_compute in E. discriminate.
  - destruct (X20_getAuditLogs (withDb (asTenant "t1" twoTenants) db') "t1" 1000 0 None
                eq_refl) as (logs & Hl & Hlen & _); [lia | lia |].
    exists logs. split; [exact Hl | exact Hlen].
Defined.

End StatisticsProps.

(* ------------------------------------------------------------------ *)
(** ** Further properties of the client's report                        *)
(* ------------------------------------------------------------------ *)

Module ReportProps.
Import Calendar Client Notions ViewNotions CalendarProps ClientProps.

Lemma monthStart_reached k endTime :
  monthStart k <= endTime <-> k <= monthIndex endTime.
Proof.
  split; intros H.
  - apply monthIndex_mono in H. rewrite monthIndex_monthStart in H. exact H.
  - pose proof (month_span endTime) as [[Hs _] _].
    rewrite startOfMonth_index in Hs.
    destruct (Z.eq_dec k (monthIndex endTime)) as [->|Hne]; [exact Hs|].
    pose proof (monthStart_mono k (monthIndex endTime)). lia.
Qed.

Lemma nextMonth_monthStart k : nextMonth (monthStart k) = monthStart (k + 1).
Proof. rewrite nextMonth_index, monthIndex_monthStart. reflexivity. Qed.

Lemma monthsLoop_from endTime : forall n k,
  monthIndex endTime - k + 1 <= Z.of_nat n ->
  monthsLoop n (monthStart k) endTime
  = monthsFrom (Z.to_nat (monthIndex endTime - k + 1)) k.
Proof.
  induction n as [|n IH]; intros k Hfuel.
  - replace (Z.to_nat (monthIndex endTime - k + 1)) with 0%nat by lia. reflexivity.
  - simpl monthsLoop.
    destruct (Z.leb_spec (monthStart k) endTime) as [Hle|Hgt].
    + apply monthStart_reached in Hle.
      replace (Z.to_nat (monthIndex endTime - k + 1))
        with (S (Z.to_nat (monthIndex endTime - (k + 1) + 1))) by lia.
      simpl monthsFrom. rewrite nextMonth_monthStart, IH by lia. reflexivity.
    + assert (Hlt : monthIndex endTime < k).
      { destruct (Z_lt_le_dec (monthIndex endTime) k) as [Hk|Hk]; [exact Hk|].
        apply monthStart_reached in Hk. lia. }
      replace (Z.to_nat (monthIndex endTime - k + 1)) with 0%nat by lia. reflexivity.
Qed.

Lemma monthStart_gap a : forall n,
  Z.of_nat n <= monthStart (a + Z.of_nat n) - monthStart a.
Proof.
  induction n as [|n IH].
  - replace (a + Z.of_nat 0) with a by lia. simpl. lia.
  - replace (a + Z.of_nat (S n)) with (a + Z.of_nat n + 1) by lia.
    pose proof (monthStart_step (a + Z.of_nat n)). lia.
Qed.

Lemma monthsBetween_window startDate endTime :
  monthsBetween startDate endTime = monthsOfWindow startDate endTime.
Proof.
  unfold monthsBetween, monthsOfWindow. cbv zeta. rewrite startOfMonth_index.
  apply monthsLoop_from.
  destruct (Z_lt_le_dec (monthIndex endTime) (monthIndex startDate)) as [Hlt|Hle]; [lia|].
  pose proof (monthStart_gap (monthIndex startDate)
                (Z.to_nat (monthIndex endTime - monthIndex startDate))) as Hgap.
  replace (monthIndex startDate
           + Z.of_nat (Z.to_nat (monthIndex endTime - monthIndex startDate)))
    with (monthIndex endTime) in Hgap by lia.
  assert (Hend : monthStart (monthIndex endTime) <= endTime)
    by (apply monthStart_reached; lia).
  lia.
Qed.

Lemma length_monthsFrom n : forall k, List.length (monthsFrom n k) = n.
Proof. induction n as [|n IH]; intros k; simpl; [reflexivity | rewrite IH; reflexivity]. Qed.

Lemma in_monthsFrom n : forall k m,
  In m (monthsFrom n k) <-> exists i, k <= i < k + Z.of_nat n /\ m = monthStart i.
Proof.
  induction n as [|n IH]; intros k m; simpl.
  - split; [intros [] | intros [i [Hi _]]; lia].
  - rewrite IH. split.
    + intros [<-|[i [Hi ->]]]; [exists k | exists i]; split; auto; lia.
    + intros [i [Hi ->]]. destruct (Z.eq_dec i k) as [->|Hne]; [left; reflexivity|].
      right. exists i. split; [lia | reflexivity].
Qed.

Lemma eachMonthOfInterval_window v s e :
  s <= e -> eachMonthOfInterval v (parseISO s) (parseISO e) = inr (monthsOfWindow s e).
Proof.
  intros Hle. unfold eachMonthOfInterval, parseISO. destruct v.
  - destruct (Z.leb_spec s e) as [_|Hgt]; [|lia].
    rewrite monthsBetween_window. reflexivity.
  - destruct (Z.ltb_spec e s) as [Hlt|_]; [lia|].
    rewrite monthsBetween_window. reflexivity.
Qed.

Lemma reportData_produced v bookings s e f rt tenantRooms :
  s <= e -> exists r, reportData v bookings s e f rt tenantRooms = inr r.
Proof.
  intros Hle. unfold reportData. cbv zeta.
  rewrite (eachMonthOfInterval_window v s e Hle). eexists. reflexivity.
Qed.

(** X22. For a window whose start is not after its end the report has
    one monthly bucket for each calendar month the window touches, in
    order and without gap, from the month of the start date to the
    month of the end date, with either release line of date-fns; the
    report is always produced. *)
Theorem X22_one_bucket_per_month v bookings s e f rt tenantRooms :
  s <= e ->
  exists r,
    reportData v bookings s e f rt tenantRooms = inr r /\
    map ms_month (monthlyStats r) = monthsOfWindow s e /\
    Z.of_nat (List.length (monthlyStats r)) = monthIndex e - monthIndex s + 1 /\
    (forall m, In m (map ms_month (monthlyStats r)) <->
       exists i, monthIndex s <= i <= monthIndex e /\ m = monthStart i) /\
    1 <= monthIndex e - monthIndex s + 1.
Proof.
  intros Hle.
  assert (Hidx : monthIndex s <= monthIndex e) by (apply monthIndex_mono, Hle).
  pose proof (eachMonthOfInterval_window v s e Hle) as Hmonths.
  eexists. split.
  { unfold reportData. cbv zeta. rewrite Hmonths. reflexivity. }
  simpl monthlyStats. rewrite map_map. simpl ms_month. rewrite map_id.
  split; [reflexivity|]. split.
  { rewrite length_map. unfold monthsOfWindow. rewrite length_monthsFrom. lia. }
  split; [|lia].
  intros m. unfold monthsOfWindow. rewrite in_monthsFrom.
  split; intros [i [Hi ->]]; exists i; split; auto; lia.
Qed.

Lemma X22_one_bucket_per_month_witness :
  exists r,
    reportData V2 [] (ymd 2025 11 20) (ymd 2026 2 3) "ALL" stay [] = inr r /\
    Z.of_nat (List.length (monthlyStats r)) = 4.
Proof.
  destruct (X22_one_bucket_per_month V2 [] (ymd 2025 11 20) (ymd 2026 2 3) "ALL" stay [])
    as (r & Hr & _ & Hlen & _).
  { vm_compute. discriminate. }
  exists r. split; [exact Hr|]. rewrite Hlen. vm_compute. reflexivity.
Defined.

(** *** The rooms of the report *)

Lemma occupiedDayCount_range roomBookings s e :
  0 <= occupiedDayCount roomBookings s e <= Z.max 0 (e - s + 1).
Proof.
  unfold occupiedDayCount, daysOfRange.
  pose proof (filter_length_le (isOccupied roomBookings)
                (daysFrom (Z.to_nat (e - s + 1)) s)) as H.
  rewrite length_daysFrom in H. lia.
Qed.

Lemma occupancyRate_range roomBookings s e :
  (0 <= occupancyRate roomBookings s e)%Q /\ (occupancyRate roomBookings s e <= 100)%Q.
Proof.
  rewrite occupancyRate_formula.
  pose proof (occupiedDayCount_range roomBookings s e) as Hc.
  destruct (Z.ltb_spec 0 (e - s + 1)) as [Hpos|Hle]; [|split; discriminate].
  destruct (percent_range (occupiedDayCount roomBookings s e) (e - s + 1)) as [H0 H100];
    [lia | lia |].
  split; [exact H0 | apply H100; lia].
Qed.

(** X23. The occupancy rate of every room of every report lies between
    0 and 100, whatever the bookings: a day counts once however many
    bookings of the room overlap on it. *)
Theorem X23_room_occupancy_rate_range v bookings s e f rt tenantRooms r rs :
  reportData v bookings s e f rt tenantRooms = inr r ->
  In rs (roomStats r) ->
  (0 <= rs_occupancyRate rs)%Q /\ (rs_occupancyRate rs <= 100)%Q.
Proof.
  intros E Hrs. rewrite (roomStats_occupancyRate _ _ _ _ _ _ _ _ E) in Hrs.
  apply in_map_iff in Hrs. destruct Hrs as [room_ [<- _]].
  cbv zeta. cbn [rs_occupancyRate]. apply occupancyRate_range.
Qed.

Lemma X23_room_occupancy_rate_range_witness :
  exists r rs,
    reportData V2 Examples.februaryTwice (ymd 2026 2 1) (ymd 2026 2 28) "ALL" stay []
    = inr r /\
    In rs (roomStats r) /\ rs_roomId rs = "A1"%string /\
    (0 <= rs_occupancyRate rs)%Q /\ (rs_occupancyRate rs <= 100)%Q.
Proof.
  destruct (reportData_produced V2 Examples.februaryTwice (ymd 2026 2 1) (ymd 2026 2 28)
              "ALL" stay []) as [r E].
  { vm_compute. discriminate. }
  assert (Hrs : exists rs, In rs (roomStats r) /\ rs_roomId rs = "A1"%string).
  { rewrite (roomStats_occupancyRate _ _ _ _ _ _ _ _ E).
    eexists. split; [left; reflexivity | reflexivity]. }
  destruct Hrs as (rs & Hin & Hid).
  exists r, rs. split; [exact E|]. split; [exact Hin|]. split; [exact Hid|].
  exact (X23_room_occupancy_rate_range _ _ _ _ _ _ _ _ _ E Hin).
Defined.

Lemma sumOfZ_plus {A} (f g : A -> Z) l :
  sumOfZ (fun a => f a + g a) l = sumOfZ f l + sumOfZ g l.
Proof. induction l as [|a l IH]; simpl; [reflexivity | rewrite IH; lia]. Qed.

Lemma sumOfZ_zero {A} (l : list A) : sumOfZ (fun _ => 0) l = 0.
Proof. induction l as [|a l IH]; simpl; [reflexivity | exact IH]. Qed.

Lemma sumOfZ_ext {A} (f g : A -> Z) l :
  (forall a, In a l -> f a = g a) -> sumOfZ f l = sumOfZ g l.
Proof.
  intros H. induction l as [|a l IH]; simpl; [reflexivity|].
  rewrite (H a) by (left; reflexivity). rewrite IH; [reflexivity|].
  intros b Hb. apply H. right. exact Hb.
Qed.

Lemma sumOfZ_room c x : forall rooms : list RoomConfig,
  NoDup (map roomId rooms) -> In x (map roomId rooms) ->
  sumOfZ (fun r => if (x =? roomId r)%string then c else 0) rooms = c.
Proof.
  induction rooms as [|r rooms IH]; simpl; intros Hnd Hin; [contradiction|].
  inversion Hnd as [|? ? Hnot Hnd']; subst.
  destruct (String.eqb_spec x (roomId r)) as [->|Hne].
  - rewrite (sumOfZ_ext _ (fun _ => 0)).
    + rewrite sumOfZ_zero. lia.
    + intros a Ha.
      destruct (String.eqb_spec (roomId r) (roomId a)) as [Heq|_]; [|reflexivity].
      exfalso. apply Hnot. rewrite Heq. apply in_map. exact Ha.
  - destruct Hin as [Heq|Hin]; [congruence|]. rewrite IH by assumption. lia.
Qed.

Lemma sumNights_sumOfZ l : sumNights l = sumOfZ nights l.
Proof.
  unfold sumNights. rewrite fold_left_sumZ. unfold sumZ, sumOfZ. lia.
Qed.

Lemma rooms_sum_nights (rooms : list RoomConfig) : forall l : list Booking,
  NoDup (map roomId rooms) ->
  (forall b, In b l -> In (room b) (map roomId rooms)) ->
  sumOfZ (fun r => sumOfZ nights (filter (fun b => (room b =? roomId r)%string) l)) rooms
  = sumOfZ nights l.
Proof.
  intros l Hnd. induction l as [|b l IH]; intros Hin.
  - simpl. apply sumOfZ_zero.
  - rewrite (sumOfZ_ext _
               (fun r => (if (room b =? roomId r)%string then nights b else 0)
                         + sumOfZ nights (filter (fun b' => (room b' =? roomId r)%string) l))).
    + rewrite sumOfZ_plus, sumOfZ_room, IH; auto.
      * intros b' Hb'. apply Hin. right. exact Hb'.
      * apply Hin. left. reflexivity.
    + intros r _. simpl filter.
      destruct (room b =? roomId r)%string; reflexivity.
Qed.

Lemma roomStats_sum_nights fl s e (rooms : list RoomConfig) :
  sumOfZ rs_totalNights (map (roomStat fl s e) rooms)
  = sumOfZ (fun r => sumOfZ nights (filter (fun b => (room b =? roomId r)%string) fl))
      rooms.
Proof.
  induction rooms as [|room_ rooms IH]; [reflexivity|].
  simpl. rewrite sumNights_sumOfZ, IH. reflexivity.
Qed.

(** X24. The nights of a report are the sum of the nights of its
    rooms when the rooms have distinct ids and every selected booking
    is in one of them; the rows of the rooms follow the configured
    rooms.  (A selected booking in a room that is not configured counts
    in the total and in no room.) *)
Theorem X24_totals_are_the_sums_of_the_rooms v bookings s e f rt tenantRooms r :
  reportData v bookings s e f rt tenantRooms = inr r ->
  NoDup (map roomId (roomsOf tenantRooms)) ->
  (forall b, In b (filtered bookings rt s e f) ->
             In (room b) (map roomId (roomsOf tenantRooms))) ->
  totalNights r = sumOfZ rs_totalNights (roomStats r) /\
  map rs_roomId (roomStats r) = map roomId (roomsOf tenantRooms).
Proof.
  intros E Hnd Hin. unfold reportData in E.
  destruct (eachMonthOfInterval v (parseISO s) (parseISO e)); [discriminate|].
  apply ServerProps.inr_inj in E. rewrite <- E. cbv zeta.
  cbn [totalNights roomStats]. clear E.
  split.
  - rewrite sumNights_sumOfZ, roomStats_sum_nights.
    symmetry. apply rooms_sum_nights; assumption.
  - rewrite map_map. reflexivity.
Qed.

Lemma X24_totals_are_the_sums_of_the_rooms_witness :
  match reportData V2 Examples.februaryTwice (ymd 2026 2 1) (ymd 2026 2 28) "ALL" stay [] with
  | inr r => totalNights r = sumOfZ rs_totalNights (roomStats r)
  | inl _ => False
  end.
Proof.
  destruct (reportData V2 Examples.februaryTwice (ymd 2026 2 1) (ymd 2026 2 28)
              "ALL" stay []) as [err|r] eqn:E.
  - vm_compute in E. discriminate.
  - apply (X24_totals_are_the_sums_of_the_rooms _ _ _ _ _ _ _ _ E).
    + repeat constructor; simpl; intuition discriminate.
    + intros b Hb. apply filter_In in Hb. destruct Hb as [[<-|[<-|[]]] _];
        left; reflexivity.
Defined.


End ReportProps.

(* ------------------------------------------------------------------ *)
(** ** Properties of the calendar, the list and the booking form        *)
(* ------------------------------------------------------------------ *)

Module ViewProps.
Import Calendar Client Notions ViewNotions Views CalendarProps ClientProps.

(** *** The list *)

Lemma insertByCheckIn_perm x l : Permutation (insertByCheckIn x l) (x :: l).
Proof.
  induction l as [|y l IH]; simpl; [apply Permutation_refl|].
  destruct (checkIn (booking y) <=? checkIn (booking x)); [apply Permutation_refl|].
  apply Permutation_trans with (y :: x :: l).
  - apply perm_skip, IH.
  - apply perm_swap.
Qed.

Lemma sortByCheckIn_perm l : Permutation (sortByCheckIn l) l.
Proof.
  induction l as [|x l IH]; simpl; [apply Permutation_refl|].
  apply Permutation_trans with (x :: sortByCheckIn l).
  - apply insertByCheckIn_perm.
  - apply perm_skip, IH.
Qed.

Lemma insertByCheckIn_sorted x l :
  Sorted (fun a b => checkIn (booking b) <= checkIn (booking a)) l ->
  Sorted (fun a b => checkIn (booking b) <= checkIn (booking a)) (insertByCheckIn x l).
Proof.
  induction l as [|y l IH]; simpl; intros Hs.
  - constructor; constructor.
  - destruct (Z.leb_spec (checkIn (booking y)) (checkIn (booking x))) as [Hle|Hgt].
    + constructor; [exact Hs | constructor; exact Hle].
    + inversion Hs as [|? ? Hs' Hhd]; subst. constructor; [apply IH, Hs'|].
      destruct l as [|z l]; simpl.
      * constructor. lia.
      * inversion Hhd; subst.
        destruct (checkIn (booking z) <=? checkIn (booking x)); constructor; lia.
Qed.

Lemma sortByCheckIn_sorted l :
  Sorted (fun a b => checkIn (booking b) <= checkIn (booking a)) (sortByCheckIn l).
Proof.
  induction l as [|x l IH]; simpl; [constructor|]. apply insertByCheckIn_sorted, IH.
Qed.

Lemma in_filteredBookings today bookings term f b :
  In b (filteredBookings today bookings term f) <->
  In b bookings /\ matchesSearch term b = true /\
  (f = all \/ matchesFilter today f b = true).
Proof.
  unfold filteredBookings. cbv zeta.
  split.
  - intros H. apply (Permutation_in _ (sortByCheckIn_perm _)) in H.
    destruct f; try (apply filter_In in H; destruct H as [H Hf];
                     apply filter_In in H; destruct H as [Hin Hs]; auto).
    apply filter_In in H. destruct H as [Hin Hs]. auto.
  - intros (Hin & Hs & Hf).
    apply (Permutation_in _ (Permutation_sym (sortByCheckIn_perm _))).
    assert (Hsearch : In b (filter (matchesSearch term) bookings))
      by (apply filter_In; auto).
    destruct f; try (apply filter_In; split; [exact Hsearch|];
                     destruct Hf as [Hf|Hf]; [discriminate | exact Hf]).
    exact Hsearch.
Qed.

Lemma matchesFilter_group today b :
  matchesFilter today (groupOf (statusText today b)) b = true.
Proof.
  unfold statusText, matchesFilter, parseISO. cbv zeta.
  destruct (isCanceled (status (booking b))) eqn:Hc; [reflexivity|].
  destruct (Z.eqb_spec (checkIn (booking b)) today) as [Heq|Hne].
  { simpl. apply Z.leb_le. lia. }
  destruct (Z.ltb_spec (checkIn (booking b)) today) as [H1|H1];
    destruct (Z.ltb_spec today (checkOut (booking b))) as [H2|H2];
    destruct (Z.leb_spec (checkOut (booking b)) today) as [H3|H3];
    simpl; try reflexivity; try lia; apply Z.leb_le; lia.
Qed.

Lemma matchesFilter_unique today b f g :
  checkIn (booking b) < checkOut (booking b) ->
  f <> all -> g <> all ->
  matchesFilter today f b = true -> matchesFilter today g b = true -> f = g.
Proof.
  intros Hvalid Hf Hg. unfold matchesFilter, parseISO. cbv zeta.
  destruct (isCanceled (status (booking b)));
    destruct f, g; try congruence; intros H1 H2; try discriminate;
    repeat match goal with
           | H : _ && _ = true |- _ => apply andb_true_iff in H; destruct H
           | H : (_ <=? _) = true |- _ => apply Z.leb_le in H
           | H : (_ <? _) = true |- _ => apply Z.ltb_lt in H
           end; lia.
Qed.

(** X26. The four filters of the list split the stays: a booking that
    checks out after it checks in and matches the search is listed
    under exactly one of upcoming, active, past and canceled, namely
    the one its status text belongs to (a check-in today is upcoming),
    and it is listed under all. *)
Theorem X26_list_filters_split_the_stays today bookings term b :
  In b bookings -> matchesSearch term b = true ->
  checkIn (booking b) < checkOut (booking b) ->
  In b (filteredBookings today bookings term all) /\
  In b (filteredBookings today bookings term (groupOf (statusText today b))) /\
  forall f, f <> all -> In b (filteredBookings today bookings term f) ->
            f = groupOf (statusText today b).
Proof.
  intros Hin Hs Hvalid. split; [|split].
  - apply in_filteredBookings. auto.
  - apply in_filteredBookings. split; [exact Hin|]. split; [exact Hs|].
    right. apply matchesFilter_group.
  - intros f Hf H. apply in_filteredBookings in H.
    destruct H as (_ & _ & [Hall|Hm]); [congruence|].
    apply (matchesFilter_unique today b); auto.
    + destruct (statusText today b); discriminate.
    + apply matchesFilter_group.
Qed.

Lemma X26_list_filters_split_the_stays_witness :
  In (guestStay "Ann" (ymd 2026 3 10) (ymd 2026 3 13) UPCOMING)
    (filteredBookings (ymd 2026 3 10)
       [guestStay "Ann" (ymd 2026 3 10) (ymd 2026 3 13) UPCOMING] "an" upcoming).
Proof.
  apply (X26_list_filters_split_the_stays (ymd 2026 3 10)
           [guestStay "Ann" (ymd 2026 3 10) (ymd 2026 3 13) UPCOMING] "an"
           (guestStay "Ann" (ymd 2026 3 10) (ymd 2026 3 13) UPCOMING)).
  - left. reflexivity.
  - vm_compute. reflexivity.
  - vm_compute. reflexivity.
Defined.

Lemma includes_empty hay : Server.includes "" hay = true.
Proof. destruct hay; reflexivity. Qed.

Lemma matchesSearch_empty b : matchesSearch "" b = true.
Proof.
  unfold matchesSearch. cbv zeta.
  change (Server.toLowerCase "") with ""%string. rewrite includes_empty. reflexivity.
Qed.

(** X27. The list shows the matching bookings, each once, latest
    check-in first: [filteredBookings] is a rearrangement of the
    bookings that pass the search and the filter, in descending order
    of check-in; with an empty search term and the filter all it is a
    rearrangement of all the bookings. *)
Theorem X27_list_is_complete_and_ordered today bookings term f :
  Permutation (filteredBookings today bookings term f)
    (filter (fun b => matchesSearch term b &&
                      match f with all => true | _ => matchesFilter today f b end)
       bookings) /\
  Sorted (fun a b => checkIn (booking b) <= checkIn (booking a))
    (filteredBookings today bookings term f) /\
  Permutation (filteredBookings today bookings "" all) bookings.
Proof.
  split; [|split].
  - unfold filteredBookings. cbv zeta.
    apply Permutation_trans with (1 := sortByCheckIn_perm _).
    destruct f; try (rewrite filter_filter; apply Permutation_refl).
    rewrite (filter_ext_in' (fun b => matchesSearch term b && true)
               (matchesSearch term)); [apply Permutation_refl|].
    intros b _. apply andb_true_r.
  - apply sortByCheckIn_sorted.
  - unfold filteredBookings. cbv zeta.
    apply Permutation_trans with (1 := sortByCheckIn_perm _).
    rewrite filter_all; [apply Permutation_refl|].
    intros b _. apply matchesSearch_empty.
Qed.

(** *** The calendar *)






(** *** The booking form *)

Lemma dayOfDate_dateOfIso d : Store.dayOfDate (dateOfIso d) = d.
Proof.
  unfold Store.dayOfDate, dateOfIso, Server.MS_PER_DAY.
  apply Z.div_mul. discriminate.
Qed.

(** X29. What the booking form sends always passes the server's check
    of the dates: the stay has at least one night however few the form
    holds, [calculateBookingDetails] accepts it and computes the total
    the form shows; when the tax rate is 0 the tax is 0 and the
    remaining amount it stores is the one the form shows. *)
Theorem X29_form_passes_the_date_check (f : Form) (taxRate : Q) :
  form_checkIn f < formCheckOut f /\
  exists details,
    Store.calculateBookingDetails (dateOfIso (form_checkIn f)) (dateOfIso (formCheckOut f))
      (form_nightPrice f) (form_deposit f) taxRate = inr details /\
    Store.d_nights details = Z.max 1 (form_nights f) /\
    Store.d_nights details = formCheckOut f - form_checkIn f /\
    (Store.d_totalPrice details == formTotalPrice f)%Q /\
    ((taxRate == 0)%Q ->
     (Store.d_tax details == 0)%Q /\
     (Store.d_remaining details == formRemaining f)%Q).
Proof.
  assert (Hn : formCheckOut f - form_checkIn f = Z.max 1 (form_nights f))
    by (unfold formCheckOut, format, addDays, parseISO; lia).
  split; [lia|].
  destruct (StoreProps.calculateBookingDetails_accepts
              (dateOfIso (form_checkIn f)) (dateOfIso (formCheckOut f))
              (form_nightPrice f) (form_deposit f) taxRate) as [details Hd].
  { rewrite !dayOfDate_dateOfIso. lia. }
  exists details. split; [exact Hd|].
  apply StoreProps.calculateBookingDetails_inr in Hd. destruct Hd as [_ ->].
  rewrite !dayOfDate_dateOfIso.
  cbn [Store.d_nights Store.d_totalPrice Store.d_remaining Store.d_tax].
  unfold formRemaining, formTotalPrice. rewrite Hn.
  split; [reflexivity|]. split; [reflexivity|]. split; [reflexivity|].
  intros Htax. rewrite Htax. unfold Qdiv. split; ring.
Qed.

(** *** The days of the calendar *)

Lemma pushDays_daysFrom firstDay : forall count i,
  pushDays count firstDay i = daysFrom count (firstDay + i).
Proof.
  induction count as [|count IH]; intros i; [reflexivity|].
  simpl. unfold addDays. rewrite IH. f_equal. f_equal. lia.
Qed.

Lemma daysFrom_app : forall a b d,
  daysFrom a d ++ daysFrom b (d + Z.of_nat a) = daysFrom (a + b) d.
Proof.
  induction a as [|a IH]; intros b d.
  - simpl. f_equal. lia.
  - simpl. f_equal. rewrite <- IH. f_equal. f_equal. lia.
Qed.

Lemma daysFrom_sorted : forall n d, Sorted Z.lt (daysFrom n d).
Proof.
  induction n as [|n IH]; intros d; simpl; [constructor|].
  constructor; [apply IH|]. destruct n; simpl; constructor. lia.
Qed.

Lemma startOfMonth_monthStart k : startOfMonth (monthStart k) = monthStart k.
Proof. rewrite startOfMonth_index, monthIndex_monthStart. reflexivity. Qed.

Lemma addMonths_monthStart k m : addMonths (monthStart k) m = monthStart (k + m).
Proof.
  unfold addMonths. cbv zeta. rewrite startOfMonth_monthStart.
  rewrite QueryProps.jsDate_monthStart.
  replace (yearOf (monthStart k) * 12 + (monthOf (monthStart k) - 1 + m))
    with (monthIndex (monthStart k) + m) by (unfold monthIndex; lia).
  rewrite monthIndex_monthStart.
  replace (monthStart (k + m) + (1 - 1)) with (monthStart (k + m)) by lia.
  unfold getDaysInMonth, differenceInDays.
  rewrite endOfMonth_nextMonth, ReportProps.nextMonth_monthStart, startOfMonth_monthStart.
  pose proof (monthStart_step (k + m)). lia.
Qed.

Lemma jsDate_startOfMonth d : jsDate (yearOf d) (monthOf d - 1) 1 = startOfMonth d.
Proof. reflexivity. Qed.

Lemma generateMonthDays_monthStart j :
  generateMonthDays (yearOf (monthStart j)) (monthOf (monthStart j) - 1)
  = daysFrom (Z.to_nat (monthStart (j + 1) - monthStart j)) (monthStart j).
Proof.
  unfold generateMonthDays. cbv zeta.
  rewrite !jsDate_startOfMonth.
  rewrite !startOfMonth_monthStart, endOfMonth_nextMonth,
    ReportProps.nextMonth_monthStart.
  unfold differenceInCalendarDays. rewrite pushDays_daysFrom.
  f_equal; [f_equal; lia | lia].
Qed.

Lemma calendarLoop_days k : forall count m,
  calendarLoop count (monthStart k) m
  = daysFrom (Z.to_nat (monthStart (k + m + Z.of_nat count) - monthStart (k + m)))
      (monthStart (k + m)).
Proof.
  induction count as [|count IH]; intros m.
  - replace (k + m + Z.of_nat 0) with (k + m) by lia.
    replace (monthStart (k + m) - monthStart (k + m)) with 0 by lia. reflexivity.
  - change (calendarLoop (S count) (monthStart k) m)
      with (generateMonthDays (yearOf (addMonths (monthStart k) m))
              (monthOf (addMonths (monthStart k) m) - 1)
            ++ calendarLoop count (monthStart k) (m + 1)).
    rewrite addMonths_monthStart, generateMonthDays_monthStart, IH.
    pose proof (monthStart_step (k + m)) as Hstep.
    assert (Hmono : monthStart (k + m + 1) <= monthStart (k + (m + 1) + Z.of_nat count)).
    { apply QueryProps.monthStart_le. lia. }
    replace (k + (m + 1)) with (k + m + 1) in * by lia.
    replace (monthStart (k + m + 1))
      with (monthStart (k + m)
            + Z.of_nat (Z.to_nat (monthStart (k + m + 1) - monthStart (k + m)))) at 3 by lia.
    rewrite daysFrom_app.
    replace (k + m + Z.of_nat (S count)) with (k + m + 1 + Z.of_nat count) by lia.
    f_equal. lia.
Qed.

(** X30. The calendar has every day of 25 months, once and in order:
    the days run without gap from the first day of the month twelve
    months before the current one to the last day of the month twelve
    months after it, and the current day is among them. *)
Theorem X30_calendar_days_are_gap_free now :
  calendarDays now
  = daysFrom (Z.to_nat (monthStart (monthIndex now + 13) - monthStart (monthIndex now - 12)))
      (monthStart (monthIndex now - 12)) /\
  (forall d, In d (calendarDays now) <->
     monthStart (monthIndex now - 12) <= d < monthStart (monthIndex now + 13)) /\
  Sorted Z.lt (calendarDays now) /\
  In now (calendarDays now).
Proof.
  assert (E : calendarDays now
              = daysFrom (Z.to_nat (monthStart (monthIndex now + 13)
                                    - monthStart (monthIndex now - 12)))
                  (monthStart (monthIndex now - 12))).
  { unfold calendarDays. cbv zeta. rewrite startOfMonth_index, calendarLoop_days.
    replace (monthIndex now + -12 + Z.of_nat 25) with (monthIndex now + 13) by lia.
    replace (monthIndex now + -12) with (monthIndex now - 12) by lia. reflexivity. }
  assert (Hmono : monthStart (monthIndex now - 12) < monthStart (monthIndex now + 13))
    by (apply monthStart_mono; lia).
  assert (Hin : forall d, In d (calendarDays now) <->
            monthStart (monthIndex now - 12) <= d < monthStart (monthIndex now + 13)).
  { intros d. rewrite E, in_daysFrom. lia. }
  split; [exact E|]. split; [exact Hin|]. split; [rewrite E; apply daysFrom_sorted|].
  apply Hin. pose proof (month_span now) as [[Hs He] _].
  rewrite startOfMonth_index in Hs. rewrite nextMonth_index in He.
  pose proof (QueryProps.monthStart_le (monthIndex now - 12) (monthIndex now)).
  pose proof (QueryProps.monthStart_le (monthIndex now + 1) (monthIndex now + 13)).
  lia.
Qed.

End ViewProps.
